(** * Verification of the sitee audit backend against its specification

    The development embeds three parts of [backend/app/services]:

    - [llm_auditor.py]: the deterministic post-processing of the
      [decision_readiness_audit] array and its coverage score
      ([LLMAuditor.run_stage_a]) and the QA gate
      ([LLMAuditor._qa_validate_and_fix], called from [run_audit]);
    - [scraper.py]: the crawl controller ([WebScraper.scrape_domain]) with the
      robots check, the page fetcher and the page table of [models.py];
    - [evidence_extractor.py]: the evidence layer
      ([EvidenceExtractor.build_evidence_layer]).

    Conventions of the embedding.  Python [str] is modelled by [string]; the
    character classes ([lower], whitespace) are the ASCII ones, so the model
    is exact on ASCII text.  Library code the repository calls but does not
    contain (the HTTP client, BeautifulSoup, [urllib.parse], [re], [hashlib],
    the wall clock) enters as Section variables: the theorems hold for every
    behaviour of these collaborators.  Timings of the debug record depend on
    the wall clock only and are left out. *)

From Stdlib Require Import ZArith QArith Qminmax String Ascii List Bool Lia DecimalString Sorted.
From stdpp Require Import gmap strings list sets.
Import ListNotations.

Local Open Scope string_scope.
Local Open Scope list_scope.

(** ** Python built-ins on strings *)

Module Py.

Definition is_space (c : ascii) : bool :=
  let n := nat_of_ascii c in
  ((9 <=? n)%nat && (n <=? 13)%nat) || ((28 <=? n)%nat && (n <=? 32)%nat).

Definition lower_ascii (c : ascii) : ascii :=
  let n := nat_of_ascii c in
  if ((65 <=? n)%nat && (n <=? 90)%nat) then ascii_of_nat (n + 32) else c.

(** [s.lower()] *)
Fixpoint lower (s : string) : string :=
  match s with
  | EmptyString => EmptyString
  | String c r => String (lower_ascii c) (lower r)
  end.

Fixpoint startswith (p s : string) : bool :=
  match p, s with
  | EmptyString, _ => true
  | String a p', String b s' => if Ascii.eqb a b then startswith p' s' else false
  | String _ _, EmptyString => false
  end.

(** [sub in s] *)
Fixpoint contains (sub s : string) : bool :=
  startswith sub s ||
  match s with
  | EmptyString => false
  | String _ r => contains sub r
  end.

Fixpoint drop (n : nat) (s : string) : string :=
  match n, s with
  | O, _ => s
  | S k, String _ r => drop k r
  | S _, EmptyString => EmptyString
  end.

(** [s[:n]] *)
Fixpoint take (n : nat) (s : string) : string :=
  match n, s with
  | O, _ => EmptyString
  | S k, String c r => String c (take k r)
  | S _, EmptyString => EmptyString
  end.

(** [s.replace(old, new)] for a non-empty [old]; the fuel is the length of
    [s], which bounds the number of positions visited. *)
Fixpoint replace_fuel (fuel : nat) (old new s : string) : string :=
  match fuel with
  | O => s
  | S k =>
      match s with
      | EmptyString => EmptyString
      | String c r =>
          if startswith old s
          then new ++ replace_fuel k old new (drop (String.length old) s)
          else String c (replace_fuel k old new r)
      end
  end.

Definition replace (old new s : string) : string :=
  replace_fuel (String.length s) old new s.

Fixpoint lstrip_by (f : ascii -> bool) (s : string) : string :=
  match s with
  | EmptyString => EmptyString
  | String c r => if f c then lstrip_by f r else s
  end.

Fixpoint rstrip_by (f : ascii -> bool) (s : string) : string :=
  match s with
  | EmptyString => EmptyString
  | String c r =>
      match rstrip_by f r with
      | EmptyString => if f c then EmptyString else String c EmptyString
      | r' => String c r'
      end
  end.

Definition strip_by (f : ascii -> bool) (s : string) : string :=
  lstrip_by f (rstrip_by f s).

(** [s.strip()], [s.rstrip()], [s.strip("/")], [s.rstrip("/")], [s.rstrip(".")] *)
Definition strip : string -> string := strip_by is_space.
Definition rstrip : string -> string := rstrip_by is_space.
Definition strip_char (c : ascii) : string -> string := strip_by (Ascii.eqb c).
Definition rstrip_char (c : ascii) : string -> string := rstrip_by (Ascii.eqb c).

(** [s.split(sep)] for a one-character separator. *)
Fixpoint split_char (sep : ascii) (s : string) : list string :=
  match s with
  | EmptyString => [EmptyString]
  | String c r =>
      if Ascii.eqb c sep then EmptyString :: split_char sep r
      else match split_char sep r with
           | [] => [String c EmptyString]
           | w :: ws => String c w :: ws
           end
  end.

(** [len(s.split())]: the number of maximal runs of non-whitespace. *)
Fixpoint count_words_aux (in_word : bool) (s : string) : nat :=
  match s with
  | EmptyString => 0
  | String c r =>
      if is_space c then count_words_aux false r
      else (if in_word then 0 else 1) + count_words_aux true r
  end.

Definition count_words (s : string) : nat := count_words_aux false s.

(** [sep.join(l)] *)
Fixpoint join (sep : string) (l : list string) : string :=
  match l with
  | [] => EmptyString
  | [x] => x
  | x :: r => x ++ sep ++ join sep r
  end.

(** [s.find(needle)], [None] for -1. *)
Fixpoint find (needle s : string) : option nat :=
  if startswith needle s then Some 0
  else match s with
       | EmptyString => None
       | String _ r => option_map S (find needle r)
       end.

(** [str(n)] for a natural number. *)
Definition str_of_nat (n : nat) : string := NilEmpty.string_of_uint (Nat.to_uint n).

(** [x or d] where [x] is [None] or a string. *)
Definition or_str (x : option string) (d : string) : string :=
  match x with
  | Some (String c r) => String c r
  | _ => d
  end.

(** Truth value of a string and of a list. *)
Definition nonempty (s : string) : bool :=
  match s with EmptyString => false | _ => true end.

Definition nonnil {A} (l : list A) : bool :=
  match l with [] => false | _ => true end.

(** The exceptions the modelled code can raise. *)
Inductive exn :=
  TypeError | AttributeError | IndexError | KeyError | ValueError | RecursionError.

Inductive result (A : Type) :=
| Ok (a : A)
| Raise (e : exn).
Arguments Ok {A} a.
Arguments Raise {A} e.

Definition bind {A B} (m : result A) (k : A -> result B) : result B :=
  match m with
  | Ok a => k a
  | Raise e => Raise e
  end.

End Py.

Export Py.

(** ** JSON documents

    The generator's output after [json.loads] and the audit document handed
    to the QA gate are trees of Python dicts, lists, strings, numbers, booleans
    and [None].  A dict keeps insertion order; it is an association list, read
    with [dget] ([d.get(k)]) and written with [dset] ([d[k] = v]: the entry is
    replaced in place when the key exists and appended otherwise). *)

Module Json.

#[warnings="-register-all"]
Inductive json :=
| JNull
| JBool (b : bool)
| JInt (z : Z)
| JFloat (q : Q)
| JStr (s : string)
| JArr (items : list json)
| JObj (fields : list (string * json)).

Definition dict := list (string * json).

Fixpoint dget (k : string) (d : dict) : option json :=
  match d with
  | [] => None
  | (k', v) :: r => if String.eqb k k' then Some v else dget k r
  end.

Fixpoint dset (k : string) (v : json) (d : dict) : dict :=
  match d with
  | [] => [(k, v)]
  | (k', v') :: r => if String.eqb k k' then (k', v) :: r else (k', v') :: dset k v r
  end.

(** [bool(v)] *)
Definition truthy (v : json) : bool :=
  match v with
  | JNull => false
  | JBool b => b
  | JInt z => negb (z =? 0)%Z
  | JFloat q => negb (Qeq_bool q 0)
  | JStr s => nonempty s
  | JArr l => nonnil l
  | JObj d => nonnil d
  end.

(** [v == s] for a string literal [s] *)
Definition eq_str (v : json) (s : string) : bool :=
  match v with
  | JStr t => String.eqb t s
  | _ => false
  end.

(** [v == n] for an integer [n]: Python compares numbers by value and
    treats [True]/[False] as 1/0. *)
Definition eq_int (v : json) (n : Z) : bool :=
  match v with
  | JInt z => (z =? n)%Z
  | JFloat q => Qeq_bool q (inject_Z n)
  | JBool b => ((if b then 1 else 0) =? n)%Z
  | _ => false
  end.

Definition is_dict (v : json) : bool :=
  match v with JObj _ => true | _ => false end.

Definition is_list (v : json) : bool :=
  match v with JArr _ => true | _ => false end.

Definition is_str (v : json) : bool :=
  match v with JStr _ => true | _ => false end.

End Json.

Export Json.

(** ** Post-processing of the decision readiness audit
    ([LLMAuditor.run_stage_a], the block that pads the array and settles
    [decision_coverage_score]) *)

Module PostProcess.

(** The padding record [{"element_name": f"Decision Element {i+1}", ...}]. *)
Definition padding_element (i : nat) : json :=
  JObj [ ("element_name", JStr ("Decision Element " ++ str_of_nat (i + 1)));
         ("status", JStr "missing");
         ("what_ai_requires", JStr "AI needs structured information.");
         ("what_we_found", JStr "Not detected in evidence.");
         ("impact_on_recommendation", JStr "AI cannot make informed recommendations.");
         ("evidence_refs", JArr []) ].

(** [[padding_element(i) for i in range(n)]] *)
Definition minimal_padding (n : nat) : list json := List.map padding_element (seq 0 n).

(** [fallback_elements] as the code settles it: the value under
    ["_fallback_decision_elements"] (default [[]]), replaced by the minimal
    padding when it is falsy.  [elements + fallback_elements[:needed]] raises
    for anything but a list. *)
Definition fallback_elements (audit_json : dict) (n_elements : nat) : result (list json) :=
  let fb := match dget "_fallback_decision_elements" audit_json with
            | Some v => v
            | None => JArr []
            end in
  if negb (truthy fb) then Ok (minimal_padding (12 - n_elements))
  else match fb with
       | JArr l => Ok l
       | _ => Raise TypeError
       end.

(** [e.get("status")] on an element; a non-dict element has no [get]. *)
Definition status_of (e : json) : result (option json) :=
  match e with
  | JObj d => Ok (dget "status" d)
  | _ => Raise AttributeError
  end.

Definition status_in (names : list string) (st : option json) : bool :=
  match st with
  | Some v => existsb (eq_str v) names
  | None => false
  end.

(** [sum(1 for e in elements if e.get("status") in names)] *)
Fixpoint count_status (names : list string) (elements : list json) : result nat :=
  match elements with
  | [] => Ok 0%nat
  | e :: r =>
      bind (status_of e) (fun st =>
      bind (count_status names r) (fun n =>
      Ok ((if status_in names st then 1 else 0) + n)%nat))
  end.

Definition calculated_score (elements : list json) : result json :=
  bind (count_status ["present"] elements) (fun present =>
  bind (count_status ["weak"; "fragmented"] elements) (fun weak =>
  bind (count_status ["missing"] elements) (fun missing =>
  Ok (JObj [ ("present", JInt (Z.of_nat present));
             ("weak", JInt (Z.of_nat weak));
             ("missing", JInt (Z.of_nat missing));
             ("total", JInt (Z.of_nat (List.length elements))) ])))).

(** The guard deciding whether the calculated score replaces the
    generator's: the generator's score is missing, falsy, not a dict, has
    [total] 0 (or none), or a [total] different from the number of elements. *)
Definition use_calculated (llm_score : option json) (n_elements : nat) : bool :=
  match llm_score with
  | Some (JObj d) =>
      if negb (nonnil d) then true
      else if eq_int (match dget "total" d with Some t => t | None => JInt 0 end) 0 then true
      else match dget "total" d with
           | Some t => negb (eq_int t (Z.of_nat n_elements))
           | None => true
           end
  | _ => true
  end.

Definition postprocess_decision_score (audit_json : dict) : result dict :=
  match dget "decision_readiness_audit" audit_json with
  | Some (JArr elements) =>
      bind (if (List.length elements <? 12)%nat
            then bind (fallback_elements audit_json (List.length elements)) (fun fb =>
                 let needed := (12 - List.length elements)%nat in
                 let padded := elements ++ firstn needed fb in
                 Ok (dset "decision_readiness_audit" (JArr padded) audit_json, padded))
            else Ok (audit_json, elements)) (fun '(audit_json1, elements1) =>
      bind (calculated_score elements1) (fun score =>
      if use_calculated (dget "decision_coverage_score" audit_json1) (List.length elements1)
      then Ok (dset "decision_coverage_score" score audit_json1)
      else Ok audit_json1))
  | _ => Ok audit_json
  end.

(** The three counts of a score object. *)
Definition score_counts (score : json) : option (Z * Z * Z) :=
  match score with
  | JObj d =>
      match dget "present" d, dget "weak" d, dget "missing" d with
      | Some (JInt p), Some (JInt w), Some (JInt m) => Some (p, w, m)
      | _, _, _ => None
      end
  | _ => None
  end.

Definition known_status (e : json) : bool :=
  match e with
  | JObj d => status_in ["present"; "weak"; "fragmented"; "missing"] (dget "status" d)
  | _ => false
  end.

(** The number of elements whose status is one of [names] (elements that
    are dicts). *)
Definition count_in (names : list string) (elements : list json) : nat :=
  List.length (List.filter (fun e => match e with
                                     | JObj d => status_in names (dget "status" d)
                                     | _ => false
                                     end) elements).

Definition score_of_counts (present weak missing total : nat) : json :=
  JObj [ ("present", JInt (Z.of_nat present));
         ("weak", JInt (Z.of_nat weak));
         ("missing", JInt (Z.of_nat missing));
         ("total", JInt (Z.of_nat total)) ].

(** *** Dict laws *)

Lemma dget_dset_eq k v d : dget k (dset k v d) = Some v.
Proof.
  induction d as [|[k' v'] r IH]; simpl.
  - now rewrite String.eqb_refl.
  - destruct (String.eqb k k') eqn:E; simpl; rewrite E; auto.
Qed.

Lemma dget_dset_ne k k' v d : k <> k' -> dget k' (dset k v d) = dget k' d.
Proof.
  intros Hne. induction d as [|[k2 v2] r IH]; simpl.
  - destruct (String.eqb k' k) eqn:E; auto.
    apply String.eqb_eq in E. congruence.
  - destruct (String.eqb k k2) eqn:E; simpl.
    + apply String.eqb_eq in E. subst k2.
      destruct (String.eqb k' k) eqn:E2; auto.
      apply String.eqb_eq in E2. congruence.
    + now rewrite IH.
Qed.

(** *** The recount *)

Lemma count_status_dicts names elements :
  Forall (fun e => is_dict e = true) elements ->
  count_status names elements = Ok (count_in names elements).
Proof.
  induction 1 as [|e r He _ IH]; simpl; auto.
  destruct e; try discriminate. simpl. rewrite IH. simpl.
  unfold count_in. simpl. now destruct (status_in names (dget "status" fields)).
Qed.

Lemma calculated_score_dicts elements :
  Forall (fun e => is_dict e = true) elements ->
  calculated_score elements =
  Ok (score_of_counts (count_in ["present"] elements)
                      (count_in ["weak"; "fragmented"] elements)
                      (count_in ["missing"] elements)
                      (List.length elements)).
Proof.
  intros H. unfold calculated_score. now rewrite !count_status_dicts.
Qed.

Lemma status_partition (st : option json) :
  status_in ["present"; "weak"; "fragmented"; "missing"] st = true ->
  ((if status_in ["present"] st then 1 else 0)
   + (if status_in ["weak"; "fragmented"] st then 1 else 0)
   + (if status_in ["missing"] st then 1 else 0) = 1)%nat.
Proof.
  destruct st as [v|]; simpl; try discriminate.
  destruct v; simpl; try discriminate.
  destruct (String.eqb s "present") eqn:E1.
  { apply String.eqb_eq in E1. subst. reflexivity. }
  destruct (String.eqb s "weak") eqn:E2.
  { apply String.eqb_eq in E2. subst. reflexivity. }
  destruct (String.eqb s "fragmented") eqn:E3.
  { apply String.eqb_eq in E3. subst. reflexivity. }
  destruct (String.eqb s "missing") eqn:E4; simpl; [reflexivity | discriminate].
Qed.

Lemma counts_sum_known elements :
  Forall (fun e => known_status e = true) elements ->
  (count_in ["present"] elements + count_in ["weak"; "fragmented"] elements
   + count_in ["missing"] elements = List.length elements)%nat.
Proof.
  induction 1 as [|e r He _ IH]; [reflexivity|].
  destruct e; try discriminate. unfold known_status in He.
  pose proof (status_partition _ He) as Hp.
  unfold count_in in *. simpl List.filter. simpl List.length.
  destruct (status_in ["present"] (dget "status" fields));
    destruct (status_in ["weak"; "fragmented"] (dget "status" fields));
    destruct (status_in ["missing"] (dget "status" fields));
    simpl in *; lia.
Qed.

Lemma minimal_padding_length n : List.length (minimal_padding n) = n.
Proof. unfold minimal_padding. now rewrite List.length_map, List.length_seq. Qed.

Lemma minimal_padding_known n :
  Forall (fun e => known_status e = true) (minimal_padding n).
Proof.
  unfold minimal_padding. apply List.Forall_forall. intros e He.
  apply List.in_map_iff in He. destruct He as [i [<- _]]. reflexivity.
Qed.

(** Without a ["_fallback_decision_elements"] entry the padding is the
    minimal one. *)
Lemma fallback_elements_default audit_json n :
  dget "_fallback_decision_elements" audit_json = None ->
  fallback_elements audit_json n = Ok (minimal_padding (12 - n)).
Proof. intros H. unfold fallback_elements. now rewrite H. Qed.

(** *** A generation output with 8 of 12 entries and a score of its own *)

Definition missing_element (name : string) : json :=
  JObj [ ("element_name", JStr name); ("status", JStr "missing");
         ("what_ai_requires", JStr "r"); ("what_we_found", JStr "f");
         ("impact_on_recommendation", JStr "i"); ("evidence_refs", JArr []) ].

Definition eight_elements : list json :=
  List.map missing_element ["e1"; "e2"; "e3"; "e4"; "e5"; "e6"; "e7"; "e8"].

Definition output_with_own_score : dict :=
  [ ("decision_readiness_audit", JArr eight_elements);
    ("decision_coverage_score", score_of_counts 5 5 5 12) ].

(** C1, as stated, fails: the array of 8 entries (all "missing") is padded to
    12, the recount is 0 present, 0 weak, 12 missing, but the generator's
    score (5, 5, 5, total 12) stays in the document because its total equals
    the padded length; its three counts sum to 15, not to 12. *)
Lemma generator_score_survives_recount :
  exists out padded,
    postprocess_decision_score output_with_own_score = Ok out /\
    dget "decision_readiness_audit" out = Some (JArr padded) /\
    List.length padded = 12%nat /\
    calculated_score padded = Ok (score_of_counts 0 0 12 12) /\
    dget "decision_coverage_score" out = Some (score_of_counts 5 5 5 12) /\
    score_counts (score_of_counts 5 5 5 12) = Some (5, 5, 5)%Z /\
    (5 + 5 + 5 <> 12)%Z.
Proof.
  eexists. eexists.
  split; [vm_compute; reflexivity|].
  split; [vm_compute; reflexivity|].
  repeat split; try reflexivity. lia.
Qed.

(** C1, amended.  An array of fewer than 12 dict entries is padded to exactly
    12 (the fallback list holds at least the missing number of entries; it is
    the minimal padding unless the document brings a non-empty
    ["_fallback_decision_elements"] list).  The recount has total 12, and its
    present, weak and missing counts sum to 12 when every entry carries one of
    the four statuses.  The recount is stored exactly when the generator's
    score is missing, falsy, not a dict, or has a total of 0 or different
    from 12; otherwise the generator's score stays as it is. *)
Theorem postprocess_pads_and_settles_score
    (audit_json : dict) (elements fb : list json) :
  dget "decision_readiness_audit" audit_json = Some (JArr elements) ->
  (List.length elements < 12)%nat ->
  fallback_elements audit_json (List.length elements) = Ok fb ->
  (12 - List.length elements <= List.length fb)%nat ->
  let padded := elements ++ firstn (12 - List.length elements) fb in
  Forall (fun e => is_dict e = true) padded ->
  let recount := score_of_counts (count_in ["present"] padded)
                                 (count_in ["weak"; "fragmented"] padded)
                                 (count_in ["missing"] padded) 12 in
  exists out,
    postprocess_decision_score audit_json = Ok out /\
    dget "decision_readiness_audit" out = Some (JArr padded) /\
    List.length padded = 12%nat /\
    dget "decision_coverage_score" out =
      (if use_calculated (dget "decision_coverage_score" audit_json) 12
       then Some recount
       else dget "decision_coverage_score" audit_json) /\
    (Forall (fun e => known_status e = true) padded ->
     (count_in ["present"] padded + count_in ["weak"; "fragmented"] padded
      + count_in ["missing"] padded = 12)%nat).
Proof.
  intros Hget Hlt Hfb Hlen padded Hdicts recount.
  assert (Hpl : List.length padded = 12%nat).
  { unfold padded. rewrite List.length_app, List.length_firstn. lia. }
  assert (Hne : "decision_readiness_audit" <> "decision_coverage_score")
    by discriminate.
  unfold postprocess_decision_score. rewrite Hget.
  apply Nat.ltb_lt in Hlt. rewrite Hlt, Hfb. cbn [bind].
  fold padded. rewrite (calculated_score_dicts padded Hdicts). cbn [bind].
  rewrite Hpl, (dget_dset_ne _ _ _ _ Hne). fold recount.
  destruct (use_calculated (dget "decision_coverage_score" audit_json) 12) eqn:Huse.
  - eexists. split; [reflexivity|].
    assert (Hne' : "decision_coverage_score" <> "decision_readiness_audit")
      by discriminate.
    rewrite (dget_dset_ne _ _ _ _ Hne'), !dget_dset_eq.
    repeat split; auto.
    intros Hk. rewrite <- Hpl. now apply counts_sum_known.
  - eexists. split; [reflexivity|].
    rewrite dget_dset_eq, (dget_dset_ne _ _ _ _ Hne).
    repeat split; auto.
    intros Hk. rewrite <- Hpl. now apply counts_sum_known.
Qed.

Lemma postprocess_pads_and_settles_score_witness :
  exists out,
    postprocess_decision_score output_with_own_score = Ok out /\
    dget "decision_readiness_audit" out
      = Some (JArr (eight_elements ++ firstn (12 - 8) (minimal_padding 4))) /\
    List.length (eight_elements ++ firstn (12 - 8) (minimal_padding 4)) = 12%nat.
Proof.
  destruct (postprocess_pads_and_settles_score output_with_own_score
              eight_elements (minimal_padding 4)) as [out [H1 [H2 [H3 _]]]].
  - reflexivity.
  - simpl. lia.
  - reflexivity.
  - simpl. lia.
  - vm_compute. repeat constructor.
  - exists out. repeat split; assumption.
Defined.

End PostProcess.

(** ** The QA gate ([LLMAuditor._qa_validate_and_fix] and its call in
    [LLMAuditor.run_audit])

    The gate mutates the audit document in place.  The document object is
    the state of a small state-and-exception monad: a computation maps the
    document to an outcome and the document as it is when the computation
    ends, by a return or by a raise. *)

Module QA.

Definition M (A : Type) : Type := json -> result A * json.

Definition ret {A} (a : A) : M A := fun doc => (Ok a, doc).
Definition raise {A} (e : exn) : M A := fun doc => (Raise e, doc).
Definition mbind {A B} (m : M A) (k : A -> M B) : M B :=
  fun doc => match m doc with
             | (Ok a, doc1) => k a doc1
             | (Raise e, doc1) => (Raise e, doc1)
             end.
Definition read : M json := fun doc => (Ok doc, doc).
Definition modify (f : json -> json) : M unit := fun doc => (Ok tt, f doc).
Definition lift {A} (r : result A) : M A := fun doc => (r, doc).

Notation "'let*' x ':=' m 'in' k" := (mbind m (fun x => k))
  (at level 10, x name, m at level 200, k at level 200).
Notation "m '>>' k" := (mbind m (fun _ => k))
  (at level 100, right associativity).

(** *** [dehedge] *)

Definition is_word_char (c : ascii) : bool :=
  let n := nat_of_ascii c in
  ((48 <=? n)%nat && (n <=? 57)%nat) || ((65 <=? n)%nat && (n <=? 90)%nat)
  || ((97 <=? n)%nat && (n <=? 122)%nat) || (n =? 95)%nat.

(** [alt] (lower case) matches at the start of [s], ignoring case. *)
Fixpoint startswith_ci (alt s : string) : bool :=
  match alt, s with
  | EmptyString, _ => true
  | String a alt', String b s' =>
      if Ascii.eqb a (lower_ascii b) then startswith_ci alt' s' else false
  | String _ _, EmptyString => false
  end.

Definition at_word_end (s : string) : bool :=
  match s with
  | EmptyString => true
  | String c _ => negb (is_word_char c)
  end.

(** The first alternative of [(a1|a2|...)\b] that matches at the start of
    [s]; the result is the length of the match. *)
Fixpoint match_alt (alts : list string) (s : string) : option nat :=
  match alts with
  | [] => None
  | a :: r =>
      if startswith_ci a s && at_word_end (drop (String.length a) s)
      then Some (String.length a)
      else match_alt r s
  end.

(** [re.compile(r"\b(a1|a2|...)\b", re.IGNORECASE).sub(repl, s)]; the
    alternatives begin and end with a letter. *)
Fixpoint sub_words (fuel : nat) (alts : list string) (repl : string)
    (prev_word : bool) (s : string) : string :=
  match fuel with
  | O => s
  | S k =>
      match s with
      | EmptyString => EmptyString
      | String c r =>
          match (if prev_word then None else match_alt alts s) with
          | Some n => repl ++ sub_words k alts repl true (drop n s)
          | None => String c (sub_words k alts repl (is_word_char c) r)
          end
      end
  end.

(** [re.sub(r"\s{2,}", " ", s)] *)
Fixpoint collapse_spaces (fuel : nat) (s : string) : string :=
  match fuel with
  | O => s
  | S k =>
      match s with
      | EmptyString => EmptyString
      | String c r =>
          if is_space c
          then match r with
               | String c2 _ =>
                   if is_space c2
                   then String " "%char (collapse_spaces k (lstrip_by is_space r))
                   else String c (collapse_spaces k r)
               | EmptyString => String c EmptyString
               end
          else String c (collapse_spaces k r)
      end
  end.

Definition hedge_phrases : list string := ["might be"; "may be"; "could be"].
Definition hedge_words : list string :=
  ["might"; "may"; "could"; "maybe"; "likely"; "potentially"].

Definition dehedge (text : string) : string :=
  let t1 := sub_words (String.length text) hedge_phrases "is" false text in
  let t2 := sub_words (String.length t1) hedge_words EmptyString false t1 in
  strip (collapse_spaces (String.length t2) t2).

(** *** The gate *)

Section Gate.

(** [str(v)] for numbers, lists and dicts, which can raise ([RecursionError]
    for a deeply nested value, [ValueError] for an integer beyond the digit
    limit), and [int(s)] for a string ([None] when it raises [ValueError]):
    Python built-ins. *)
Variable repr : json -> result string.
Variable int_of_str : string -> option Z.

Definition dq : string := String (ascii_of_nat 34) EmptyString.

(** [str(v)] *)
Definition py_str (v : json) : result string :=
  match v with
  | JStr s => Ok s
  | JNull => Ok "None"
  | JBool true => Ok "True"
  | JBool false => Ok "False"
  | _ => repr v
  end.

(** [int(x)], [None] when it raises. *)
Definition py_int (x : json) : option Z :=
  match x with
  | JInt z => Some z
  | JBool b => Some (if b then 1 else 0)%Z
  | JFloat q => Some (Z.quot (Qnum q) (Zpos (Qden q)))
  | JStr s => int_of_str s
  | _ => None
  end.

(** [str(o or "")] for the result [o] of a [get] *)
Definition str_or_empty (o : option json) : result string :=
  match o with
  | Some v => if truthy v then py_str v else Ok EmptyString
  | None => Ok EmptyString
  end.

(** [v[0]] *)
Definition index0 (v : json) : result json :=
  match v with
  | JArr (x :: _) => Ok x
  | JArr [] => Raise IndexError
  | JStr (String c _) => Ok (JStr (String c EmptyString))
  | JStr EmptyString => Raise IndexError
  | JObj _ => Raise KeyError
  | _ => Raise TypeError
  end.

Definition sub_dict (k : string) (d : dict) : dict :=
  match dget k d with
  | Some (JObj x) => x
  | _ => []
  end.

Definition sub_list (k : string) (d : dict) : list json :=
  match dget k d with
  | Some (JArr l) => l
  | _ => []
  end.

(** [company_name]: the profile's name, else the first sampled URL. *)
Definition company_name_of (doc cp : dict) : result string :=
  bind (str_or_empty (dget "company_name" cp)) (fun s =>
    let first := strip s in
    if nonempty first then Ok first
    else
      bind (match dget "appendix" doc with
            | Some (JObj appendix) =>
                match dget "sampled_urls" appendix with
                | Some v => index0 v
                | None => index0 (JArr [JStr "this domain"])
                end
            | _ => Ok (JStr "this domain")
            end) py_str).

Definition services_of (cp : dict) : list string :=
  flat_map (fun s => match s with
                     | JStr t => if nonempty (strip t) then [strip t] else []
                     | _ => []
                     end) (sub_list "services_detected" cp).

Definition top_service_of (services : list string) : string :=
  match services with
  | s :: _ => s
  | [] => "your core service"
  end.

Definition ensure_refs (evidence : list json) (refs : option json) : list Z :=
  let refs := match refs with Some (JArr l) => l | _ => [] end in
  let out := flat_map (fun x => match py_int x with
                                | Some n =>
                                    if ((0 <=? n)%Z && (n <? Z.of_nat (List.length evidence))%Z)
                                    then [n] else []
                                | None => []
                                end) refs in
  let out := if negb (nonnil out) && nonnil evidence then [0%Z] else out in
  firstn 3 out.

(** [for k in keys: if isinstance(d.get(k), str): d[k] = f(d[k])] *)
Definition map_str_fields (f : string -> string) (keys : list string) (d : dict) : dict :=
  fold_left (fun d k => match dget k d with
                        | Some (JStr s) => dset k (JStr (f s)) d
                        | _ => d
                        end) keys d.

Definition reason_text_keys : list string :=
  ["how_llms_decide"; "what_we_found_on_your_site"; "what_ai_does_instead";
   "what_must_be_built"].

Definition build_default (top_service : string) : string :=
  "Build: " ++ dq ++ "How " ++ top_service ++ " Works" ++ dq ++ " + " ++ dq
  ++ top_service ++ " Pricing & Packages" ++ dq ++ " + a structured FAQ block.".

(** The first half of the body of the loop over
    [stage_2_why_ai_chooses_others], for a dict [r]: the writes of
    [evidence_refs], of the de-hedged texts and of [what_must_be_built]. *)
Definition prepare_reason (services : list string) (evidence : list json) (r : dict)
  : dict :=
  let top_service := top_service_of services in
  let r := dset "evidence_refs"
             (JArr (List.map JInt (ensure_refs evidence (dget "evidence_refs" r)))) r in
  let r := map_str_fields dehedge reason_text_keys r in
  match dget "what_must_be_built" r with
  | Some (JStr wmb) =>
      if negb (nonempty (strip wmb))
      then dset "what_must_be_built" (JStr (build_default top_service)) r
      else if negb (contains "How " wmb) && negb (contains "Pricing" wmb)
              && negb (contains (lower top_service) (lower wmb))
      then dset "what_must_be_built"
             (JStr (rstrip_char "."%char wmb ++ " Example: " ++ dq ++ "How "
                    ++ top_service ++ " Works" ++ dq ++ ".")) r
      else r
  | _ => dset "what_must_be_built" (JStr (build_default top_service)) r
  end.

(** The elements of a list display, evaluated in order: the first that
    raises ends the evaluation. *)
Fixpoint all_ok {A} (l : list (result A)) : result (list A) :=
  match l with
  | [] => Ok []
  | x :: rest => bind x (fun a => bind (all_ok rest) (fun r => Ok (a :: r)))
  end.

(** The body of the loop over [stage_2_why_ai_chooses_others], for a dict
    [r]: the outcome, and [r] as the body leaves it.  The dict is mutated in
    place, so when [str] raises in the second half the writes of the first
    half are there. *)
Definition fix_reason (company_name : string) (services : list string)
    (evidence : list json) (r : dict) : result unit * dict :=
  let top_service := top_service_of services in
  let r := prepare_reason services evidence r in
  match all_ok (List.map (fun k => str_or_empty (dget k r)) reason_text_keys) with
  | Raise e => (Raise e, r)
  | Ok parts =>
      let blob := lower (join " " parts) in
      if contains (lower company_name) blob
         || existsb (fun s => contains (lower s) blob) (firstn 3 services)
      then (Ok tt, r)
      else
        match str_or_empty (dget "what_we_found_on_your_site" r) with
        | Raise e => (Raise e, r)
        | Ok found0 =>
            let found := strip found0 in
            (Ok tt,
             dset "what_we_found_on_your_site"
               (JStr (take 260 (company_name ++ ": " ++ top_service
                                ++ " coverage is not structured for AI quoting. "
                                ++ (if nonempty found then found
                                    else "Not detected in the crawl."))))
               r)
        end
  end.

(** [for r in l: if not isinstance(r, dict): continue; f(r)] where [f] can
    raise: the outcome and the list as the loop leaves it.  The entries before
    the one that raises have been through [f], that one is as [f] left it, the
    entries after it are untouched. *)
Fixpoint fix_dicts (f : dict -> result unit * dict) (l : list json)
  : result unit * list json :=
  match l with
  | [] => (Ok tt, [])
  | JObj r :: rest =>
      match f r with
      | (Ok _, r') => let '(res, rest') := fix_dicts f rest in (res, JObj r' :: rest')
      | (Raise e, r') => (Raise e, JObj r' :: rest)
      end
  | x :: rest => let '(res, rest') := fix_dicts f rest in (res, x :: rest')
  end.

(** The loop over the list under [k], when there is one; the list object
    stays in the document, with its entries as the loop leaves them. *)
Definition on_reasons (k : string) (f : dict -> result unit * dict) : M unit :=
  fun doc =>
    match doc with
    | JObj d =>
        match dget k d with
        | Some (JArr l) =>
            let '(res, l') := fix_dicts f l in (res, JObj (dset k (JArr l') d))
        | _ => (Ok tt, doc)
        end
    | _ => (Ok tt, doc)
    end.

(** [for x in l: if not isinstance(x, dict): continue; f(x)] on the list
    under [k], when there is one. *)
Definition on_dicts_of (k : string) (f : dict -> dict) (doc : json) : json :=
  match doc with
  | JObj d =>
      match dget k d with
      | Some (JArr l) =>
          JObj (dset k (JArr (List.map (fun x => match x with
                                                 | JObj r => JObj (f r)
                                                 | _ => x
                                                 end) l)) d)
      | _ => doc
      end
  | _ => doc
  end.

Definition fix_need (n : dict) : dict :=
  map_str_fields dehedge ["what_it_unlocks"; "impact"; "what_we_saw"] n.

Definition default_block (k default : string) (impact : dict) : dict :=
  match dget k impact with
  | Some (JStr s) => if nonempty (strip s) then impact else dset k (JStr default) impact
  | _ => dset k (JStr default) impact
  end.

Definition fix_impact (impact : dict) : dict :=
  let impact := default_block "neutrality_block"
      "This audit is platform-agnostic. Any capable team can implement it." impact in
  let impact := default_block "our_offer_block"
      ("If you want fast implementation without trial-and-error, we can deliver Wave 1 in a fixed scope with predictable cost. "
       ++ "US-first GEO architecture, built for LLM quoting.") impact in
  map_str_fields (replace "cheap" "cost-effective")
    ["neutrality_block"; "our_offer_block"] impact.

Definition on_impact (doc : json) : json :=
  match doc with
  | JObj d =>
      match dget "stage_5_business_impact" d with
      | Some (JObj impact) => JObj (dset "stage_5_business_impact" (JObj (fix_impact impact)) d)
      | _ => doc
      end
  | _ => doc
  end.

Definition _qa_validate_and_fix : M unit :=
  let* stage_a_result := read in
  match stage_a_result with
  | JObj doc =>
      let ev_layer := sub_dict "evidence_layer" doc in
      let evidence := sub_list "evidence" ev_layer in
      let cp := sub_dict "company_profile" ev_layer in
      let* company_name := lift (company_name_of doc cp) in
      let services := services_of cp in
      on_reasons "stage_2_why_ai_chooses_others"
        (fix_reason company_name services evidence) >>
      modify (on_dicts_of "stage_3_what_ai_needs" fix_need) >>
      modify on_impact
  | _ => ret tt
  end.

(** The call in [run_audit]: [try: self._qa_validate_and_fix(stage_a_result)
    except Exception: pass].  The document goes on as the gate left it. *)
Definition run_qa_gate : M unit :=
  fun doc => match _qa_validate_and_fix doc with
             | (Raise _, doc1) => (Ok tt, doc1)
             | r => r
             end.

(** The pass, step by step: the company name, the loop over the reasons,
    and the two parts that only write. *)
Lemma qa_shape (doc : dict) :
  _qa_validate_and_fix (JObj doc)
  = match company_name_of doc (sub_dict "company_profile" (sub_dict "evidence_layer" doc))
    with
    | Raise e => (Raise e, JObj doc)
    | Ok name =>
        match on_reasons "stage_2_why_ai_chooses_others"
                (fix_reason name
                   (services_of (sub_dict "company_profile" (sub_dict "evidence_layer" doc)))
                   (sub_list "evidence" (sub_dict "evidence_layer" doc)))
                (JObj doc) with
        | (Ok _, d1) => (Ok tt, on_impact (on_dicts_of "stage_3_what_ai_needs" fix_need d1))
        | (Raise e, d1) => (Raise e, d1)
        end
    end.
Proof.
  unfold _qa_validate_and_fix, mbind, read, lift, modify.
  destruct (company_name_of doc _) as [name|e]; [|reflexivity].
  destruct (on_reasons _ _ (JObj doc)) as [[[]|e] d1]; reflexivity.
Qed.

(** An entry of the list after a body that went through. *)
Definition fixed (f : dict -> result unit * dict) (x : json) : json :=
  match x with
  | JObj r => JObj (snd (f r))
  | _ => x
  end.

Lemma fix_dicts_ok (f : dict -> result unit * dict) (l : list json) :
  fst (fix_dicts f l) = Ok tt -> snd (fix_dicts f l) = List.map (fixed f) l.
Proof.
  induction l as [|x rest IH]; [reflexivity|].
  assert (Hskip : fst (let '(res, rest') := fix_dicts f rest in (res, x :: rest')) = Ok tt ->
                  snd (let '(res, rest') := fix_dicts f rest in (res, x :: rest'))
                  = x :: List.map (fixed f) rest).
  { destruct (fix_dicts f rest) as [res rest']. simpl in *. intros H. now rewrite IH. }
  destruct x as [| | | | | |r]; try exact Hskip.
  cbn [fix_dicts List.map fixed]. destruct (f r) as [[[]|e] r']; [|discriminate].
  destruct (fix_dicts f rest) as [res rest']. simpl in *. intros H. now rewrite IH.
Qed.


Lemma dset_keys k v d x : dget k d = Some x -> List.map fst (dset k v d) = List.map fst d.
Proof.
  induction d as [|[k' v'] r IH]; simpl; [discriminate|].
  destruct (String.eqb k k'); simpl; [reflexivity|].
  intros H. now rewrite IH.
Qed.

(** What the loop over the reasons does to the document, whether it goes
    through or raises: same keys, the other sections as they were, and the
    list as the loop left it. *)
Lemma on_reasons_obj (k : string) (f : dict -> result unit * dict) (d : dict) :
  exists d', snd (on_reasons k f (JObj d)) = JObj d' /\
    List.map fst d' = List.map fst d /\
    (forall k', k <> k' -> dget k' d' = dget k' d) /\
    dget k d' = match dget k d with
                | Some (JArr l) => Some (JArr (snd (fix_dicts f l)))
                | o => o
                end /\
    fst (on_reasons k f (JObj d))
    = match dget k d with
      | Some (JArr l) => fst (fix_dicts f l)
      | _ => Ok tt
      end.
Proof.
  unfold on_reasons.
  destruct (dget k d) as [[| | | | |l|]|] eqn:E;
    try (exists d; rewrite ?E; repeat split; reflexivity).
  destruct (fix_dicts f l) as [res l']. cbn [fst snd].
  eexists. split; [reflexivity|]. split; [|split; [|split; [|reflexivity]]].
  - now apply dset_keys with (x := JArr l).
  - intros k' Hk. now apply PostProcess.dget_dset_ne.
  - apply PostProcess.dget_dset_eq.
Qed.

(** The gate never raises into [run_audit]. *)
Lemma run_qa_gate_returns (doc : json) : fst (run_qa_gate doc) = Ok tt.
Proof.
  unfold run_qa_gate.
  destruct (_qa_validate_and_fix doc) as [[[]|e] d] eqn:E; reflexivity.
Qed.

(** *** What the gate guarantees *)

(** A string with a character that is not whitespace. *)
Fixpoint has_nonspace (s : string) : bool :=
  match s with
  | EmptyString => false
  | String c r => negb (is_space c) || has_nonspace r
  end.

Lemma lstrip_nonempty s : nonempty (lstrip_by is_space s) = has_nonspace s.
Proof.
  induction s as [|c r IH]; simpl; [reflexivity|].
  destruct (is_space c); simpl; [exact IH|reflexivity].
Qed.

Lemma rstrip_has_nonspace s : has_nonspace (rstrip_by is_space s) = has_nonspace s.
Proof.
  induction s as [|c r IH]; simpl; [reflexivity|].
  destruct (rstrip_by is_space r) as [|c' r'] eqn:E.
  - simpl in IH. rewrite <- IH.
    destruct (is_space c) eqn:Ec; simpl; rewrite ?Ec; reflexivity.
  - cbn [has_nonspace] in *. now rewrite IH.
Qed.

(** [s.strip()] is non-empty exactly when [s] is not blank. *)
Lemma strip_nonempty s : nonempty (strip s) = has_nonspace s.
Proof.
  unfold strip, strip_by. now rewrite lstrip_nonempty, rstrip_has_nonspace.
Qed.

Lemma has_nonspace_app a b : has_nonspace (a ++ b) = has_nonspace a || has_nonspace b.
Proof.
  induction a as [|c r IH]; simpl; [reflexivity|]. rewrite IH. now rewrite orb_assoc.
Qed.

Lemma replace_fuel_nonspace old new fuel s :
  has_nonspace new = true -> (String.length s <= fuel)%nat ->
  has_nonspace s = true -> has_nonspace (replace_fuel fuel old new s) = true.
Proof.
  intros Hnew. revert s. induction fuel as [|k IH]; intros s Hlen Hs.
  - destruct s; [discriminate|simpl in Hlen; lia].
  - destruct s as [|c r]; [discriminate|]. cbn [replace_fuel].
    destruct (startswith old (String c r)).
    + rewrite has_nonspace_app, Hnew. reflexivity.
    + simpl. simpl in Hs. destruct (is_space c); simpl in *; [|reflexivity].
      apply IH; [lia|assumption].
Qed.

Lemma replace_nonspace old new s :
  has_nonspace new = true -> has_nonspace s = true ->
  has_nonspace (replace old new s) = true.
Proof. intros Hn Hs. unfold replace. now apply replace_fuel_nonspace. Qed.

Lemma In_firstn_inv {A} (n : nat) (l : list A) (x : A) :
  List.In x (List.firstn n l) -> List.In x l.
Proof.
  revert l. induction n as [|n IH]; intros [|y l] H; simpl in *; try tauto.
  destruct H as [H|H]; [now left|right; now apply IH].
Qed.

(** [ensure_refs] returns at most three indices, all of them within the
    catalog, and at least one whenever the catalog is not empty. *)
Lemma ensure_refs_valid (evidence : list json) (refs : option json) :
  (List.length (ensure_refs evidence refs) <= 3)%nat /\
  (forall n, List.In n (ensure_refs evidence refs) ->
             (0 <= n < Z.of_nat (List.length evidence))%Z) /\
  (evidence <> [] -> ensure_refs evidence refs <> []) /\
  (evidence = [] -> ensure_refs evidence refs = []).
Proof.
  unfold ensure_refs.
  set (l := match refs with Some (JArr l) => l | _ => [] end).
  set (out := flat_map _ l).
  assert (Hout : forall n, List.In n out -> (0 <= n < Z.of_nat (List.length evidence))%Z).
  { intros n Hn. unfold out in Hn. apply List.in_flat_map in Hn.
    destruct Hn as [x [_ Hx]]. destruct (py_int x) as [m|]; [|destruct Hx].
    destruct ((0 <=? m)%Z && (m <? Z.of_nat (List.length evidence))%Z) eqn:Hc;
      [|destruct Hx].
    destruct Hx as [<-|[]]. apply andb_true_iff in Hc. destruct Hc as [H1 H2].
    apply Z.leb_le in H1. apply Z.ltb_lt in H2. lia. }
  split; [apply List.firstn_le_length|].
  split; [|split].
  - intros n Hn. apply In_firstn_inv in Hn.
    destruct out as [|o os]; simpl in Hn.
    + destruct evidence as [|e es]; simpl in Hn; [destruct Hn|].
      destruct Hn as [<-|[]]. simpl. lia.
    + now apply Hout.
  - intros He. destruct out as [|o os]; simpl.
    + destruct evidence; [now destruct He|discriminate].
    + discriminate.
  - intros ->. destruct out as [|o os]; simpl; [reflexivity|].
    specialize (Hout o (or_introl eq_refl)). simpl in Hout. lia.
Qed.

Lemma map_str_fields_keys f keys d :
  List.map fst (map_str_fields f keys d) = List.map fst d.
Proof.
  unfold map_str_fields. revert d.
  induction keys as [|k ks IH]; intros d; simpl; [reflexivity|].
  rewrite IH. destruct (dget k d) as [[| | | |s| |]|] eqn:E; try reflexivity.
  now apply dset_keys with (x := JStr s).
Qed.

Lemma map_str_fields_other f keys d k :
  ~ List.In k keys -> dget k (map_str_fields f keys d) = dget k d.
Proof.
  unfold map_str_fields. revert d.
  induction keys as [|k0 ks IH]; intros d Hk; simpl; [reflexivity|].
  rewrite IH by (intros H; apply Hk; now right).
  destruct (dget k0 d) as [[| | | |s| |]|]; try reflexivity.
  apply PostProcess.dget_dset_ne. intros ->. apply Hk. now left.
Qed.

(** The entries of a list after the loop [for x in l: if isinstance(x, dict): f(x)]. *)
Lemma in_fixed_dicts (f : dict -> dict) (l : list json) (r' : dict) :
  List.In (JObj r') (List.map (fun x => match x with JObj r => JObj (f r) | _ => x end) l) ->
  exists r, List.In (JObj r) l /\ r' = f r.
Proof.
  intros H. apply List.in_map_iff in H. destruct H as [x [Hx Hin]].
  destruct x; try discriminate. injection Hx as <-. eauto.
Qed.

(** What the loop over a section does to the document: same keys, the other
    sections as they were, and the section itself mapped entry by entry. *)
Lemma on_dicts_of_obj (k : string) (f : dict -> dict) (d : dict) :
  exists d', on_dicts_of k f (JObj d) = JObj d' /\
    List.map fst d' = List.map fst d /\
    (forall k', k <> k' -> dget k' d' = dget k' d) /\
    dget k d' = match dget k d with
                | Some (JArr l) =>
                    Some (JArr (List.map (fun x => match x with
                                                   | JObj r => JObj (f r)
                                                   | _ => x
                                                   end) l))
                | o => o
                end.
Proof.
  unfold on_dicts_of.
  destruct (dget k d) as [[| | | | |l|]|] eqn:E;
    try (exists d; rewrite ?E; repeat split; reflexivity).
  eexists. split; [reflexivity|]. split; [|split].
  - now apply dset_keys with (x := JArr l).
  - intros k' Hk. now apply PostProcess.dget_dset_ne.
  - apply PostProcess.dget_dset_eq.
Qed.

Lemma on_impact_obj (d : dict) :
  exists d', on_impact (JObj d) = JObj d' /\
    List.map fst d' = List.map fst d /\
    (forall k', "stage_5_business_impact" <> k' -> dget k' d' = dget k' d) /\
    dget "stage_5_business_impact" d'
      = match dget "stage_5_business_impact" d with
        | Some (JObj impact) => Some (JObj (fix_impact impact))
        | o => o
        end.
Proof.
  unfold on_impact.
  destruct (dget "stage_5_business_impact" d) as [[| | | | | |i]|] eqn:E;
    try (exists d; rewrite ?E; repeat split; reflexivity).
  eexists. split; [reflexivity|]. split; [|split].
  - now apply dset_keys with (x := JObj i).
  - intros k' Hk. now apply PostProcess.dget_dset_ne.
  - apply PostProcess.dget_dset_eq.
Qed.

Lemma on_reasons_ok (k : string) (f : dict -> result unit * dict) (d : dict)
    (d1 : json) :
  on_reasons k f (JObj d) = (Ok tt, d1) ->
  d1 = on_dicts_of k (fun r => snd (f r)) (JObj d).
Proof.
  unfold on_reasons, on_dicts_of.
  destruct (dget k d) as [[| | | | |l|]|]; try (intros H; now inversion H).
  pose proof (fix_dicts_ok f l) as Hok.
  destruct (fix_dicts f l) as [res l']. cbn [fst snd] in Hok.
  intros H. injection H as -> <-. now rewrite (Hok eq_refl).
Qed.

(** A pass that returns has settled the company name and then run the three
    loops, in this order, each body to its end. *)
Lemma qa_ok_shape (doc : dict) (out : json) :
  _qa_validate_and_fix (JObj doc) = (Ok tt, out) ->
  exists name,
    company_name_of doc (sub_dict "company_profile" (sub_dict "evidence_layer" doc)) = Ok name /\
    out = on_impact
            (on_dicts_of "stage_3_what_ai_needs" fix_need
               (on_dicts_of "stage_2_why_ai_chooses_others"
                  (fun r =>
                     snd (fix_reason name
                            (services_of (sub_dict "company_profile"
                                            (sub_dict "evidence_layer" doc)))
                            (sub_list "evidence" (sub_dict "evidence_layer" doc)) r))
                  (JObj doc))).
Proof.
  rewrite qa_shape.
  destruct (company_name_of doc _) as [name|e]; [|discriminate].
  destruct (on_reasons _ _ (JObj doc)) as [[[]|e] d1] eqn:Hon; [|discriminate].
  intros H. exists name. split; [reflexivity|].
  apply on_reasons_ok in Hon. injection H as <-. now rewrite Hon.
Qed.

(** X9.  The QA gate keeps the keys of the document, in their order, and
    leaves every section other than the reasons, the needs and the business
    impact as it was, whether the pass returns or raises. *)
Theorem qa_gate_frame (doc : dict) :
  exists doc', snd (run_qa_gate (JObj doc)) = JObj doc' /\
    List.map fst doc' = List.map fst doc /\
    forall k, k <> "stage_2_why_ai_chooses_others" -> k <> "stage_3_what_ai_needs" ->
              k <> "stage_5_business_impact" -> dget k doc' = dget k doc.
Proof.
  unfold run_qa_gate.
  destruct (_qa_validate_and_fix (JObj doc)) as [[[]|e] out] eqn:E.
  - apply qa_ok_shape in E. destruct E as [name [_ ->]].
    destruct (on_dicts_of_obj "stage_2_why_ai_chooses_others"
                (fun r =>
                   snd (fix_reason name
                          (services_of (sub_dict "company_profile"
                                          (sub_dict "evidence_layer" doc)))
                          (sub_list "evidence" (sub_dict "evidence_layer" doc)) r)) doc)
      as [d1 [-> [K1 [F1 _]]]].
    destruct (on_dicts_of_obj "stage_3_what_ai_needs" fix_need d1) as [d2 [-> [K2 [F2 _]]]].
    destruct (on_impact_obj d2) as [d3 [-> [K3 [F3 _]]]].
    exists d3. simpl. split; [reflexivity|]. split; [congruence|].
    intros k H2 H3 H5. rewrite F3, F2, F1 by congruence. reflexivity.
  - rewrite qa_shape in E.
    destruct (company_name_of doc _) as [name|e0].
    + destruct (on_reasons_obj "stage_2_why_ai_chooses_others"
                  (fix_reason name
                     (services_of (sub_dict "company_profile"
                                     (sub_dict "evidence_layer" doc)))
                     (sub_list "evidence" (sub_dict "evidence_layer" doc))) doc)
        as [d1 [Hs [K1 [F1 _]]]].
      destruct (on_reasons _ _ (JObj doc)) as [[[]|e1] out1]; [discriminate|].
      injection E as -> ->. cbn [snd] in *. subst out.
      exists d1. split; [reflexivity|]. split; [exact K1|].
      intros k H2 H3 H5. apply F1. congruence.
    + injection E as -> <-. exists doc. simpl. repeat split; reflexivity.
Qed.

Lemma prepare_reason_refs (services : list string) (evidence : list json) (r : dict) :
  dget "evidence_refs" (prepare_reason services evidence r)
  = Some (JArr (List.map JInt (ensure_refs evidence (dget "evidence_refs" r)))).
Proof.
  unfold prepare_reason.
  set (r1 := dset "evidence_refs" _ r).
  set (r2 := map_str_fields dehedge reason_text_keys r1).
  assert (H2 : dget "evidence_refs" r2
               = Some (JArr (List.map JInt (ensure_refs evidence (dget "evidence_refs" r))))).
  { unfold r2. rewrite map_str_fields_other.
    - apply PostProcess.dget_dset_eq.
    - unfold reason_text_keys. simpl. intros [H|[H|[H|[H|[]]]]]; discriminate. }
  destruct (dget "what_must_be_built" r2) as [[| | | |wmb| |]|];
    try (rewrite PostProcess.dget_dset_ne by discriminate; exact H2).
  destruct (negb (nonempty (strip wmb)));
    [rewrite PostProcess.dget_dset_ne by discriminate; exact H2|].
  destruct (_ && _); [rewrite PostProcess.dget_dset_ne by discriminate|]; exact H2.
Qed.

Lemma build_default_nonspace (top : string) : has_nonspace (build_default top) = true.
Proof. reflexivity. Qed.

Lemma prepare_reason_build (services : list string) (evidence : list json) (r : dict) :
  exists wmb, dget "what_must_be_built" (prepare_reason services evidence r)
              = Some (JStr wmb)
              /\ has_nonspace wmb = true.
Proof.
  unfold prepare_reason.
  set (r1 := dset "evidence_refs" _ r).
  set (r2 := map_str_fields dehedge reason_text_keys r1).
  destruct (dget "what_must_be_built" r2) as [[| | | |wmb| |]|] eqn:E;
    try (eexists; split; [apply PostProcess.dget_dset_eq|apply build_default_nonspace]).
  destruct (nonempty (strip wmb)) eqn:Hs; simpl.
  - destruct (_ && _).
    + eexists. split; [apply PostProcess.dget_dset_eq|].
      rewrite has_nonspace_app. apply orb_true_iff. right. reflexivity.
    + exists wmb. split; [exact E|]. now rewrite <- strip_nonempty.
  - eexists; split; [apply PostProcess.dget_dset_eq|apply build_default_nonspace].
Qed.

(** The second half of the body writes at most [what_we_found_on_your_site]. *)
Lemma fix_reason_keeps (name : string) (services : list string) (evidence : list json)
    (r : dict) (k : string) :
  k <> "what_we_found_on_your_site" ->
  dget k (snd (fix_reason name services evidence r))
  = dget k (prepare_reason services evidence r).
Proof.
  intros Hk. unfold fix_reason.
  destruct (all_ok _) as [parts|e]; [|reflexivity].
  destruct (_ || _); [reflexivity|].
  destruct (str_or_empty _) as [found0|e]; [|reflexivity].
  cbn [snd]. apply PostProcess.dget_dset_ne. congruence.
Qed.

Lemma fix_reason_refs (name : string) (services : list string) (evidence : list json)
    (r : dict) :
  dget "evidence_refs" (snd (fix_reason name services evidence r))
    = Some (JArr (List.map JInt (ensure_refs evidence (dget "evidence_refs" r)))).
Proof.
  rewrite fix_reason_keeps by discriminate. apply prepare_reason_refs.
Qed.

Lemma fix_reason_build (name : string) (services : list string) (evidence : list json)
    (r : dict) :
  exists wmb, dget "what_must_be_built" (snd (fix_reason name services evidence r))
              = Some (JStr wmb)
              /\ has_nonspace wmb = true.
Proof.
  rewrite fix_reason_keeps by discriminate. apply prepare_reason_build.
Qed.


(** X10.  After a pass that returns, the list of reasons has its length, and
    every reason in it carries at most three evidence references, all of them
    indices into the evidence catalog and at least one when the catalog is
    not empty, and a build instruction that is not blank. *)
Theorem qa_reasons_grounded (doc : dict) (out : json) (reasons : list json) :
  _qa_validate_and_fix (JObj doc) = (Ok tt, out) ->
  dget "stage_2_why_ai_chooses_others" doc = Some (JArr reasons) ->
  let evidence := sub_list "evidence" (sub_dict "evidence_layer" doc) in
  exists doc' reasons',
    out = JObj doc' /\
    dget "stage_2_why_ai_chooses_others" doc' = Some (JArr reasons') /\
    List.length reasons' = List.length reasons /\
    forall r', List.In (JObj r') reasons' ->
      (exists refs, dget "evidence_refs" r' = Some (JArr (List.map JInt refs)) /\
         (List.length refs <= 3)%nat /\
         (forall n, List.In n refs -> (0 <= n < Z.of_nat (List.length evidence))%Z) /\
         (evidence <> [] -> refs <> [])) /\
      (exists wmb, dget "what_must_be_built" r' = Some (JStr wmb) /\
         has_nonspace wmb = true).
Proof.
  intros Hok Hre evidence.
  apply qa_ok_shape in Hok. destruct Hok as [name [_ ->]].
  fold evidence.
  set (f := fun r => snd (fix_reason name _ evidence r)).
  destruct (on_dicts_of_obj "stage_2_why_ai_chooses_others" f doc)
    as [d1 [-> [_ [_ G1]]]].
  destruct (on_dicts_of_obj "stage_3_what_ai_needs" fix_need d1) as [d2 [-> [_ [F2 _]]]].
  destruct (on_impact_obj d2) as [d3 [-> [_ [F3 _]]]].
  rewrite Hre in G1.
  exists d3. eexists. split; [reflexivity|].
  split; [rewrite F3, F2 by discriminate; exact G1|].
  split; [apply List.length_map|].
  intros r' Hin. apply in_fixed_dicts in Hin. destruct Hin as [r [_ ->]].
  unfold f. split.
  - exists (ensure_refs evidence (dget "evidence_refs" r)).
    split; [apply fix_reason_refs|].
    destruct (ensure_refs_valid evidence (dget "evidence_refs" r)) as [A [B [C _]]].
    auto.
  - apply fix_reason_build.
Qed.

Lemma drop_length_le (n : nat) (s : string) : (String.length (drop n s) <= String.length s)%nat.
Proof.
  revert s. induction n as [|n IH]; intros [|c r]; simpl; try lia.
  specialize (IH r). lia.
Qed.

(** A prefix without the letter c that the rewritten text starts with was
    copied from the text: the inserted words start with a c. *)
Lemma replace_cheap_prefix (p : string) :
  contains "c" p = false ->
  forall fuel s, (String.length s <= fuel)%nat ->
    startswith p (replace_fuel fuel "cheap" "cost-effective" s) = true ->
    startswith p s = true.
Proof.
  induction p as [|a p IH]; intros Hp fuel s Hlen H; [reflexivity|].
  assert (Ha : Ascii.eqb "c" a = false /\ contains "c" p = false).
  { revert Hp. cbn [contains startswith]. destruct (Ascii.eqb "c" a); [discriminate|].
    simpl. auto. }
  destruct Ha as [Ha Hp'].
  destruct fuel as [|k].
  - destruct s; [exact H|simpl in Hlen; lia].
  - destruct s as [|c0 r]; [exact H|]. cbn [replace_fuel] in H.
    destruct (startswith "cheap" (String c0 r)).
    + exfalso. revert H. simpl. rewrite (Ascii.eqb_sym a "c"), Ha. discriminate.
    + revert H. cbn [startswith]. destruct (Ascii.eqb a c0); [|discriminate].
      apply IH; [exact Hp'|simpl in Hlen; lia].
Qed.

(** [s.replace("cheap", "cost-effective")] has no occurrence of "cheap". *)
Lemma replace_cheap_gone (s : string) :
  contains "cheap" (replace "cheap" "cost-effective" s) = false.
Proof.
  unfold replace.
  assert (H : forall fuel s, (String.length s <= fuel)%nat ->
                contains "cheap" (replace_fuel fuel "cheap" "cost-effective" s) = false).
  { clear s. induction fuel as [|k IH]; intros s Hlen.
    - destruct s; [reflexivity|simpl in Hlen; lia].
    - destruct s as [|c0 r]; [reflexivity|]. cbn [replace_fuel].
      destruct (startswith "cheap" (String c0 r)) eqn:Hm.
      + pose proof (drop_length_le 4 r) as Hd.
        specialize (IH (drop 4 r)). simpl in Hlen. specialize (IH ltac:(lia)).
        change (drop (String.length "cheap") (String c0 r)) with (drop 4 r).
        remember (replace_fuel k "cheap" "cost-effective" (drop 4 r)) as X.
        simpl. exact IH.
      + cbn [contains]. rewrite IH by (simpl in Hlen; lia). rewrite orb_false_r.
        change (startswith "cheap" (String c0 (replace_fuel k "cheap" "cost-effective" r)))
          with (if Ascii.eqb "c" c0
                then startswith "heap" (replace_fuel k "cheap" "cost-effective" r)
                else false).
        change (startswith "cheap" (String c0 r))
          with (if Ascii.eqb "c" c0 then startswith "heap" r else false) in Hm.
        destruct (Ascii.eqb "c" c0); [|reflexivity].
        destruct (startswith "heap" (replace_fuel k "cheap" "cost-effective" r)) eqn:Hh;
          [|reflexivity].
        apply replace_cheap_prefix in Hh; [|reflexivity|simpl in Hlen; lia].
        congruence. }
  now apply H.
Qed.

Lemma default_block_set (k default : string) (impact : dict) :
  has_nonspace default = true ->
  exists s, dget k (default_block k default impact) = Some (JStr s)
            /\ has_nonspace s = true.
Proof.
  intros Hd. unfold default_block.
  destruct (dget k impact) as [[| | | |s| |]|] eqn:E;
    try (exists default; split; [apply PostProcess.dget_dset_eq|exact Hd]).
  destruct (nonempty (strip s)) eqn:Hs.
  - exists s. split; [exact E|]. now rewrite <- strip_nonempty.
  - exists default; split; [apply PostProcess.dget_dset_eq|exact Hd].
Qed.

Lemma default_block_other (k default k' : string) (impact : dict) :
  k <> k' -> dget k' (default_block k default impact) = dget k' impact.
Proof.
  intros Hk. unfold default_block.
  destruct (dget k impact) as [[| | | |s| |]|];
    try (now apply PostProcess.dget_dset_ne).
  destruct (nonempty (strip s)); [reflexivity|now apply PostProcess.dget_dset_ne].
Qed.

(** Both closing blocks are non-blank strings without the word "cheap" once
    [fix_impact] has run. *)
Lemma fix_impact_blocks (impact : dict) :
  exists nb ob,
    dget "neutrality_block" (fix_impact impact) = Some (JStr nb) /\
    (has_nonspace nb = true /\ contains "cheap" nb = false) /\
    dget "our_offer_block" (fix_impact impact) = Some (JStr ob) /\
    (has_nonspace ob = true /\ contains "cheap" ob = false).
Proof.
  unfold fix_impact.
  set (i1 := default_block "neutrality_block" _ impact).
  set (i2 := default_block "our_offer_block" _ i1).
  destruct (default_block_set "neutrality_block"
              "This audit is platform-agnostic. Any capable team can implement it."
              impact eq_refl) as [nb [Hnb Hn]].
  fold i1 in Hnb.
  assert (Hnb2 : dget "neutrality_block" i2 = Some (JStr nb)).
  { unfold i2. rewrite default_block_other by discriminate. exact Hnb. }
  destruct (default_block_set "our_offer_block"
              ("If you want fast implementation without trial-and-error, we can deliver Wave 1 in a fixed scope with predictable cost. "
               ++ "US-first GEO architecture, built for LLM quoting.")
              i1 eq_refl) as [ob [Hob Ho]].
  fold i2 in Hob.
  exists (replace "cheap" "cost-effective" nb), (replace "cheap" "cost-effective" ob).
  unfold map_str_fields. cbn [fold_left]. rewrite Hnb2.
  rewrite (PostProcess.dget_dset_ne "neutrality_block" "our_offer_block") by discriminate.
  rewrite Hob.
  rewrite (PostProcess.dget_dset_ne "our_offer_block" "neutrality_block") by discriminate.
  rewrite !PostProcess.dget_dset_eq.
  repeat split; try apply replace_cheap_gone;
    apply replace_nonspace; solve [reflexivity|assumption].
Qed.

(** X11.  After a pass that returns, a business-impact section that is a
    dict has both closing blocks, each a string that is not blank and in
    which the word "cheap" does not occur. *)
Theorem qa_closing_blocks (doc : dict) (out : json) (impact : dict) :
  _qa_validate_and_fix (JObj doc) = (Ok tt, out) ->
  dget "stage_5_business_impact" doc = Some (JObj impact) ->
  exists doc' impact' nb ob,
    out = JObj doc' /\
    dget "stage_5_business_impact" doc' = Some (JObj impact') /\
    dget "neutrality_block" impact' = Some (JStr nb) /\
    (has_nonspace nb = true /\ contains "cheap" nb = false) /\
    dget "our_offer_block" impact' = Some (JStr ob) /\
    (has_nonspace ob = true /\ contains "cheap" ob = false).
Proof.
  intros Hok Him.
  apply qa_ok_shape in Hok. destruct Hok as [name [_ ->]].
  set (f := fun r => snd (fix_reason name _ _ r)).
  destruct (on_dicts_of_obj "stage_2_why_ai_chooses_others" f doc)
    as [d1 [-> [_ [F1 _]]]].
  destruct (on_dicts_of_obj "stage_3_what_ai_needs" fix_need d1) as [d2 [-> [_ [F2 _]]]].
  destruct (on_impact_obj d2) as [d3 [-> [_ [_ G3]]]].
  rewrite F2, F1, Him in G3 by discriminate.
  destruct (fix_impact_blocks impact) as [nb [ob [A [B [C D]]]]].
  exists d3, (fix_impact impact), nb, ob. auto 10.
Qed.

End Gate.

(** A document without company name whose appendix lists no sampled URL:
    [sampled_urls[0]] raises [IndexError]. *)
Definition doc_without_urls : json :=
  JObj [ ("stage_2_why_ai_chooses_others",
          JArr [JObj [("what_must_be_built", JStr "It may help.")]]);
         ("appendix", JObj [("sampled_urls", JArr [])]) ].

Example qa_error_before_writes :
  _qa_validate_and_fix (fun _ => Ok EmptyString) (fun _ => None) doc_without_urls
    = (Raise IndexError, doc_without_urls)
  /\ run_qa_gate (fun _ => Ok EmptyString) (fun _ => None) doc_without_urls
    = (Ok tt, doc_without_urls).
Proof. split; reflexivity. Qed.










(** A pass that succeeds: hedges go, a reference into the catalog is
    injected, the closing blocks are filled and reworded. *)
Definition hedged_document : json :=
  JObj [ ("stage_2_why_ai_chooses_others",
          JArr [JObj [("how_llms_decide", JStr "Models may prefer clear pricing.");
                      ("what_we_found_on_your_site", JStr "Pricing could be hidden.");
                      ("evidence_refs", JArr [JInt 7; JStr "x"])]]);
         ("stage_5_business_impact", JObj [("neutrality_block", JStr "A cheap option.")]);
         ("appendix", JObj [("sampled_urls", JArr [JStr "https://example.com"])]);
         ("evidence_layer",
          JObj [("evidence", JArr [JObj []; JObj []]);
                ("company_profile",
                 JObj [("company_name", JStr "Acme");
                       ("services_detected", JArr [JStr "Roof repair"])])]) ].

Definition field_of (path : list string) (doc : json) : option json :=
  fold_left (fun v k => match v with
                        | Some (JObj d) => dget k d
                        | Some (JArr (x :: _)) => match x with JObj d => dget k d | _ => None end
                        | _ => None
                        end) path (Some doc).

Example qa_gate_fixes_document :
  let out := snd (run_qa_gate (fun _ => Ok EmptyString) (fun _ => None) hedged_document) in
  field_of ["stage_2_why_ai_chooses_others"; "how_llms_decide"] out
    = Some (JStr "Models prefer clear pricing.") /\
  field_of ["stage_2_why_ai_chooses_others"; "what_we_found_on_your_site"] out
    = Some (JStr "Pricing is hidden.") /\
  field_of ["stage_2_why_ai_chooses_others"; "evidence_refs"] out
    = Some (JArr [JInt 0]) /\
  field_of ["stage_5_business_impact"; "neutrality_block"] out
    = Some (JStr "A cost-effective option.").
Proof. vm_compute. repeat split; reflexivity. Qed.

Definition hedged_dict : dict :=
  match hedged_document with JObj d => d | _ => [] end.

Definition hedged_out : json :=
  snd (_qa_validate_and_fix (fun _ => Ok EmptyString) (fun _ => None) (JObj hedged_dict)).

Lemma qa_reasons_grounded_witness :
  exists doc' reasons',
    hedged_out = JObj doc' /\
    dget "stage_2_why_ai_chooses_others" doc' = Some (JArr reasons') /\
    List.length reasons' = 1%nat.
Proof.
  assert (Hok : _qa_validate_and_fix (fun _ => Ok EmptyString) (fun _ => None) (JObj hedged_dict)
                = (Ok tt, hedged_out)) by (vm_compute; reflexivity).
  destruct (qa_reasons_grounded _ _ hedged_dict hedged_out _ Hok eq_refl)
    as [doc' [reasons' [H1 [H2 [H3 _]]]]].
  exists doc', reasons'. repeat split; assumption.
Defined.

Lemma qa_closing_blocks_witness :
  exists doc' impact' ob,
    hedged_out = JObj doc' /\
    dget "stage_5_business_impact" doc' = Some (JObj impact') /\
    dget "our_offer_block" impact' = Some (JStr ob) /\ has_nonspace ob = true.
Proof.
  assert (Hok : _qa_validate_and_fix (fun _ => Ok EmptyString) (fun _ => None) (JObj hedged_dict)
                = (Ok tt, hedged_out)) by (vm_compute; reflexivity).
  destruct (qa_closing_blocks _ _ hedged_dict hedged_out _ Hok eq_refl)
    as [doc' [impact' [nb [ob [H1 [H2 [_ [_ [H3 [H4 _]]]]]]]]]].
  exists doc', impact', ob. repeat split; assumption.
Defined.

End QA.

Example dehedge_phrase :
  QA.dehedge "Pricing might be unclear and may  confuse." = "Pricing is unclear and confuse.".
Proof. vm_compute. reflexivity. Qed.

Example dehedge_word_boundary :
  QA.dehedge "Maybe mayor Maybelline could." = "mayor Maybelline .".
Proof. vm_compute. reflexivity. Qed.

(** ** The crawl controller ([scraper.py]) and the page table ([models.py]) *)

Module Crawl.

(** *** The page table

    [ScrapedPage] rows of all jobs live in one table [scraped_pages]; the
    column [url_hash] is declared [unique=True] ([models.py], and the
    [UniqueConstraint('url_hash')] of the initial migration). *)

Record ScrapedPage := {
  audit_job_id : string;
  url : string;
  domain : string;
  is_target : bool;
  html_content : string;
  text_content : string;
  title : string;
  meta_description : string;
  status_code : Z;
  content_type : string;
  word_count : nat;
  url_hash : string
}.

Definition table := list ScrapedPage.

(** [select(ScrapedPage).where(url_hash == h, audit_job_id == job)]
    answers a row. *)
Definition db_exists (h job : string) (db : table) : bool :=
  existsb (fun p => String.eqb (url_hash p) h && String.eqb (audit_job_id p) job) db.

(** [db.add(page); db.commit()]: [None] is the [IntegrityError] of the
    unique constraint, after which [db.rollback()] leaves the table as it was. *)
Definition db_insert (page : ScrapedPage) (db : table) : option table :=
  if existsb (fun p => String.eqb (url_hash p) (url_hash page)) db
  then None
  else Some (db ++ [page]).

Definition pages_of_job (job : string) (db : table) : table :=
  List.filter (fun p => String.eqb (audit_job_id p) job) db.

(** *** The debug record ([ScrapeDebug]) *)

Inductive RobotsStatus := RobotsCode (code : Z) | RobotsError.

Record ScrapeDebug := {
  input_url : string;
  normalized_url : option string;
  final_url : option string;
  homepage_status_code : option Z;
  homepage_fetch_error : option string;
  robots_txt_status : option RobotsStatus;
  robots_disallows_all : bool;
  sitemap_found : bool;
  sitemap_urls_count : nat;
  links_extracted_from_homepage : nat;
  blocked_reason : option string;
  pages_attempted : nat;
  pages_success : nat;
  pages_failed : nat;
  errors : list string
}.

(** [ScrapeDebug(input_url)] *)
Definition new_debug (input : string) : ScrapeDebug :=
  {| input_url := input; normalized_url := None; final_url := None;
     homepage_status_code := None; homepage_fetch_error := None;
     robots_txt_status := None; robots_disallows_all := false;
     sitemap_found := false; sitemap_urls_count := 0;
     links_extracted_from_homepage := 0; blocked_reason := None;
     pages_attempted := 0; pages_success := 0; pages_failed := 0; errors := [] |}.

(** Attribute assignments [debug.f = v]. *)
Definition set_normalized_url v (d : ScrapeDebug) : ScrapeDebug :=
  {| input_url := input_url d; normalized_url := v; final_url := final_url d;
     homepage_status_code := homepage_status_code d;
     homepage_fetch_error := homepage_fetch_error d;
     robots_txt_status := robots_txt_status d;
     robots_disallows_all := robots_disallows_all d;
     sitemap_found := sitemap_found d; sitemap_urls_count := sitemap_urls_count d;
     links_extracted_from_homepage := links_extracted_from_homepage d;
     blocked_reason := blocked_reason d; pages_attempted := pages_attempted d;
     pages_success := pages_success d; pages_failed := pages_failed d;
     errors := errors d |}.

Definition set_homepage_response (code : Z) (final : string) (d : ScrapeDebug) : ScrapeDebug :=
  {| input_url := input_url d; normalized_url := normalized_url d;
     final_url := Some final;
     homepage_status_code := Some code;
     homepage_fetch_error := homepage_fetch_error d;
     robots_txt_status := robots_txt_status d;
     robots_disallows_all := robots_disallows_all d;
     sitemap_found := sitemap_found d; sitemap_urls_count := sitemap_urls_count d;
     links_extracted_from_homepage := links_extracted_from_homepage d;
     blocked_reason := blocked_reason d; pages_attempted := pages_attempted d;
     pages_success := pages_success d; pages_failed := pages_failed d;
     errors := errors d |}.

Definition set_robots (status : option RobotsStatus) (all : bool) (d : ScrapeDebug) : ScrapeDebug :=
  {| input_url := input_url d; normalized_url := normalized_url d;
     final_url := final_url d;
     homepage_status_code := homepage_status_code d;
     homepage_fetch_error := homepage_fetch_error d;
     robots_txt_status := status;
     robots_disallows_all := all;
     sitemap_found := sitemap_found d; sitemap_urls_count := sitemap_urls_count d;
     links_extracted_from_homepage := links_extracted_from_homepage d;
     blocked_reason := blocked_reason d; pages_attempted := pages_attempted d;
     pages_success := pages_success d; pages_failed := pages_failed d;
     errors := errors d |}.

Definition set_sitemap (n : nat) (d : ScrapeDebug) : ScrapeDebug :=
  {| input_url := input_url d; normalized_url := normalized_url d;
     final_url := final_url d;
     homepage_status_code := homepage_status_code d;
     homepage_fetch_error := homepage_fetch_error d;
     robots_txt_status := robots_txt_status d;
     robots_disallows_all := robots_disallows_all d;
     sitemap_found := true; sitemap_urls_count := n;
     links_extracted_from_homepage := links_extracted_from_homepage d;
     blocked_reason := blocked_reason d; pages_attempted := pages_attempted d;
     pages_success := pages_success d; pages_failed := pages_failed d;
     errors := errors d |}.

Definition set_links_extracted (n : nat) (d : ScrapeDebug) : ScrapeDebug :=
  {| input_url := input_url d; normalized_url := normalized_url d;
     final_url := final_url d;
     homepage_status_code := homepage_status_code d;
     homepage_fetch_error := homepage_fetch_error d;
     robots_txt_status := robots_txt_status d;
     robots_disallows_all := robots_disallows_all d;
     sitemap_found := sitemap_found d; sitemap_urls_count := sitemap_urls_count d;
     links_extracted_from_homepage := n;
     blocked_reason := blocked_reason d; pages_attempted := pages_attempted d;
     pages_success := pages_success d; pages_failed := pages_failed d;
     errors := errors d |}.

(** [debug.blocked_reason = reason; debug.homepage_fetch_error = err] *)
Definition set_blocked (reason : string) (err : option string) (d : ScrapeDebug) : ScrapeDebug :=
  {| input_url := input_url d; normalized_url := normalized_url d;
     final_url := final_url d;
     homepage_status_code := homepage_status_code d;
     homepage_fetch_error := match err with Some e => Some e | None => homepage_fetch_error d end;
     robots_txt_status := robots_txt_status d;
     robots_disallows_all := robots_disallows_all d;
     sitemap_found := sitemap_found d; sitemap_urls_count := sitemap_urls_count d;
     links_extracted_from_homepage := links_extracted_from_homepage d;
     blocked_reason := Some reason; pages_attempted := pages_attempted d;
     pages_success := pages_success d; pages_failed := pages_failed d;
     errors := errors d |}.

(** Counters: [pages_attempted += a], [pages_success += s], [pages_failed += f]. *)
Definition add_counts (a s f : nat) (d : ScrapeDebug) : ScrapeDebug :=
  {| input_url := input_url d; normalized_url := normalized_url d;
     final_url := final_url d;
     homepage_status_code := homepage_status_code d;
     homepage_fetch_error := homepage_fetch_error d;
     robots_txt_status := robots_txt_status d;
     robots_disallows_all := robots_disallows_all d;
     sitemap_found := sitemap_found d; sitemap_urls_count := sitemap_urls_count d;
     links_extracted_from_homepage := links_extracted_from_homepage d;
     blocked_reason := blocked_reason d;
     pages_attempted := pages_attempted d + a;
     pages_success := pages_success d + s; pages_failed := pages_failed d + f;
     errors := errors d |}.

(** [debug.errors.append(msg)] *)
Definition add_error (msg : string) (d : ScrapeDebug) : ScrapeDebug :=
  {| input_url := input_url d; normalized_url := normalized_url d;
     final_url := final_url d;
     homepage_status_code := homepage_status_code d;
     homepage_fetch_error := homepage_fetch_error d;
     robots_txt_status := robots_txt_status d;
     robots_disallows_all := robots_disallows_all d;
     sitemap_found := sitemap_found d; sitemap_urls_count := sitemap_urls_count d;
     links_extracted_from_homepage := links_extracted_from_homepage d;
     blocked_reason := blocked_reason d; pages_attempted := pages_attempted d;
     pages_success := pages_success d; pages_failed := pages_failed d;
     errors := errors d ++ [msg] |}.

(** *** The network and the libraries *)

Record Response := {
  resp_status : Z;                (* response.status_code *)
  resp_url : string;              (* str(response.url), after redirects *)
  resp_content_type : string;     (* response.headers.get("content-type", "") *)
  resp_content_length : nat;      (* len(response.content) *)
  resp_text : string              (* response.text *)
}.

(** What [await self.client.get(url)] does: a response, or one of the
    exceptions [fetch_page] tells apart, with its message [str(e)]. *)
Inductive HttpOutcome :=
| Responded (r : Response)
| TimeoutException (msg : string)
| ConnectError (msg : string)
| OtherError (msg : string).

(** [urlparse(url)] *)
Record ParseResult := {
  scheme : string;
  netloc : string;
  path : string;
  params : string;
  query : string;
  fragment : string;
  hostname : option string
}.

(** The state a crawl acts on: the page table and the log of the URLs
    requested so far, oldest first. *)
Record World := {
  db : table;
  requests : list string
}.

Definition str_of_Z (z : Z) : string := NilEmpty.string_of_int (Z.to_int z).

Section Scraper.

(** The [k]-th request of the run ([k] counts from 0) to [url]. *)
Variable http_get : nat -> string -> HttpOutcome.

(** [urllib.parse]; [None] is the [ValueError] of a malformed URL, which
    [is_safe_url] catches.  Elsewhere the model reads a malformed URL as the
    empty parse. *)
Variable urlparse : string -> option ParseResult.
Variable urlunparse : string -> string -> string -> string -> string -> string -> string.
Variable urljoin : string -> string -> string.

(** [ipaddress.ip_address(host)] is an address of [PRIVATE_IP_RANGES]. *)
Variable ip_in_private_ranges : string -> bool.

(** [hashlib.sha256(s.encode()).hexdigest()] *)
Variable sha256_hex : string -> string.

(** BeautifulSoup on a fetched page: text, title and meta description
    ([inl msg] when it raises), and the [href] values of the anchors. *)
Variable parse_page : string -> string + (string * string * string).
Variable anchor_hrefs : string -> list string.

(** BeautifulSoup on a sitemap: the texts of the [loc] elements. *)
Variable sitemap_locs : string -> string + list string.

(** [settings.max_page_size_mb] *)
Variable max_page_size_mb : nat.

Definition parsed (u : string) : ParseResult :=
  match urlparse u with
  | Some p => p
  | None => {| scheme := EmptyString; netloc := EmptyString; path := EmptyString;
               params := EmptyString; query := EmptyString; fragment := EmptyString;
               hostname := None |}
  end.

Definition str_in (s : string) (l : list string) : bool := existsb (String.eqb s) l.

(** [SSRFProtection.is_safe_url] *)
Definition is_safe_url (u : string) : bool :=
  match urlparse u with
  | None => false
  | Some p =>
      if negb (str_in (scheme p) ["http"; "https"]) then false
      else match hostname p with
           | Some h =>
               if str_in h ["localhost"; "127.0.0.1"; "::1"] then false
               else negb (ip_in_private_ranges h)
           | None => true
           end
  end.

(** [WebScraper.normalize_url] *)
Definition normalize_url (u : string) : string :=
  let p := parsed u in
  let scheme' := if String.eqb (scheme p) "http" then "https" else scheme p in
  let hostname' := lower (netloc p) in
  let path' := match rstrip_char "/"%char (path p) with
               | EmptyString => "/"
               | x => x
               end in
  urlunparse scheme' hostname' path' (params p) (query p) EmptyString.

(** [WebScraper.get_url_hash] *)
Definition get_url_hash (u : string) : string := sha256_hex (normalize_url u).

(** [WebScraper.identify_page_priority] *)
Definition identify_page_priority (u : string) : nat :=
  let url_lower := lower u in
  let path' := rstrip_char "/"%char (path (parsed url_lower)) in
  if String.eqb path' EmptyString || String.eqb path' "/" then 0
  else if existsb (fun k => contains k url_lower)
            ["about"; "pricing"; "price"; "services"; "products"; "solutions";
             "case-stud"; "portfolio"; "customers"; "testimonial"; "reviews"] then 1
  else if existsb (fun k => contains k url_lower)
            ["faq"; "contact"; "blog"; "features"; "resources"; "how-it-works";
             "use-case"; "industries"; "team"] then 2
  else 3.

(** *** [WebScraper.check_robots] *)

Definition newline : ascii := ascii_of_nat 10.

Definition is_blanket_line (line : string) : bool :=
  contains "disallow: /" line && String.eqb (strip line) "disallow: /".

(** [for i, line in enumerate(lines): if 'user-agent: *' in line:
    for j in range(i+1, min(i+5, len(lines))): ...] *)
Fixpoint blanket_scan (lines : list string) : bool :=
  match lines with
  | [] => false
  | line :: rest =>
      (contains "user-agent: *" line && existsb is_blanket_line (firstn 4 rest))
      || blanket_scan rest
  end.

(** The test on [content = response.text.lower()]. *)
Definition robots_blanket_disallow (content : string) : bool :=
  contains "disallow: /" content && contains "user-agent: *" content
  && blanket_scan (split_char newline content).

Definition robots_url (domain : string) : string := "https://" ++ domain ++ "/robots.txt".

(** The result is the returned flag (crawling allowed), the debug record and
    the request log. *)
Definition check_robots (domain : string) (debug : ScrapeDebug) (reqs : list string)
  : bool * ScrapeDebug * list string :=
  let reqs1 := reqs ++ [robots_url domain] in
  match http_get (List.length reqs) (robots_url domain) with
  | Responded r =>
      let debug1 := set_robots (Some (RobotsCode (resp_status r)))
                      (robots_disallows_all debug) debug in
      if (resp_status r =? 200)%Z && robots_blanket_disallow (lower (resp_text r))
      then (false, set_robots (Some (RobotsCode (resp_status r))) true debug, reqs1)
      else (true, debug1, reqs1)
  | TimeoutException msg | ConnectError msg | OtherError msg =>
      (true,
       add_error ("robots.txt: " ++ take 100 msg)
         (set_robots (Some RobotsError) (robots_disallows_all debug) debug),
       reqs1)
  end.

(** *** [WebScraper.fetch_page] *)

(** The returned tuple [(html_content, text_content, title, meta_description,
    status_code)]. *)
Record Fetched := {
  f_html : string;
  f_text : string;
  f_title : string;
  f_meta : string;
  f_status : Z
}.

Definition when (b : bool) (f : ScrapeDebug -> ScrapeDebug) (d : ScrapeDebug) : ScrapeDebug :=
  if b then f d else d.

Definition blocking_status (code : Z) : bool :=
  existsb (Z.eqb code) [403; 406; 429; 503]%Z.

Definition connect_reason (msg : string) : string :=
  let error_str := lower msg in
  if contains "ssl" error_str || contains "certificate" error_str then "ssl"
  else if contains "dns" error_str || contains "name" error_str then "dns"
  else "connection".

(** The generic handler [except Exception as e]. *)
Definition on_other_error (is_homepage : bool) (msg : string) (d : ScrapeDebug) : ScrapeDebug :=
  add_error ("Error: " ++ take 50 msg)
    (add_counts 0 0 1
       (when is_homepage (set_blocked "unknown" (Some (take 100 msg))) d)).

Definition fetch_page (u : string) (debug : ScrapeDebug) (is_homepage : bool)
    (reqs : list string) : option Fetched * ScrapeDebug * list string :=
  if negb (is_safe_url u)
  then (None, add_error ("SSRF blocked: " ++ take 50 u) debug, reqs)
  else
    let debug := add_counts 1 0 0 debug in
    let reqs1 := reqs ++ [u] in
    match http_get (List.length reqs) u with
    | Responded r =>
        let debug := when is_homepage
                       (set_homepage_response (resp_status r) (resp_url r)) debug in
        if blocking_status (resp_status r)
        then (None,
              add_counts 0 0 1
                (when is_homepage
                   (set_blocked "403_waf" (Some ("HTTP " ++ str_of_Z (resp_status r))%string))
                   debug),
              reqs1)
        else if (400 <=? resp_status r)%Z
        then (None, add_counts 0 0 1 debug, reqs1)
        else if negb (contains "text/html" (lower (resp_content_type r)))
        then (None, debug, reqs1)
        else if (max_page_size_mb * 1024 * 1024 <? resp_content_length r)%nat
        then (None,
              add_error ("Page too large: " ++ take 50 u ++ " ("
                         ++ str_of_nat (resp_content_length r) ++ " bytes)") debug,
              reqs1)
        else
          match parse_page (resp_text r) with
          | inr (text, title, meta) =>
              (Some {| f_html := resp_text r; f_text := text; f_title := title;
                       f_meta := meta; f_status := resp_status r |},
               add_counts 0 1 0 debug, reqs1)
          | inl msg => (None, on_other_error is_homepage msg debug, reqs1)
          end
    | TimeoutException msg =>
        (None,
         add_error ("Timeout: " ++ take 50 u)
           (add_counts 0 0 1
              (when is_homepage
                 (set_blocked "timeout" (Some ("Timeout: " ++ take 50 msg)%string)) debug)),
         reqs1)
    | ConnectError msg =>
        (None,
         add_error ("Connect error: " ++ take 50 msg)
           (add_counts 0 0 1
              (when is_homepage
                 (set_blocked (connect_reason msg) (Some (take 100 msg))) debug)),
         reqs1)
    | OtherError msg => (None, on_other_error is_homepage msg debug, reqs1)
    end.

(** *** [WebScraper.extract_links] and [WebScraper.find_sitemap] *)

Definition skip_patterns : list string :=
  [".pdf"; ".jpg"; ".png"; ".gif"; ".zip"; ".exe"; "javascript:"; "mailto:"; "tel:"; "#"].

Definition extract_links (html base_url : string) : gset string :=
  let base_domain := lower (netloc (parsed base_url)) in
  list_to_set
    (flat_map (fun href =>
                 let absolute_url := urljoin base_url href in
                 let p := parsed absolute_url in
                 if String.eqb (lower (netloc p)) base_domain
                    && str_in (scheme p) ["http"; "https"]
                    && negb (existsb (fun pat => contains pat (lower absolute_url))
                               skip_patterns)
                 then [normalize_url absolute_url] else [])
              (anchor_hrefs html)).

Definition sitemap_candidates (domain : string) : list string :=
  [ ("https://" ++ domain ++ "/sitemap.xml")%string;
    ("https://" ++ domain ++ "/sitemap_index.xml")%string;
    ("https://www." ++ domain ++ "/sitemap.xml")%string ].

(** The loop of [find_sitemap] over the candidates still to try. *)
Fixpoint find_sitemap_loop (candidates : list string) (debug : ScrapeDebug)
    (reqs : list string) : option (list string) * ScrapeDebug * list string :=
  match candidates with
  | [] => (None, debug, reqs)
  | sitemap_url :: rest =>
      let reqs1 := reqs ++ [sitemap_url] in
      let failed msg :=
        find_sitemap_loop rest
          (add_error ("Sitemap " ++ take 30 sitemap_url ++ ": " ++ take 30 msg) debug)
          reqs1 in
      match http_get (List.length reqs) sitemap_url with
      | Responded r =>
          if (resp_status r =? 200)%Z
          then match sitemap_locs (resp_text r) with
               | inr urls =>
                   if nonnil urls
                   then (Some (firstn 100 urls), set_sitemap (List.length urls) debug, reqs1)
                   else find_sitemap_loop rest debug reqs1
               | inl msg => failed msg
               end
          else find_sitemap_loop rest debug reqs1
      | TimeoutException msg | ConnectError msg | OtherError msg => failed msg
      end
  end.

Definition find_sitemap (domain : string) (debug : ScrapeDebug) (reqs : list string)
  : option (list string) * ScrapeDebug * list string :=
  find_sitemap_loop (sitemap_candidates domain) debug reqs.

(** *** [WebScraper.scrape_domain] *)

(** The local state of the crawl loop. *)
Record Loop := {
  visited : gset string;
  to_visit : gset string;
  pages_scraped : nat;
  priority_urls : list string;
  dbg : ScrapeDebug;
  world : World
}.

(** How the part of [scrape_domain] before the loop ends: by one of the two
    early [return 0, [], debug], or by entering the loop. *)
Inductive Start :=
| Returned (pages : nat) (priority : list string) (debug : ScrapeDebug) (w : World)
| Entered (st : Loop).

(** [domain.replace("https://", "").replace("http://", "").strip("/")] *)
Definition normalize_domain (domain : string) : string :=
  strip_char "/"%char
    (replace "http://" EmptyString (replace "https://" EmptyString domain)).

Definition start_url_of (domain : string) : string := "https://" ++ normalize_domain domain.

Definition make_page (job u domain : string) (target : bool) (f : Fetched)
    (hash : string) : ScrapedPage :=
  {| audit_job_id := job; url := u; domain := domain; is_target := target;
     html_content := f_html f; text_content := f_text f; title := f_title f;
     meta_description := f_meta f; status_code := f_status f;
     content_type := "text/html"; word_count := count_words (f_text f);
     url_hash := hash |}.

(** [db.add(page); try: commit() except IntegrityError: rollback()] *)
Definition db_insert_or_rollback (page : ScrapedPage) (t : table) : table :=
  match db_insert page t with
  | Some t' => t'
  | None => t
  end.

Definition scrape_domain_start (domain job : string) (target : bool) (w : World) : Start :=
  let debug := new_debug domain in
  let domain := normalize_domain domain in
  let start_url := ("https://" ++ domain)%string in
  let debug := set_normalized_url (Some start_url) debug in
  let '(_, debug, reqs) := check_robots domain debug (requests w) in
  if robots_disallows_all debug
  then Returned 0 []
         (add_error "robots.txt disallows all crawling"
            (set_blocked "robots_disallow" None debug))
         {| db := db w; requests := reqs |}
  else
    let '(homepage_result, debug, reqs) := fetch_page start_url debug true reqs in
    match homepage_result with
    | None =>
        let debug := match blocked_reason debug with
                     | Some (String _ _) => debug
                     | _ => set_blocked "homepage_failed" None debug
                     end in
        Returned 0 [] debug {| db := db w; requests := reqs |}
    | Some f =>
        let url_hash := get_url_hash start_url in
        let home_url := or_str (final_url debug) start_url in
        let db1 := if db_exists url_hash job (db w) then db w
                   else db_insert_or_rollback
                          (make_page job home_url domain target f url_hash) (db w) in
        let visited : gset string := {[ start_url ]} in
        let homepage_links := extract_links (f_html f) start_url in
        let debug := set_links_extracted (size homepage_links) debug in
        let to_visit := homepage_links ∖ visited in
        let '(sitemap_urls, debug, reqs) := find_sitemap domain debug reqs in
        let to_visit :=
          match sitemap_urls with
          | Some urls => to_visit ∪ (list_to_set (List.map normalize_url urls) ∖ visited)
          | None => to_visit
          end in
        Entered {| visited := visited; to_visit := to_visit; pages_scraped := 1;
                   priority_urls := [home_url]; dbg := debug;
                   world := {| db := db1; requests := reqs |} |}
    end.

(** [set(sorted(new_links, key=identify_page_priority)[:30])]: sorting a set
    leaves the order among links of equal priority open, so the 30 links kept
    are any 30 of least priority number. *)
Definition top_selection (new_links chosen : gset string) : Prop :=
  chosen ⊆ new_links /\ size chosen = Nat.min 30 (size new_links) /\
  forall a b, a ∈ chosen -> b ∈ new_links -> b ∉ chosen ->
              (identify_page_priority a <= identify_page_priority b)%nat.

Definition with_skip (u : string) (debug : ScrapeDebug) (w : World) (st : Loop) : Loop :=
  {| visited := visited st ∪ {[ u ]}; to_visit := to_visit st ∖ {[ u ]};
     pages_scraped := pages_scraped st; priority_urls := priority_urls st;
     dbg := debug; world := w |}.

(** One iteration of [while to_visit and pages_scraped < max_pages], for the
    URL [u] that [to_visit.pop()] hands out and the links [chosen] kept from
    the new page. *)
Definition loop_body (job domain : string) (target : bool) (max_pages : nat)
    (u : string) (chosen : gset string) (st : Loop) : Loop :=
  if bool_decide (u ∈ visited st)
  then {| visited := visited st; to_visit := to_visit st ∖ {[ u ]};
          pages_scraped := pages_scraped st; priority_urls := priority_urls st;
          dbg := dbg st; world := world st |}
  else
    let url_hash := get_url_hash u in
    if db_exists url_hash job (db (world st))
    then with_skip u (dbg st) (world st) st
    else
      let '(result, debug, reqs) := fetch_page u (dbg st) false (requests (world st)) in
      match result with
      | None => with_skip u debug {| db := db (world st); requests := reqs |} st
      | Some f =>
          match db_insert (make_page job u domain target f url_hash) (db (world st)) with
          | None => with_skip u debug {| db := db (world st); requests := reqs |} st
          | Some db1 =>
              let visited1 := visited st ∪ {[ u ]} in
              let scraped1 := S (pages_scraped st) in
              let to_visit1 := to_visit st ∖ {[ u ]} in
              {| visited := visited1;
                 to_visit := if target && (scraped1 <? max_pages)%nat
                             then to_visit1 ∪ (chosen ∖ visited1)
                             else to_visit1;
                 pages_scraped := scraped1;
                 priority_urls := if (identify_page_priority u <=? 2)%nat
                                  then priority_urls st ++ [u]
                                  else priority_urls st;
                 dbg := debug;
                 world := {| db := db1; requests := reqs |} |}
          end
      end.

Definition loop_step (job domain : string) (target : bool) (max_pages : nat)
    (st st' : Loop) : Prop :=
  exists u chosen,
    u ∈ to_visit st /\ (pages_scraped st < max_pages)%nat /\
    (forall f d r,
        fetch_page u (dbg st) false (requests (world st)) = (Some f, d, r) ->
        top_selection (extract_links (f_html f) u) chosen) /\
    st' = loop_body job domain target max_pages u chosen st.

(** The loop is left when [to_visit] is empty or the budget is used up. *)
Definition loop_done (max_pages : nat) (st : Loop) : Prop :=
  to_visit st = ∅ \/ ~ (pages_scraped st < max_pages)%nat.

(** [scrape_domain(domain, job_id, is_target, max_pages)] started in world
    [w] returns [(pages_scraped, priority_urls, debug)] and leaves world [w']. *)
Inductive scrape_domain (domain job : string) (target : bool) (max_pages : nat)
    (w : World) : nat * list string * ScrapeDebug -> World -> Prop :=
| scrape_early n p d w' :
    scrape_domain_start domain job target w = Returned n p d w' ->
    scrape_domain domain job target max_pages w (n, p, d) w'
| scrape_looped st0 st :
    scrape_domain_start domain job target w = Entered st0 ->
    rtc (loop_step job (normalize_domain domain) target max_pages) st0 st ->
    loop_done max_pages st ->
    scrape_domain domain job target max_pages w
      (pages_scraped st, priority_urls st, dbg st) (world st).

(** The page tables a crawl passes through. *)
Inductive crawl_reaches (domain job : string) (target : bool) (max_pages : nat)
    (w : World) : table -> Prop :=
| reach_begin : crawl_reaches domain job target max_pages w (db w)
| reach_return n p d w' :
    scrape_domain_start domain job target w = Returned n p d w' ->
    crawl_reaches domain job target max_pages w (db w')
| reach_loop st0 st :
    scrape_domain_start domain job target w = Entered st0 ->
    rtc (loop_step job (normalize_domain domain) target max_pages) st0 st ->
    crawl_reaches domain job target max_pages w (db (world st)).

(** *** Invariants of the page table *)

(** No two rows share a [url_hash]; no two rows of one job do. *)
Definition unique_hashes (t : table) : Prop := List.NoDup (List.map url_hash t).


Definition hash_stored (h : string) (t : table) : Prop :=
  exists q, List.In q t /\ url_hash q = h.

Lemma db_insert_Some page t t' :
  db_insert page t = Some t' ->
  t' = t ++ [page] /\ ~ hash_stored (url_hash page) t.
Proof.
  unfold db_insert. destruct (existsb _ t) eqn:E; [discriminate|].
  intros H. inversion H. split; [reflexivity|].
  intros [q [Hq Hh]].
  assert (existsb (fun p => String.eqb (url_hash p) (url_hash page)) t = true).
  { apply List.existsb_exists. exists q. split; [assumption|].
    now apply String.eqb_eq. }
  congruence.
Qed.

Lemma db_insert_None page t :
  db_insert page t = None -> hash_stored (url_hash page) t.
Proof.
  unfold db_insert. destruct (existsb _ t) eqn:E; [|discriminate].
  intros _. apply List.existsb_exists in E. destruct E as [q [Hq Hh]].
  exists q. split; [assumption|]. now apply String.eqb_eq.
Qed.

Lemma db_exists_true h job t :
  db_exists h job t = true <->
  exists q, List.In q t /\ url_hash q = h /\ audit_job_id q = job.
Proof.
  unfold db_exists. rewrite List.existsb_exists. split.
  - intros [q [Hq Hb]]. apply andb_true_iff in Hb. destruct Hb as [H1 H2].
    exists q. repeat split; [assumption| now apply String.eqb_eq ..].
  - intros [q [Hq [H1 H2]]]. exists q. split; [assumption|].
    apply andb_true_iff. split; now apply String.eqb_eq.
Qed.


Lemma NoDup_snoc {A} (l : list A) (x : A) :
  List.NoDup l -> ~ List.In x l -> List.NoDup (l ++ [x]).
Proof.
  induction l as [|y l IH]; simpl; intros Hn Hx.
  - constructor; [intros []|constructor].
  - inversion Hn as [|? ? Hy Hl]; subst. constructor.
    + intros Hin. apply List.in_app_or in Hin. destruct Hin as [Hin|[->|[]]]; tauto.
    + apply IH; tauto.
Qed.

Lemma unique_hashes_insert page t t' :
  unique_hashes t -> db_insert page t = Some t' -> unique_hashes t'.
Proof.
  intros Hu Hi. apply db_insert_Some in Hi. destruct Hi as [-> Hfresh].
  unfold unique_hashes in *. rewrite List.map_app. simpl.
  apply NoDup_snoc; [assumption|].
  intros Hin. apply List.in_map_iff in Hin. destruct Hin as [q [Hq1 Hq2]].
  apply Hfresh. exists q. split; assumption.
Qed.


(** What one step of the crawl does to the table: nothing, or the insertion
    of one page of the job whose key no row of the job carried. *)
Definition table_step (job : string) (t t' : table) : Prop :=
  t' = t \/
  exists page, db_insert page t = Some t' /\ audit_job_id page = job /\
               db_exists (url_hash page) job t = false.

Lemma loop_body_table job domain target max_pages u chosen st :
  table_step job (db (world st))
    (db (world (loop_body job domain target max_pages u chosen st))).
Proof.
  unfold loop_body.
  destruct (bool_decide (u ∈ visited st)); [now left|].
  destruct (db_exists (get_url_hash u) job (db (world st))) eqn:Hex; [now left|].
  destruct (fetch_page u (dbg st) false (requests (world st))) as [[res d] r].
  destruct res as [f|]; [|now left].
  destruct (db_insert _ (db (world st))) as [db1|] eqn:Hins; [|now left].
  right. eexists. split; [exact Hins|]. split; [reflexivity|exact Hex].
Qed.

Lemma start_table domain job target w :
  match scrape_domain_start domain job target w with
  | Returned n p d w' => n = 0%nat /\ p = [] /\ db w' = db w
  | Entered st0 => pages_scraped st0 = 1%nat /\ table_step job (db w) (db (world st0))
  end.
Proof.
  unfold scrape_domain_start.
  destruct (check_robots _ _ _) as [[allowed d1] r1].
  destruct (robots_disallows_all d1); [now repeat split|].
  destruct (fetch_page _ d1 true r1) as [[res d2] r2].
  destruct res as [f|]; [|now repeat split].
  destruct (find_sitemap _ _ r2) as [[urls d3] r3]. simpl.
  split; [reflexivity|].
  destruct (db_exists _ job (db w)) eqn:Hex; [now left|].
  unfold db_insert_or_rollback.
  destruct (db_insert _ (db w)) as [db1|] eqn:Hins; [|now left].
  right. eexists. split; [exact Hins|]. split; [reflexivity|exact Hex].
Qed.


Lemma table_step_unique_hashes job t t' :
  table_step job t t' -> unique_hashes t -> unique_hashes t'.
Proof.
  intros [->|[page [Hins _]]] Hu; [assumption|].
  eapply unique_hashes_insert; eassumption.
Qed.

(** An invariant of the table that every table step keeps holds in every
    table the crawl passes through. *)
Lemma crawl_reaches_invariant (P : table -> Prop) domain job target max_pages w t :
  (forall t1 t2, table_step job t1 t2 -> P t1 -> P t2) ->
  P (db w) ->
  crawl_reaches domain job target max_pages w t -> P t.
Proof.
  intros Hstep H0 Hr.
  pose proof (start_table domain job target w) as Hs.
  destruct Hr as [|n p d w' E|st0 st E Hrtc].
  - assumption.
  - rewrite E in Hs. destruct Hs as [_ [_ ->]]. assumption.
  - rewrite E in Hs. destruct Hs as [_ Hs].
    assert (H1 : P (db (world st0))) by (eapply Hstep; eassumption).
    clear E Hs. induction Hrtc as [|x y z Hxy _ IH]; [assumption|].
    apply IH. destruct Hxy as [u [chosen [_ [_ [_ ->]]]]].
    eapply Hstep; [apply loop_body_table|assumption].
Qed.

(** *** The part before the loop *)

Lemma check_robots_requests domain debug reqs :
  snd (check_robots domain debug reqs) = reqs ++ [robots_url domain].
Proof.
  unfold check_robots.
  destruct (http_get _ _) as [r| | |]; try reflexivity.
  now destruct ((resp_status r =? 200)%Z && _).
Qed.

(** The debug record with which [scrape_domain] calls [check_robots]. *)
Definition first_debug (domain : string) : ScrapeDebug :=
  set_normalized_url (Some (start_url_of domain)) (new_debug domain).

(** How any run of [scrape_domain] ends once the part before the loop
    returns. *)
Lemma scrape_domain_early domain job target max_pages w n p d w1 :
  scrape_domain_start domain job target w = Returned n p d w1 ->
  forall res w', scrape_domain domain job target max_pages w res w' ->
                 res = (n, p, d) /\ w' = w1.
Proof.
  intros E res w' Hrun. destruct Hrun as [n' p' d' w2 E'|st0 st E' _ _].
  - rewrite E in E'. inversion E'. now split.
  - rewrite E in E'. discriminate.
Qed.

(** C2, amended.  When the homepage answers 403, [scrape_domain] returns 0
    pages and no priority URL, stores nothing, and the debug record's
    [blocked_reason] is the string ["403_waf"]. *)
Theorem homepage_403_blocks_crawl domain job target max_pages w r :
  robots_disallows_all
    (snd (fst (check_robots (normalize_domain domain) (first_debug domain) (requests w))))
    = false ->
  is_safe_url (start_url_of domain) = true ->
  http_get (S (List.length (requests w))) (start_url_of domain) = Responded r ->
  resp_status r = 403%Z ->
  exists debug,
    scrape_domain_start domain job target w
      = Returned 0 [] debug
          {| db := db w;
             requests := (requests w ++ [robots_url (normalize_domain domain)])
                         ++ [start_url_of domain] |} /\
    blocked_reason debug = Some "403_waf" /\
    homepage_status_code debug = Some 403%Z /\
    forall res w', scrape_domain domain job target max_pages w res w' ->
                   fst (fst res) = 0%nat /\ blocked_reason (snd res) = Some "403_waf".
Proof.
  intros Hrob Hsafe Hget H403.
  pose proof (check_robots_requests (normalize_domain domain) (first_debug domain)
                (requests w)) as Hreqs.
  assert (Hlen : List.length (requests w ++ [robots_url (normalize_domain domain)])
                 = S (List.length (requests w))).
  { rewrite List.length_app. simpl. lia. }
  assert (Hstart : exists debug,
    scrape_domain_start domain job target w
      = Returned 0 [] debug
          {| db := db w;
             requests := (requests w ++ [robots_url (normalize_domain domain)])
                         ++ [start_url_of domain] |} /\
    blocked_reason debug = Some "403_waf" /\
    homepage_status_code debug = Some 403%Z).
  { unfold scrape_domain_start. fold (start_url_of domain). fold (first_debug domain).
    destruct (check_robots _ _ _) as [[allowed d1] r1]. simpl in Hrob, Hreqs.
    subst r1. rewrite Hrob.
    unfold fetch_page. rewrite Hsafe. simpl negb. cbv iota.
    rewrite Hlen, Hget, H403. simpl.
    eexists. split; [reflexivity|]. split; reflexivity. }
  destruct Hstart as [debug [Hs [Hb Hc]]].
  exists debug. repeat split; try assumption;
    destruct (scrape_domain_early _ _ _ max_pages _ _ _ _ _ Hs res w' H) as [-> _];
    simpl; auto.
Qed.

(** C5, amended.  When [robots.txt] is served with status 200 and its
    lower-cased text has a line containing ["user-agent: *"] followed, within
    the next four lines, by a line that is ["disallow: /"] once stripped,
    [scrape_domain] returns 0 pages with [blocked_reason] ["robots_disallow"],
    and the request for [robots.txt] is the only request of the crawl. *)
Theorem robots_disallow_halts_crawl domain job target max_pages w r :
  http_get (List.length (requests w)) (robots_url (normalize_domain domain)) = Responded r ->
  resp_status r = 200%Z ->
  robots_blanket_disallow (lower (resp_text r)) = true ->
  exists debug,
    scrape_domain_start domain job target w
      = Returned 0 [] debug
          {| db := db w;
             requests := requests w ++ [robots_url (normalize_domain domain)] |} /\
    blocked_reason debug = Some "robots_disallow" /\
    robots_disallows_all debug = true /\
    forall res w', scrape_domain domain job target max_pages w res w' ->
                   res = (0%nat, [], debug) /\
                   requests w' = requests w ++ [robots_url (normalize_domain domain)] /\
                   db w' = db w.
Proof.
  intros Hget H200 Hblanket.
  assert (Hstart : exists debug,
    scrape_domain_start domain job target w
      = Returned 0 [] debug
          {| db := db w;
             requests := requests w ++ [robots_url (normalize_domain domain)] |} /\
    blocked_reason debug = Some "robots_disallow" /\
    robots_disallows_all debug = true).
  { unfold scrape_domain_start, check_robots.
    rewrite Hget, H200, Hblanket. simpl.
    eexists. split; [reflexivity|]. split; reflexivity. }
  destruct Hstart as [debug [Hs [Hb Hc]]].
  exists debug. repeat split; try assumption;
    destruct (scrape_domain_early _ _ _ max_pages _ _ _ _ _ Hs res w' H) as [-> ->];
    reflexivity.
Qed.

(** *** The loop *)


Lemma table_step_appends job t t' :
  table_step job t t' ->
  t' = t \/
  exists page, t' = t ++ [page] /\ audit_job_id page = job /\
               ~ List.In (url_hash page) (List.map url_hash (pages_of_job job t)).
Proof.
  intros [->|[page [Hins [Hjob _]]]]; [now left|right].
  apply db_insert_Some in Hins. destruct Hins as [-> Hfresh].
  exists page. repeat split; [assumption|].
  intros Hin. apply List.in_map_iff in Hin. destruct Hin as [q [Hq1 Hq2]].
  apply Hfresh. exists q. split; [|assumption].
  unfold pages_of_job in Hq2. now apply List.filter_In in Hq2.
Qed.




(** C10.  The unique constraint on [url_hash] spans the jobs: if no two rows
    of the table share a key when the crawl starts, none do in any table the
    crawl passes through.  In the loop, a fetched page whose key some row
    already carries (a row of another job, as the job's own rows were checked
    before the fetch) is not stored and not counted, and the loop goes on with
    the URL marked visited.  For the homepage the failed insert is rolled back
    as well, but [pages_scraped] is set to 1 all the same. *)
Theorem url_hash_unique_across_jobs domain job target max_pages w :
  unique_hashes (db w) ->
  (forall t, crawl_reaches domain job target max_pages w t -> unique_hashes t) /\
  (forall st u chosen f d r,
      u ∉ visited st ->
      db_exists (get_url_hash u) job (db (world st)) = false ->
      fetch_page u (dbg st) false (requests (world st)) = (Some f, d, r) ->
      hash_stored (get_url_hash u) (db (world st)) ->
      loop_body job (normalize_domain domain) target max_pages u chosen st
      = with_skip u d {| db := db (world st); requests := r |} st) /\
  (forall st0,
      scrape_domain_start domain job target w = Entered st0 ->
      hash_stored (get_url_hash (start_url_of domain)) (db w) ->
      pages_scraped st0 = 1%nat /\ db (world st0) = db w).
Proof.
  intros H0. split; [|split].
  - intros t Hr.
    apply (crawl_reaches_invariant unique_hashes domain job target max_pages w t);
      [|assumption|assumption].
    intros t1 t2 Hs. now apply (table_step_unique_hashes job).
  - intros st u chosen f d r Hv Hex Hf Hst. unfold loop_body.
    rewrite bool_decide_eq_false_2 by assumption. rewrite Hex, Hf.
    destruct (db_insert _ (db (world st))) as [db1|] eqn:Hins; [|reflexivity].
    apply db_insert_Some in Hins. destruct Hins as [_ Hfresh]. now destruct Hfresh.
  - intros st0 E Hst.
    pose proof (start_table domain job target w) as Hs. rewrite E in Hs.
    destruct Hs as [Hp Hs]. split; [assumption|].
    revert E. unfold scrape_domain_start. fold (start_url_of domain).
    destruct (check_robots _ _ _) as [[allowed d1] r1].
    destruct (robots_disallows_all d1); [discriminate|].
    destruct (fetch_page _ d1 true r1) as [[res d2] r2].
    destruct res as [f|]; [|discriminate].
    destruct (find_sitemap _ _ r2) as [[urls d3] r3].
    intros E. inversion E. simpl.
    destruct (db_exists _ job (db w)); [reflexivity|].
    unfold db_insert_or_rollback.
    destruct (db_insert _ (db w)) as [db1|] eqn:Hins; [|reflexivity].
    apply db_insert_Some in Hins. destruct Hins as [_ Hfresh]. now destruct Hfresh.
Qed.

(** *** The page fetcher, seen from the crawl *)

(** The counters of the debug record. *)
Definition counters_ok (d : ScrapeDebug) : Prop :=
  (pages_success d + pages_failed d <= pages_attempted d)%nat.

Lemma fetch_page_unsafe u debug hp reqs :
  is_safe_url u = false ->
  fetch_page u debug hp reqs
  = (None, add_error ("SSRF blocked: " ++ take 50 u) debug, reqs).
Proof. intros H. unfold fetch_page. now rewrite H. Qed.

Lemma fetch_page_requests u debug hp reqs :
  snd (fetch_page u debug hp reqs) = if is_safe_url u then reqs ++ [u] else reqs.
Proof.
  unfold fetch_page. destruct (is_safe_url u); simpl; [|reflexivity].
  destruct (http_get _ _) as [r|m|m|m]; try reflexivity.
  repeat match goal with
         | |- context [if ?b then _ else _] => destruct b
         end; try reflexivity.
  now destruct (parse_page _) as [?|[[? ?] ?]].
Qed.

Lemma fetch_page_counters u debug hp reqs :
  let d := snd (fst (fetch_page u debug hp reqs)) in
  let res := fst (fst (fetch_page u debug hp reqs)) in
  pages_attempted d
    = (pages_attempted debug + (if is_safe_url u then 1 else 0))%nat /\
  pages_success d
    = (pages_success debug + (match res with Some _ => 1 | None => 0 end))%nat /\
  (pages_failed d
   <= pages_failed debug
      + (match res with Some _ => 0 | None => if is_safe_url u then 1 else 0 end))%nat.
Proof.
  destruct (fetch_page u debug hp reqs) as [[res d] r] eqn:E. simpl.
  revert E. unfold fetch_page, on_other_error, when.
  destruct (is_safe_url u); simpl.
  2: { intros E. inversion E. subst. simpl. repeat split; lia. }
  destruct (http_get _ _) as [rsp|m|m|m]; destruct hp; simpl;
    repeat match goal with
           | |- context [if ?b then _ else _] => destruct b; simpl
           end;
    try (destruct (parse_page _) as [?|[[? ?] ?]]; simpl);
    intros E; inversion E; subst; simpl; repeat split; lia.
Qed.

Lemma fetch_page_counters_ok u debug hp reqs :
  counters_ok debug -> counters_ok (snd (fst (fetch_page u debug hp reqs))).
Proof.
  unfold counters_ok. intros H.
  destruct (fetch_page_counters u debug hp reqs) as [Ha [Hs Hf]].
  destruct (fst (fst (fetch_page u debug hp reqs))) as [f|] eqn:E.
  - assert (Hsafe : is_safe_url u = true).
    { destruct (is_safe_url u) eqn:Hu; [reflexivity|].
      rewrite (fetch_page_unsafe u debug hp reqs Hu) in E. discriminate. }
    rewrite Hsafe in Ha. lia.
  - destruct (is_safe_url u); lia.
Qed.

(** *** The robots check and the sitemap lookup *)

(** X1.  [check_robots] is permissive: it answers [False] only for a
    response of status 200 whose text passes the blanket test, and exactly
    then raises the flag [robots_disallows_all]; a failed request is recorded
    as the status ["error"] and lets the crawl go on.  The check makes one
    request, to the domain's [robots.txt], and leaves the blocked reason and
    the page counters alone. *)
Theorem check_robots_permissive domain debug reqs :
  let '(allowed, d, reqs') := check_robots domain debug reqs in
  reqs' = reqs ++ [robots_url domain] /\
  (allowed = false <->
   exists r, http_get (List.length reqs) (robots_url domain) = Responded r /\
             resp_status r = 200%Z /\
             robots_blanket_disallow (lower (resp_text r)) = true) /\
  robots_disallows_all d = (negb allowed || robots_disallows_all debug) /\
  (robots_txt_status d = Some RobotsError <->
   forall r, http_get (List.length reqs) (robots_url domain) <> Responded r) /\
  blocked_reason d = blocked_reason debug /\
  (pages_attempted d, pages_success d, pages_failed d)
  = (pages_attempted debug, pages_success debug, pages_failed debug).
Proof.
  destruct (check_robots domain debug reqs) as [[allowed d] reqs'] eqn:E.
  revert E. unfold check_robots.
  destruct (http_get _ _) as [r|m|m|m] eqn:Hget.
  - destruct ((resp_status r =? 200)%Z && _) eqn:Hc; intros E; inversion E; subst; simpl.
    + apply andb_true_iff in Hc. destruct Hc as [H200 Hb]. apply Z.eqb_eq in H200.
      repeat split; try discriminate; try reflexivity.
      * intros _. exists r. repeat split; assumption.
      * intros H. destruct (H r). reflexivity.
    + repeat split; try discriminate; try reflexivity.
      * intros [r' [Hr' [H200 Hb]]]. inversion Hr'. subst r'.
        rewrite H200, Hb in Hc. discriminate.
      * intros H. destruct (H r). reflexivity.
  - intros E; inversion E; subst; simpl. repeat split; try discriminate; try reflexivity.
    intros [r' [Hr' _]]. discriminate.
  - intros E; inversion E; subst; simpl. repeat split; try discriminate; try reflexivity.
    intros [r' [Hr' _]]. discriminate.
  - intros E; inversion E; subst; simpl. repeat split; try discriminate; try reflexivity.
    intros [r' [Hr' _]]. discriminate.
Qed.

(** The sitemap lookup over any list of candidates. *)
Lemma find_sitemap_loop_spec candidates debug reqs :
  let '(res, d, reqs') := find_sitemap_loop candidates debug reqs in
  (exists k, (k <= List.length candidates)%nat /\ reqs' = reqs ++ firstn k candidates) /\
  blocked_reason d = blocked_reason debug /\
  (pages_attempted d, pages_success d, pages_failed d)
  = (pages_attempted debug, pages_success debug, pages_failed debug) /\
  match res with
  | Some urls =>
      urls <> [] /\ (List.length urls <= 100)%nat /\ sitemap_found d = true /\
      (List.length urls <= sitemap_urls_count d)%nat
  | None =>
      reqs' = reqs ++ candidates /\ sitemap_found d = sitemap_found debug /\
      sitemap_urls_count d = sitemap_urls_count debug
  end.
Proof.
  revert debug reqs. induction candidates as [|c rest IH]; intros debug reqs.
  - simpl. split; [exists 0%nat; split; [lia|now rewrite List.app_nil_r]|].
    repeat split; try reflexivity. now rewrite List.app_nil_r.
  - assert (Hrec : forall debug1,
      blocked_reason debug1 = blocked_reason debug ->
      (pages_attempted debug1, pages_success debug1, pages_failed debug1)
      = (pages_attempted debug, pages_success debug, pages_failed debug) ->
      sitemap_found debug1 = sitemap_found debug ->
      sitemap_urls_count debug1 = sitemap_urls_count debug ->
      let '(res, d, reqs') := find_sitemap_loop rest debug1 (reqs ++ [c]) in
      (exists k, (k <= List.length (c :: rest))%nat /\ reqs' = reqs ++ firstn k (c :: rest)) /\
      blocked_reason d = blocked_reason debug /\
      (pages_attempted d, pages_success d, pages_failed d)
      = (pages_attempted debug, pages_success debug, pages_failed debug) /\
      match res with
      | Some urls =>
          urls <> [] /\ (List.length urls <= 100)%nat /\ sitemap_found d = true /\
          (List.length urls <= sitemap_urls_count d)%nat
      | None =>
          reqs' = reqs ++ c :: rest /\ sitemap_found d = sitemap_found debug /\
          sitemap_urls_count d = sitemap_urls_count debug
      end).
    { intros debug1 Hb Hc Hf Hn. specialize (IH debug1 (reqs ++ [c])).
      destruct (find_sitemap_loop rest debug1 (reqs ++ [c])) as [[res d] reqs'].
      destruct IH as [[k [Hk Hr]] [Hb' [Hc' Hres]]].
      split; [exists (S k); split; [simpl; lia|]; rewrite Hr, <- List.app_assoc; reflexivity|].
      split; [congruence|]. split; [congruence|].
      destruct res as [urls|]; [exact Hres|].
      destruct Hres as [H1 [H2 H3]].
      split; [rewrite H1, <- List.app_assoc; reflexivity|]. split; congruence. }
    simpl. destruct (http_get _ c) as [r|m|m|m].
    + destruct (resp_status r =? 200)%Z; [|now apply Hrec].
      destruct (sitemap_locs _) as [m|urls]; [now apply Hrec|].
      destruct urls as [|u0 urls]; [now apply Hrec|]. cbn [nonnil].
      split; [exists 1%nat; split; [simpl; lia|reflexivity]|].
      repeat split; try reflexivity; try discriminate.
      * rewrite List.length_firstn. lia.
      * cbn [set_sitemap sitemap_urls_count]. rewrite List.length_firstn. lia.
    + now apply Hrec.
    + now apply Hrec.
    + now apply Hrec.
Qed.

(** What the request number [n], to the candidate [u], lists: the [loc]
    entries of a response of status 200 that parses and has some. *)
Definition sitemap_listing (n : nat) (u : string) : option (list string) :=
  match http_get n u with
  | Responded r =>
      if (resp_status r =? 200)%Z
      then match sitemap_locs (resp_text r) with
           | inr urls => if nonnil urls then Some urls else None
           | inl _ => None
           end
      else None
  | _ => None
  end.

(** The lookup answers from the first candidate that lists URLs. *)
Lemma find_sitemap_loop_first candidates debug reqs :
  let '(res, d, reqs') := find_sitemap_loop candidates debug reqs in
  match res with
  | Some urls =>
      exists k listed,
        (k < List.length candidates)%nat /\
        reqs' = reqs ++ firstn (S k) candidates /\
        (forall i, (i < k)%nat ->
           sitemap_listing (List.length reqs + i) (nth i candidates EmptyString) = None) /\
        sitemap_listing (List.length reqs + k) (nth k candidates EmptyString) = Some listed /\
        urls = firstn 100 listed /\ sitemap_urls_count d = List.length listed
  | None =>
      forall i, (i < List.length candidates)%nat ->
        sitemap_listing (List.length reqs + i) (nth i candidates EmptyString) = None
  end.
Proof.
  revert debug reqs. induction candidates as [|c rest IH]; intros debug reqs.
  - simpl. intros i Hi. lia.
  - assert (Hrec : forall debug1,
      sitemap_listing (List.length reqs) c = None ->
      let '(res, d, reqs') := find_sitemap_loop rest debug1 (reqs ++ [c]) in
      match res with
      | Some urls =>
          exists k listed,
            (k < List.length (c :: rest))%nat /\
            reqs' = reqs ++ firstn (S k) (c :: rest) /\
            (forall i, (i < k)%nat ->
               sitemap_listing (List.length reqs + i) (nth i (c :: rest) EmptyString)
               = None) /\
            sitemap_listing (List.length reqs + k) (nth k (c :: rest) EmptyString)
            = Some listed /\
            urls = firstn 100 listed /\ sitemap_urls_count d = List.length listed
      | None =>
          forall i, (i < List.length (c :: rest))%nat ->
            sitemap_listing (List.length reqs + i) (nth i (c :: rest) EmptyString) = None
      end).
    { intros debug1 Hmiss. specialize (IH debug1 (reqs ++ [c])).
      destruct (find_sitemap_loop rest debug1 (reqs ++ [c])) as [[res d] reqs'].
      assert (Hidx : forall j, (List.length (reqs ++ [c]) + j
                                = List.length reqs + S j)%nat)
        by (intros j; rewrite List.length_app; simpl; lia).
      destruct res as [urls|].
      - destruct IH as [k [listed [Hk [Hr [Hbefore [Hat [Hu Hn]]]]]]].
        exists (S k), listed. split; [simpl; lia|].
        split; [rewrite Hr, <- List.app_assoc; reflexivity|].
        split; [|split; [|split; assumption]].
        + intros [|j] Hj; [rewrite Nat.add_0_r; exact Hmiss|].
          rewrite <- Hidx. apply Hbefore. lia.
        + rewrite <- Hidx. exact Hat.
      - intros [|j] Hj; [rewrite Nat.add_0_r; exact Hmiss|].
        rewrite <- Hidx. apply IH. simpl in Hj. lia. }
    cbn [find_sitemap_loop]. unfold sitemap_listing in Hrec.
    destruct (http_get (List.length reqs) c) as [r|m|m|m] eqn:Hget;
      try (now apply Hrec).
    destruct (resp_status r =? 200)%Z eqn:H200; [|now apply Hrec].
    destruct (sitemap_locs (resp_text r)) as [m|urls] eqn:Hlocs; [now apply Hrec|].
    destruct (nonnil urls) eqn:Hnn; [|now apply Hrec].
    exists 0%nat, urls. split; [simpl; lia|]. split; [reflexivity|].
    split; [intros i Hi; lia|].
    split; [|split; reflexivity].
    rewrite Nat.add_0_r. unfold sitemap_listing. cbn [nth].
    now rewrite Hget, H200, Hlocs, Hnn.
Qed.

(** X2.  [find_sitemap] tries the three candidate locations in order and
    stops at the first that lists URLs: the candidates before it were
    requested and listed nothing, no later candidate is requested, the result
    is the first 100 of the URLs that candidate lists (between 1 and 100 of
    them), [sitemap_found] is set and [sitemap_urls_count] is the number
    listed.  When no candidate lists URLs, all three were requested, the
    result is [None] and the sitemap fields are as before.  The lookup never
    touches the blocked reason or the page counters. *)
Theorem find_sitemap_bounds domain debug reqs :
  let '(res, d, reqs') := find_sitemap domain debug reqs in
  (exists k, (k <= 3)%nat /\ reqs' = reqs ++ firstn k (sitemap_candidates domain)) /\
  blocked_reason d = blocked_reason debug /\
  (pages_attempted d, pages_success d, pages_failed d)
  = (pages_attempted debug, pages_success debug, pages_failed debug) /\
  match res with
  | Some urls =>
      (urls <> [] /\ (List.length urls <= 100)%nat /\ sitemap_found d = true /\
       (List.length urls <= sitemap_urls_count d)%nat) /\
      exists k listed,
        (k < 3)%nat /\
        reqs' = reqs ++ firstn (S k) (sitemap_candidates domain) /\
        (forall i, (i < k)%nat ->
           sitemap_listing (List.length reqs + i)
             (nth i (sitemap_candidates domain) EmptyString) = None) /\
        sitemap_listing (List.length reqs + k)
          (nth k (sitemap_candidates domain) EmptyString) = Some listed /\
        urls = firstn 100 listed /\ sitemap_urls_count d = List.length listed
  | None =>
      (reqs' = reqs ++ sitemap_candidates domain /\
       sitemap_found d = sitemap_found debug /\
       sitemap_urls_count d = sitemap_urls_count debug) /\
      forall i, (i < 3)%nat ->
        sitemap_listing (List.length reqs + i)
          (nth i (sitemap_candidates domain) EmptyString) = None
  end.
Proof.
  unfold find_sitemap.
  pose proof (find_sitemap_loop_spec (sitemap_candidates domain) debug reqs) as A.
  pose proof (find_sitemap_loop_first (sitemap_candidates domain) debug reqs) as B.
  destruct (find_sitemap_loop (sitemap_candidates domain) debug reqs) as [[res d] reqs'].
  destruct A as [A1 [A2 [A3 A4]]].
  split; [exact A1|]. split; [exact A2|]. split; [exact A3|].
  destruct res as [urls|]; split; assumption.
Qed.

(** *** Invariants of the loop *)

Lemma loop_invariant (P : Loop -> Prop) job domain target max_pages st0 st :
  P st0 ->
  (forall s u chosen,
      P s -> u ∈ to_visit s -> (pages_scraped s < max_pages)%nat ->
      (forall f d r,
          fetch_page u (dbg s) false (requests (world s)) = (Some f, d, r) ->
          top_selection (extract_links (f_html f) u) chosen) ->
      P (loop_body job domain target max_pages u chosen s)) ->
  rtc (loop_step job domain target max_pages) st0 st -> P st.
Proof.
  intros H0 Hstep Hr. induction Hr as [|x y z Hxy _ IH]; [assumption|].
  apply IH. destruct Hxy as [u [chosen [H1 [H2 [H3 ->]]]]]. now apply Hstep.
Qed.

(** The state after a stored page. *)
Definition after_store (max_pages : nat) (target : bool) (u : string)
    (chosen : gset string) (d : ScrapeDebug) (db1 : table) (r : list string)
    (st : Loop) : Loop :=
  {| visited := visited st ∪ {[ u ]};
     to_visit := if target && (S (pages_scraped st) <? max_pages)%nat
                 then (to_visit st ∖ {[ u ]}) ∪ (chosen ∖ (visited st ∪ {[ u ]}))
                 else to_visit st ∖ {[ u ]};
     pages_scraped := S (pages_scraped st);
     priority_urls := if (identify_page_priority u <=? 2)%nat
                      then priority_urls st ++ [u]
                      else priority_urls st;
     dbg := d;
     world := {| db := db1; requests := r |} |}.

(** The four ways an iteration ends. *)
Lemma loop_body_cases job domain target max_pages u chosen st :
  let st' := loop_body job domain target max_pages u chosen st in
  ((u ∈ visited st) /\
   st' = {| visited := visited st; to_visit := to_visit st ∖ {[ u ]};
            pages_scraped := pages_scraped st; priority_urls := priority_urls st;
            dbg := dbg st; world := world st |})
  \/ ((u ∉ visited st) /\ db_exists (get_url_hash u) job (db (world st)) = true /\
      st' = with_skip u (dbg st) (world st) st)
  \/ ((u ∉ visited st) /\ db_exists (get_url_hash u) job (db (world st)) = false /\
      exists res d r,
        fetch_page u (dbg st) false (requests (world st)) = (res, d, r) /\
        (match res with
         | None => True
         | Some f =>
             db_insert (make_page job u domain target f (get_url_hash u)) (db (world st))
             = None
         end) /\
        st' = with_skip u d {| db := db (world st); requests := r |} st)
  \/ ((u ∉ visited st) /\ db_exists (get_url_hash u) job (db (world st)) = false /\
      exists f d r db1,
        fetch_page u (dbg st) false (requests (world st)) = (Some f, d, r) /\
        db_insert (make_page job u domain target f (get_url_hash u)) (db (world st))
        = Some db1 /\
        st' = after_store max_pages target u chosen d db1 r st).
Proof.
  unfold loop_body.
  destruct (bool_decide (u ∈ visited st)) eqn:Hv.
  { left. apply bool_decide_eq_true in Hv. now split. }
  apply bool_decide_eq_false in Hv. right.
  destruct (db_exists (get_url_hash u) job (db (world st))) eqn:Hex.
  { left. now repeat split. }
  right.
  destruct (fetch_page u (dbg st) false (requests (world st))) as [[res d] r] eqn:Hf.
  destruct res as [f|].
  - destruct (db_insert _ (db (world st))) as [db1|] eqn:Hins.
    + right. repeat split; try assumption. exists f, d, r, db1. now repeat split.
    + left. repeat split; try assumption. exists (Some f), d, r. now repeat split.
  - left. repeat split; try assumption. exists None, d, r. now repeat split.
Qed.

(** X3.  [fetch_page] hands out a page only when the URL passed the SSRF
    check and was requested, the status is below 400 and none of 403, 406,
    429, 503, the content type mentions [text/html], the body is within the
    size limit and the parser succeeded; the page is then the body and its
    parse, one success is counted, and the blocked reason is untouched. *)
Theorem fetch_page_accepts u debug hp reqs f d reqs' :
  fetch_page u debug hp reqs = (Some f, d, reqs') ->
  is_safe_url u = true /\
  reqs' = reqs ++ [u] /\
  (exists r,
      http_get (List.length reqs) u = Responded r /\
      (resp_status r < 400)%Z /\ blocking_status (resp_status r) = false /\
      contains "text/html" (lower (resp_content_type r)) = true /\
      (resp_content_length r <= max_page_size_mb * 1024 * 1024)%nat /\
      parse_page (resp_text r) = inr (f_text f, f_title f, f_meta f) /\
      f_html f = resp_text r /\ f_status f = resp_status r) /\
  pages_success d = S (pages_success debug) /\
  pages_failed d = pages_failed debug /\
  blocked_reason d = blocked_reason debug.
Proof.
  unfold fetch_page, on_other_error, when.
  destruct (is_safe_url u); simpl; [|discriminate].
  destruct (http_get _ _) as [r|m|m|m]; try discriminate.
  destruct (blocking_status (resp_status r)) eqn:Hb; [discriminate|].
  destruct (400 <=? resp_status r)%Z eqn:H4; [discriminate|].
  destruct (contains "text/html" _) eqn:Hc; simpl; [|discriminate].
  destruct (_ <? resp_content_length r)%nat eqn:Hl; [discriminate|].
  destruct (parse_page _) as [m|[[tx ti] me]] eqn:Hp; [discriminate|].
  intros E. inversion E. subst. simpl.
  apply Z.leb_gt in H4. apply Nat.ltb_ge in Hl.
  split; [reflexivity|]. split; [reflexivity|].
  split; [exists r; repeat split; auto|].
  destruct hp; simpl; repeat split; lia.
Qed.

(** A fetch that does not serve the homepage leaves the blocked reason as
    it is. *)
Lemma fetch_page_blocked_reason u debug reqs :
  blocked_reason (snd (fst (fetch_page u debug false reqs))) = blocked_reason debug.
Proof.
  destruct (fetch_page u debug false reqs) as [[res d] r] eqn:E. simpl.
  revert E. unfold fetch_page, on_other_error, when.
  destruct (is_safe_url u); simpl; [|intros E; inversion E; reflexivity].
  destruct (http_get _ _) as [rsp|m|m|m]; simpl;
    repeat match goal with
           | |- context [if ?b then _ else _] => destruct b; simpl
           end;
    try (destruct (parse_page _) as [?|[[? ?] ?]]; simpl);
    intros E; inversion E; subst; reflexivity.
Qed.

(** The reasons a failed homepage fetch is filed under. *)
Definition homepage_reasons : list string :=
  ["403_waf"; "timeout"; "ssl"; "dns"; "connection"; "unknown"].

Lemma fetch_homepage_failure u debug reqs d reqs' :
  fetch_page u debug true reqs = (None, d, reqs') ->
  blocked_reason d = blocked_reason debug
  \/ exists reason, blocked_reason d = Some reason /\ List.In reason homepage_reasons.
Proof.
  unfold fetch_page, on_other_error, when, connect_reason, homepage_reasons.
  destruct (is_safe_url u); simpl; [|intros E; inversion E; now left].
  destruct (http_get _ _) as [rsp|m|m|m]; simpl;
    repeat match goal with
           | |- context [if ?b then _ else _] => destruct b; simpl
           end;
    try (destruct (parse_page _) as [?|[[? ?] ?]]; simpl);
    intros E; inversion E; subst; simpl;
    try (now left); right; eexists; (split; [reflexivity|simpl; tauto]).
Qed.

(** *** How [scrape_domain] starts *)

Definition all_reasons : list string :=
  "robots_disallow" :: "homepage_failed" :: homepage_reasons.

Lemma start_returned domain job target w n p d w' :
  scrape_domain_start domain job target w = Returned n p d w' ->
  n = 0%nat /\ p = [] /\ db w' = db w /\
  (exists reason, blocked_reason d = Some reason /\ List.In reason all_reasons) /\
  counters_ok d /\ pages_success d = 0%nat /\
  (requests w' = requests w ++ [robots_url (normalize_domain domain)]
   \/ (is_safe_url (start_url_of domain) = true /\
       requests w' = requests w ++ [robots_url (normalize_domain domain);
                                    start_url_of domain])).
Proof.
  unfold scrape_domain_start. fold (start_url_of domain). fold (first_debug domain).
  pose proof (check_robots_permissive (normalize_domain domain) (first_debug domain)
                (requests w)) as Hr.
  destruct (check_robots _ _ _) as [[allowed d1] r1].
  destruct Hr as [Hr1 [_ [_ [_ [Hb Hc]]]]]. simpl in Hb, Hc.
  injection Hc as Ha Hs Hf.
  destruct (robots_disallows_all d1).
  { intros E. inversion E. subst n p d w'. simpl. unfold counters_ok. simpl.
    repeat split; try lia.
    - exists "robots_disallow". split; [reflexivity|simpl; tauto].
    - left. exact Hr1. }
  pose proof (fetch_page_counters (start_url_of domain) d1 true r1) as Hcnt.
  pose proof (fetch_page_requests (start_url_of domain) d1 true r1) as Hrq.
  destruct (fetch_page (start_url_of domain) d1 true r1) as [[res d2] r2] eqn:Hfp.
  simpl in Hcnt, Hrq. destruct Hcnt as [Hc1 [Hc2 Hc3]].
  destruct res as [f|].
  { destruct (find_sitemap _ _ r2) as [[urls d3] r3]. discriminate. }
  assert (Hreq : r2 = requests w ++ [robots_url (normalize_domain domain)]
                 \/ (is_safe_url (start_url_of domain) = true /\
                     r2 = requests w ++ [robots_url (normalize_domain domain);
                                         start_url_of domain])).
  { rewrite Hrq, Hr1. destruct (is_safe_url (start_url_of domain)); [right|now left].
    split; [reflexivity|]. now rewrite <- List.app_assoc. }
  assert (Hcounts : forall d', pages_attempted d' = pages_attempted d2 ->
                               pages_success d' = pages_success d2 ->
                               pages_failed d' = pages_failed d2 ->
                               counters_ok d' /\ pages_success d' = 0%nat).
  { intros d' H1 H2 H3. unfold counters_ok. rewrite H1, H2, H3.
    destruct (is_safe_url (start_url_of domain)); lia. }
  destruct (fetch_homepage_failure _ _ _ _ _ Hfp) as [Hsame|[reason [Hreason Hin]]].
  - rewrite Hsame, Hb. intros E. inversion E. subst n p d w'. simpl.
    split; [reflexivity|]. split; [reflexivity|]. split; [reflexivity|].
    split; [exists "homepage_failed"; split; [reflexivity|simpl; tauto]|].
    split; [|split; [|exact Hreq]]; apply (Hcounts (set_blocked "homepage_failed" None d2));
      reflexivity.
  - rewrite Hreason.
    assert (Hne : exists c s, reason = String c s).
    { simpl in Hin. destruct Hin as [<-|[<-|[<-|[<-|[<-|[<-|[]]]]]]]; eauto. }
    destruct Hne as [c [s ->]].
    intros E. inversion E. subst n p d w'. simpl.
    split; [reflexivity|]. split; [reflexivity|]. split; [reflexivity|].
    split; [exists (String c s); split; [assumption|right; right; assumption]|].
    split; [|split; [|exact Hreq]]; apply (Hcounts d2); reflexivity.
Qed.

Lemma start_entered domain job target w st0 :
  scrape_domain_start domain job target w = Entered st0 ->
  visited st0 = {[ start_url_of domain ]} /\
(start_url_of domain ∉ to_visit st0) /\
  pages_scraped st0 = 1%nat /\
  List.length (priority_urls st0) = 1%nat /\
  counters_ok (dbg st0) /\ pages_success (dbg st0) = 1%nat /\
  blocked_reason (dbg st0) = None /\
  is_safe_url (start_url_of domain) = true /\
  exists k, (k <= 3)%nat /\
    requests (world st0)
    = requests w ++ [robots_url (normalize_domain domain); start_url_of domain]
      ++ firstn k (sitemap_candidates (normalize_domain domain)).
Proof.
  unfold scrape_domain_start. fold (start_url_of domain). fold (first_debug domain).
  pose proof (check_robots_permissive (normalize_domain domain) (first_debug domain)
                (requests w)) as Hr.
  destruct (check_robots _ _ _) as [[allowed d1] r1].
  destruct Hr as [Hr1 [_ [_ [_ [Hb Hc]]]]]. simpl in Hb, Hc.
  injection Hc as Ha Hs Hf.
  destruct (robots_disallows_all d1); [discriminate|].
  destruct (fetch_page (start_url_of domain) d1 true r1) as [[res d2] r2] eqn:Hfp.
  destruct res as [f|]; [|discriminate].
  destruct (fetch_page_accepts _ _ _ _ _ _ _ Hfp) as [Hsafe [Hr2 [_ [Hsucc [Hfail Hblk]]]]].
  pose proof (fetch_page_counters (start_url_of domain) d1 true r1) as Hcnt.
  rewrite Hfp in Hcnt. simpl in Hcnt. destruct Hcnt as [Hc1 _]. rewrite Hsafe in Hc1.
  pose proof (find_sitemap_bounds (normalize_domain domain)
                (set_links_extracted
                   (size (extract_links (f_html f) (start_url_of domain))) d2) r2) as Hsm.
  destruct (find_sitemap _ _ r2) as [[urls d3] r3].
  destruct Hsm as [[k [Hk Hr3]] [Hb3 [Hc3 _]]]. simpl in Hb3, Hc3.
  injection Hc3 as Ha3 Hs3 Hf3.
  intros E. inversion E. subst st0. simpl.
  split; [reflexivity|].
  split.
  { destruct urls; rewrite ?elem_of_union, !elem_of_difference, elem_of_singleton; tauto. }
  split; [reflexivity|]. split; [reflexivity|].
  split; [unfold counters_ok; lia|]. split; [lia|]. split; [congruence|].
  split; [assumption|]. exists k. split; [assumption|].
  rewrite Hr3, Hr2, Hr1. now rewrite <- !List.app_assoc.
Qed.

(** *** What a crawl returns *)

Definition counts_inv (max_pages : nat) (st : Loop) : Prop :=
  counters_ok (dbg st) /\
  (1 <= pages_scraped st)%nat /\
  (pages_scraped st <= Nat.max 1 max_pages)%nat /\
  (pages_scraped st <= pages_success (dbg st))%nat /\
  (List.length (priority_urls st) <= pages_scraped st)%nat /\
  blocked_reason (dbg st) = None.

Lemma counts_inv_step job domain target max_pages s u chosen :
  counts_inv max_pages s -> (pages_scraped s < max_pages)%nat ->
  counts_inv max_pages (loop_body job domain target max_pages u chosen s).
Proof.
  intros [Hc [H1 [Hm [Hs [Hp Hb]]]]] Hlt. unfold counts_inv.
  destruct (loop_body_cases job domain target max_pages u chosen s)
    as [[_ ->] | [[_ [_ ->]] | [[_ [_ [res [d [r [Hf [_ ->]]]]]]] |
        [_ [_ [f [d [r [db1 [Hf [_ ->]]]]]]]]]]]; simpl.
  - now repeat split.
  - now repeat split.
  - pose proof (fetch_page_counters_ok u (dbg s) false (requests (world s)) Hc) as Hc'.
    pose proof (fetch_page_counters u (dbg s) false (requests (world s))) as Hn.
    pose proof (fetch_page_blocked_reason u (dbg s) (requests (world s))) as Hb'.
    rewrite Hf in Hc', Hn, Hb'. simpl in Hc', Hn, Hb'. destruct Hn as [_ [Hn _]].
    repeat split; try assumption; try lia. congruence.
  - pose proof (fetch_page_counters_ok u (dbg s) false (requests (world s)) Hc) as Hc'.
    rewrite Hf in Hc'. simpl in Hc'.
    destruct (fetch_page_accepts _ _ _ _ _ _ _ Hf) as [_ [_ [_ [Hsucc [_ Hblk]]]]].
    repeat split; try assumption; try lia; try congruence.
    destruct (identify_page_priority u <=? 2)%nat;
      [rewrite List.length_app; simpl; lia|lia].
Qed.

Lemma counts_inv_reached domain job target max_pages w st0 st :
  scrape_domain_start domain job target w = Entered st0 ->
  rtc (loop_step job (normalize_domain domain) target max_pages) st0 st ->
  counts_inv max_pages st.
Proof.
  intros E Hr.
  apply (loop_invariant (counts_inv max_pages) _ _ _ _ _ _) with (3 := Hr).
  - destruct (start_entered _ _ _ _ _ E) as [_ [_ [Hp [Hl [Hc [Hs [Hb _]]]]]]].
    unfold counts_inv. rewrite Hp, Hl, Hs. repeat split; try assumption; lia.
  - intros s u chosen Hinv _ Hlt _. now apply counts_inv_step.
Qed.

(** X4.  The numbers a crawl returns fit together: the page count is at most
    the budget (at least 1 counts once the homepage was fetched), there are
    no more priority URLs than counted pages, the counted pages are at most
    the successful fetches, and successes and failures together never exceed
    the attempts. *)
Theorem scrape_domain_counts domain job target max_pages w n p d w' :
  scrape_domain domain job target max_pages w (n, p, d) w' ->
  (n <= Nat.max 1 max_pages)%nat /\
  (List.length p <= n)%nat /\
  (n <= pages_success d)%nat /\
  (pages_success d + pages_failed d <= pages_attempted d)%nat.
Proof.
  intros Hrun. inversion Hrun as [n0 p0 d0 w0 E|st0 st E Hr Hdone]; subst.
  - destruct (start_returned _ _ _ _ _ _ _ _ E) as [-> [-> [_ [_ [Hc _]]]]].
    simpl. repeat split; try lia. exact Hc.
  - destruct (counts_inv_reached _ _ _ _ _ _ _ E Hr) as [Hc [_ [Hm [Hs [Hp _]]]]].
    repeat split; assumption.
Qed.

(** X5.  A crawl returns 0 pages exactly when it recorded a blocked reason.
    It then returns no priority URL, has stored nothing, and the reason is
    one of [robots_disallow], [homepage_failed], [403_waf], [timeout], [ssl],
    [dns], [connection], [unknown]; a crawl that got past the homepage never
    sets a blocked reason, whatever fails later. *)
Theorem scrape_domain_blocked_iff_empty domain job target max_pages w n p d w' :
  scrape_domain domain job target max_pages w (n, p, d) w' ->
  (n = 0%nat <-> blocked_reason d <> None) /\
  (n = 0%nat ->
   p = [] /\ db w' = db w /\
   exists reason, blocked_reason d = Some reason /\ List.In reason all_reasons).
Proof.
  intros Hrun. inversion Hrun as [n0 p0 d0 w0 E|st0 st E Hr Hdone]; subst.
  - destruct (start_returned _ _ _ _ _ _ _ _ E)
      as [-> [-> [Hdb [[reason [Hb Hin]] _]]]].
    split.
    + split; [intros _; rewrite Hb; discriminate|reflexivity].
    + intros _. split; [reflexivity|]. split; [assumption|]. now exists reason.
  - destruct (counts_inv_reached _ _ _ _ _ _ _ E Hr) as [_ [H1 [_ [_ [_ Hb]]]]].
    split.
    + split; [lia|]. intros H. now destruct H.
    + lia.
Qed.

(** *** The requests of a crawl *)





(** *** The rows a crawl adds *)

(** A row as [scrape_domain] writes it for job [job], domain [dom] and
    flag [target]. *)
Definition own_row (job dom : string) (target : bool) (page : ScrapedPage) : Prop :=
  audit_job_id page = job /\ domain page = dom /\ is_target page = target /\
  content_type page = "text/html" /\
  word_count page = count_words (text_content page) /\
  (status_code page < 400)%Z.

Definition rows_inv (job dom : string) (target : bool) (t0 : table) (st : Loop) : Prop :=
  exists added,
    db (world st) = t0 ++ added /\
    (List.length added <= pages_scraped st)%nat /\
    List.Forall (own_row job dom target) added.

Lemma make_page_own job u dom target f hash debug hp reqs d r :
  fetch_page u debug hp reqs = (Some f, d, r) ->
  forall u', own_row job dom target (make_page job u' dom target f hash).
Proof.
  intros Hf u'.
  destruct (fetch_page_accepts _ _ _ _ _ _ _ Hf) as [_ [_ [[rsp [_ [Hlt [_ [_ [_ [_ [_ Hs]]]]]]]] _]]].
  unfold own_row. simpl. repeat split. now rewrite Hs.
Qed.

Lemma rows_inv_start dom0 job target w st0 :
  scrape_domain_start dom0 job target w = Entered st0 ->
  rows_inv job (normalize_domain dom0) target (db w) st0.
Proof.
  unfold scrape_domain_start. fold (start_url_of dom0).
  destruct (check_robots _ _ _) as [[allowed d1] r1].
  destruct (robots_disallows_all d1); [discriminate|].
  destruct (fetch_page (start_url_of dom0) d1 true r1) as [[res d2] r2] eqn:Hfp.
  destruct res as [f|]; [|discriminate].
  destruct (find_sitemap _ _ r2) as [[urls d3] r3].
  intros E. inversion E. subst st0. unfold rows_inv. simpl.
  destruct (db_exists _ job (db w)).
  { exists []. rewrite List.app_nil_r. repeat split; [simpl; lia|constructor]. }
  unfold db_insert_or_rollback.
  destruct (db_insert _ (db w)) as [db1|] eqn:Hins.
  - apply db_insert_Some in Hins. destruct Hins as [-> _].
    eexists. split; [reflexivity|]. split; [simpl; lia|].
    constructor; [|constructor]. eapply make_page_own. exact Hfp.
  - exists []. rewrite List.app_nil_r. repeat split; [simpl; lia|constructor].
Qed.

Lemma rows_inv_step job dom target max_pages t0 s u chosen :
  rows_inv job dom target t0 s ->
  rows_inv job dom target t0 (loop_body job dom target max_pages u chosen s).
Proof.
  intros [added [Hdb [Hlen Hown]]].
  destruct (loop_body_cases job dom target max_pages u chosen s)
    as [[_ ->] | [[_ [_ ->]] | [[Hu [_ [res [d [r [Hf [_ ->]]]]]]] |
        [Hu [_ [f [d [r [db1 [Hf [Hins ->]]]]]]]]]]]; simpl.
  - now exists added.
  - now exists added.
  - now exists added.
  - apply db_insert_Some in Hins. destruct Hins as [-> _].
    exists (added ++ [make_page job u dom target f (get_url_hash u)]).
    unfold rows_inv, after_store. simpl. rewrite Hdb, <- List.app_assoc.
    split; [reflexivity|]. split; [rewrite List.length_app; simpl; lia|].
    apply List.Forall_app. split; [assumption|].
    constructor; [|constructor]. eapply make_page_own. exact Hf.
Qed.

(** X7.  A crawl only appends to the page table: the rows it found are
    still there, unchanged and in place, and every row it added belongs to
    the job and domain of the crawl, carries its target flag, the content
    type [text/html], the word count of its text and a status below 400.  It
    adds at most as many rows as it counts pages. *)
Theorem scrape_domain_appends_own_rows dom0 job target max_pages w n p d w' :
  scrape_domain dom0 job target max_pages w (n, p, d) w' ->
  exists added,
    db w' = db w ++ added /\
    (List.length added <= n)%nat /\
    List.Forall (own_row job (normalize_domain dom0) target) added.
Proof.
  intros Hrun. inversion Hrun as [n0 p0 d0 w0 E|st0 st E Hr Hdone]; subst.
  - destruct (start_returned _ _ _ _ _ _ _ _ E) as [_ [_ [Hdb _]]].
    exists []. rewrite List.app_nil_r. repeat split; [assumption|simpl; lia|constructor].
  - apply (loop_invariant (rows_inv job (normalize_domain dom0) target (db w))
             _ _ _ _ _ _) with (3 := Hr).
    + now apply rows_inv_start.
    + intros s u chosen Hs _ _ _. now apply rows_inv_step.
Qed.

(** *** Termination of the loop *)

(** What is left to do: 31 units for every page of the budget still open,
    one for every URL of the frontier. *)
Definition work_left (max_pages : nat) (st : Loop) : nat :=
  31 * (max_pages - pages_scraped st) + size (to_visit st).

Lemma size_pop (s : gset string) (u : string) :
  u ∈ s -> S (size (s ∖ {[ u ]})) = size s.
Proof.
  intros Hu.
  assert (Hs : ({[ u ]} : gset string) ⊆ s) by (intros x Hx; apply elem_of_singleton in Hx; now subst).
  rewrite (size_difference s {[ u ]} Hs), size_singleton.
  assert (size s <> 0%nat).
  { intros H0. apply size_empty_inv in H0. apply (H0 u) in Hu. now apply not_elem_of_empty in Hu. }
  lia.
Qed.

Lemma size_extend (s c v : gset string) :
  (size c <= 30)%nat -> (size (s ∪ (c ∖ v)) <= size s + 30)%nat.
Proof.
  intros Hc. rewrite size_union_alt.
  assert (size ((c ∖ v) ∖ s) <= size c)%nat.
  { apply subseteq_size. intros x Hx. apply elem_of_difference in Hx. destruct Hx as [Hx _].
    apply elem_of_difference in Hx. tauto. }
  lia.
Qed.

(** X8.  Every iteration of the loop uses up work: a stored page closes one
    page of the budget and adds at most 30 links to the frontier, every other
    iteration removes the popped URL.  So the loop ends: a run of [k]
    iterations has [k] at most 31 for every open page of the budget plus the
    size of the frontier it started from. *)
Theorem loop_terminates job dom target max_pages st0 st k :
  nsteps (loop_step job dom target max_pages) k st0 st ->
  (k + work_left max_pages st <= work_left max_pages st0)%nat.
Proof.
  induction 1 as [|k x y z Hxy _ IH]; [lia|].
  assert (Hdec : (S (work_left max_pages y) <= work_left max_pages x)%nat); [|lia].
  clear IH. destruct Hxy as [u [chosen [Hin [Hlt [Hsel ->]]]]].
  pose proof (size_pop _ _ Hin) as Hpop. unfold work_left.
  destruct (loop_body_cases job dom target max_pages u chosen x)
    as [[_ ->] | [[_ [_ ->]] | [[Hu [_ [res [d [r [Hf [_ ->]]]]]]] |
        [Hu [_ [f [d [r [db1 [Hf [Hins ->]]]]]]]]]]]; simpl; try lia.
  destruct (Hsel f d r Hf) as [_ [Hsize _]].
  assert (Hc : (size chosen <= 30)%nat) by lia.
  destruct (target && (S (pages_scraped x) <? max_pages)%nat).
  - pose proof (size_extend (to_visit x ∖ {[ u ]}) chosen (visited x ∪ {[ u ]}) Hc). lia.
  - lia.
Qed.

End Scraper.

(** *** Concrete crawls

    Stand-ins for the libraries, enough for URLs of the form
    [scheme://host/path] without port, query or fragment, on which they agree
    with [urllib.parse]; the hash is the identity (injective, as SHA-256 is
    taken to be). *)

Definition simple_urlparse (u : string) : option ParseResult :=
  match Py.find "://" u with
  | Some i =>
      let rest := drop (i + 3) u in
      let host := match Py.find "/" rest with
                  | Some j => take j rest
                  | None => rest
                  end in
      Some {| scheme := lower (take i u); netloc := host;
              path := drop (String.length host) rest;
              params := EmptyString; query := EmptyString; fragment := EmptyString;
              hostname := if nonempty host then Some (lower host) else None |}
  | None =>
      Some {| scheme := EmptyString; netloc := EmptyString; path := u;
              params := EmptyString; query := EmptyString; fragment := EmptyString;
              hostname := None |}
  end.

Definition simple_urlunparse (sch net pth prm qry frg : string) : string :=
  sch ++ "://" ++ net ++ pth.

Definition simple_urljoin (base href : string) : string :=
  if contains "://" href then href
  else match simple_urlparse base with
       | Some p => simple_urlunparse (scheme p) (netloc p) href EmptyString EmptyString EmptyString
       | None => href
       end.

Definition respond (code : Z) (u ctype text : string) : HttpOutcome :=
  Responded {| resp_status := code; resp_url := u; resp_content_type := ctype;
               resp_content_length := String.length text; resp_text := text |}.

(** A site whose pages answer by [home] and everything else by 404. *)
Definition site (home robots : string -> HttpOutcome) (k : nat) (u : string) : HttpOutcome :=
  if String.eqb u "https://example.com" then home u
  else if String.eqb u "https://example.com/robots.txt" then robots u
  else respond 404 u "text/html" EmptyString.

Definition no_robots (u : string) : HttpOutcome := respond 404 u "text/html" EmptyString.
Definition forbidden (u : string) : HttpOutcome := respond 403 u "text/html" "Forbidden".
Definition plain_home (u : string) : HttpOutcome :=
  respond 200 u "text/html; charset=utf-8" "<html><body>Welcome</body></html>".

(** The crawl of [example.com] with the stand-ins, on the network [net]. *)
Definition crawl_start (net : nat -> string -> HttpOutcome) (job : string) (w : World) : Start :=
  scrape_domain_start net simple_urlparse simple_urlunparse simple_urljoin
    (fun _ => false) (fun x => x) (fun html => inr (html, EmptyString, EmptyString))
    (fun _ => []) (fun _ => inr []) 5 "example.com" job true w.

Definition empty_world : World := {| db := []; requests := [] |}.

(** C2, as stated, fails: the homepage answers 403, the crawl returns 0 pages,
    and the blocked reason is ["403_waf"], not ["firewall"]. *)
Lemma homepage_403_reason_is_403_waf :
  exists debug w',
    crawl_start (site forbidden no_robots) "job-1" empty_world = Returned 0 [] debug w' /\
    homepage_status_code debug = Some 403%Z /\
    blocked_reason debug = Some "403_waf" /\
    blocked_reason debug <> Some "firewall".
Proof.
  eexists. eexists. split; [vm_compute; reflexivity|].
  split; [reflexivity|]. split; [reflexivity|]. discriminate.
Qed.

Lemma homepage_403_blocks_crawl_witness :
  exists debug,
    crawl_start (site forbidden no_robots) "job-1" empty_world
      = Returned 0 [] debug
          {| db := [];
             requests := ["https://example.com/robots.txt"; "https://example.com"] |} /\
    blocked_reason debug = Some "403_waf".
Proof.
  destruct (homepage_403_blocks_crawl (site forbidden no_robots) simple_urlparse
              simple_urlunparse simple_urljoin (fun _ => false) (fun x => x)
              (fun html => inr (html, EmptyString, EmptyString))
              (fun _ => []) (fun _ => inr []) 5 "example.com" "job-1" true 60 empty_world
              {| resp_status := 403; resp_url := "https://example.com";
                 resp_content_type := "text/html"; resp_content_length := 9;
                 resp_text := "Forbidden" |})
    as [debug [H1 [H2 _]]]; try reflexivity.
  exists debug. split; [exact H1|exact H2].
Defined.

(** The crawl-policy file of the counterexample to C5: the group of the
    wildcard agent opens with four comment lines. *)
Definition commented_robots : string :=
  join (String newline EmptyString)
    ["User-agent: *"; "# staging host"; "# keep every crawler out";
     "# until launch"; "# (ticket 42)"; "Disallow: /"].

(** The claim's reading of a crawl-policy file, in the spec's words: the file
    has a [User-agent: *] group (its lines up to the next [User-agent] line)
    with the rule [Disallow: /]. *)
Fixpoint spec_group_disallows_all (lines : list string) : bool :=
  match lines with
  | [] => false
  | line :: rest =>
      if startswith "user-agent:" (strip (lower line)) then false
      else String.eqb (strip (lower line)) "disallow: /" || spec_group_disallows_all rest
  end.

Fixpoint spec_wildcard_disallows_all (lines : list string) : bool :=
  match lines with
  | [] => false
  | line :: rest =>
      (String.eqb (strip (lower line)) "user-agent: *" && spec_group_disallows_all rest)
      || spec_wildcard_disallows_all rest
  end.

Definition robots_200 (text : string) (u : string) : HttpOutcome :=
  respond 200 u "text/plain" text.

(** C5, as stated, fails: the file disallows everything for the wildcard
    agent, yet the check lets the crawl go on; the homepage is fetched and
    counted and no blocked reason is recorded. *)
Lemma commented_robots_does_not_halt :
  spec_wildcard_disallows_all (split_char newline commented_robots) = true /\
  exists st0,
    crawl_start (site plain_home (robots_200 commented_robots)) "job-1" empty_world
      = Entered st0 /\
    pages_scraped st0 = 1%nat /\
    blocked_reason (dbg st0) = None /\
    List.In "https://example.com" (requests (world st0)) /\
    List.length (db (world st0)) = 1%nat.
Proof.
  split; [vm_compute; reflexivity|].
  eexists. split; [vm_compute; reflexivity|].
  repeat split; try reflexivity. simpl. tauto.
Qed.

Definition blanket_robots : string :=
  join (String newline EmptyString) ["User-agent: *"; "Disallow: /"].

Lemma robots_disallow_halts_crawl_witness :
  exists debug,
    crawl_start (site plain_home (robots_200 blanket_robots)) "job-1" empty_world
      = Returned 0 [] debug
          {| db := []; requests := ["https://example.com/robots.txt"] |} /\
    blocked_reason debug = Some "robots_disallow".
Proof.
  destruct (robots_disallow_halts_crawl
              (site plain_home (robots_200 blanket_robots)) simple_urlparse
              simple_urlunparse simple_urljoin (fun _ => false) (fun x => x)
              (fun html => inr (html, EmptyString, EmptyString))
              (fun _ => []) (fun _ => inr []) 5 "example.com" "job-1" true 60 empty_world
              {| resp_status := 200; resp_url := "https://example.com/robots.txt";
                 resp_content_type := "text/plain"; resp_content_length := 25;
                 resp_text := blanket_robots |})
    as [debug [H1 [H2 _]]]; try reflexivity.
  exists debug. split; [exact H1|exact H2].
Defined.

(** Two jobs crawl the same site, one after the other. *)
Definition crawl_run (net : nat -> string -> HttpOutcome) (job : string) (w : World)
  : nat * list string * ScrapeDebug -> World -> Prop :=
  scrape_domain net simple_urlparse simple_urlunparse simple_urljoin
    (fun _ => false) (fun x => x) (fun html => inr (html, EmptyString, EmptyString))
    (fun _ => []) (fun _ => inr []) 5 "example.com" job true 60 w.

Definition world_after_job_1 : World :=
  match crawl_start (site plain_home no_robots) "job-1" empty_world with
  | Entered st => world st
  | Returned _ _ _ w => w
  end.

(** The second job's crawl of the site returns [pages_scraped = 1] while
    the table holds no page of that job: the homepage's key is taken by the
    row of the first job. *)
Lemma url_hash_unique_across_jobs_witness :
  unique_hashes (db world_after_job_1) /\
  List.map audit_job_id (db world_after_job_1) = ["job-1"] /\
  exists st0,
    crawl_start (site plain_home no_robots) "job-2" world_after_job_1 = Entered st0 /\
    crawl_run (site plain_home no_robots) "job-2" world_after_job_1
      (1%nat, ["https://example.com"], dbg st0) (world st0) /\
    pages_scraped st0 = 1%nat /\
    db (world st0) = db world_after_job_1 /\
    pages_of_job "job-2" (db (world st0)) = [].
Proof.
  assert (H : unique_hashes (db world_after_job_1)).
  { vm_compute. constructor; [intros []|constructor]. }
  split; [exact H|]. split; [reflexivity|].
  destruct (crawl_start (site plain_home no_robots) "job-2" world_after_job_1)
    as [n p d w'|st0] eqn:E; [vm_compute in E; discriminate|].
  exists st0.
  destruct (proj2 (proj2 (url_hash_unique_across_jobs (site plain_home no_robots)
                     simple_urlparse simple_urlunparse simple_urljoin (fun _ => false)
                     (fun x => x) (fun html => inr (html, EmptyString, EmptyString))
                     (fun _ => []) (fun _ => inr []) 5 "example.com" "job-2" true 60
                     world_after_job_1 H)) st0 E) as [Hp Hdb].
  { eexists. split; [left; reflexivity|]. vm_compute. reflexivity. }
  assert (H2 : priority_urls st0 = ["https://example.com"])
    by (clear -E; vm_compute in E; inversion E; reflexivity).
  assert (H3 : to_visit st0 = ∅)
    by (clear -E; vm_compute in E; inversion E; reflexivity).
  split; [reflexivity|]. split.
  - pose proof (scrape_looped _ _ _ _ _ _ _ _ _ _ _ _ _ 60 _ _ _ E
                  (rtc_refl _ _) (or_introl H3)) as Hrun.
    rewrite Hp, H2 in Hrun. exact Hrun.
  - split; [exact Hp|]. split; [exact Hdb|]. rewrite Hdb. reflexivity.
Defined.

(** A crawl that enters the loop: the homepage links to [/about], which is
    fetched and stored in the one iteration of the loop. *)
Definition linking_home (u : string) : HttpOutcome :=
  respond 200 u "text/html" "<a href=/about>About</a>".

Definition two_page_site (k : nat) (u : string) : HttpOutcome :=
  if String.eqb u "https://example.com" then linking_home u
  else if String.eqb u "https://example.com/about" then plain_home u
  else respond 404 u "text/html" EmptyString.

Definition hrefs_of (html : string) : list string :=
  if String.eqb html "<a href=/about>About</a>" then ["/about"] else [].

Lemma two_page_crawl :
  exists debug w',
    scrape_domain two_page_site simple_urlparse simple_urlunparse simple_urljoin
      (fun _ => false) (fun x => x) (fun html => inr (html, EmptyString, EmptyString))
      hrefs_of (fun _ => inr []) 5 "https://example.com/" "job-1" true 60 empty_world
      (2%nat, ["https://example.com"; "https://example.com/about"], debug) w' /\
    List.map url_hash (db w') = ["https://example.com/"; "https://example.com/about"] /\
    pages_attempted debug = 2%nat /\ pages_success debug = 2%nat.
Proof.
  destruct (scrape_domain_start two_page_site simple_urlparse simple_urlunparse
              simple_urljoin (fun _ => false) (fun x => x)
              (fun html => inr (html, EmptyString, EmptyString))
              hrefs_of (fun _ => inr []) 5 "https://example.com/" "job-1" true empty_world)
    as [n p d w1|st0] eqn:E; [vm_compute in E; discriminate|].
  assert (Hto : to_visit st0 = {[ "https://example.com/about" ]})
    by (clear -E; vm_compute in E; inversion E; reflexivity).
  assert (Hsc : pages_scraped st0 = 1%nat)
    by (clear -E; vm_compute in E; inversion E; reflexivity).
  set (st1 := loop_body two_page_site simple_urlparse simple_urlunparse (fun _ => false)
                (fun x => x) (fun html => inr (html, EmptyString, EmptyString)) 5
                "job-1" "example.com" true 60 "https://example.com/about" ∅ st0).
  assert (Hstep : loop_step two_page_site simple_urlparse simple_urlunparse simple_urljoin
                    (fun _ => false) (fun x => x)
                    (fun html => inr (html, EmptyString, EmptyString))
                    hrefs_of 5 "job-1" "example.com" true 60 st0 st1).
  { exists "https://example.com/about", ∅.
    split; [rewrite Hto; set_solver|]. split; [rewrite Hsc; lia|].
    split; [|reflexivity].
    intros f d r Hf.
    assert (Hl : extract_links simple_urlparse simple_urlunparse simple_urljoin hrefs_of
                   (f_html f) "https://example.com/about" = ∅).
    { clear -E Hf. vm_compute in E. inversion E. subst st0. vm_compute in Hf.
      inversion Hf. vm_compute. reflexivity. }
    rewrite Hl. split; [set_solver|]. split; [reflexivity|].
    intros a b Ha. set_solver. }
  assert (Hres : (pages_scraped st1, priority_urls st1, to_visit st1,
                  List.map url_hash (db (world st1)),
                  pages_attempted (dbg st1), pages_success (dbg st1))
                 = (2%nat, ["https://example.com"; "https://example.com/about"], ∅,
                    ["https://example.com/"; "https://example.com/about"], 2%nat, 2%nat)).
  { unfold st1. clear -E. vm_compute in E. inversion E. vm_compute. reflexivity. }
  injection Hres as H1 H2 H3 H4 H5 H6.
  exists (dbg st1), (world st1).
  split; [|split; [exact H4|split; [exact H5|exact H6]]].
  pose proof (scrape_looped two_page_site simple_urlparse simple_urlunparse simple_urljoin
                (fun _ => false) (fun x => x)
                (fun html => inr (html, EmptyString, EmptyString))
                hrefs_of (fun _ => inr []) 5 "https://example.com/" "job-1" true 60
                empty_world st0 st1 E) as Hrun.
  rewrite H1, H2 in Hrun. apply Hrun.
  - eapply rtc_l; [|apply rtc_refl]. exact Hstep.
  - left. exact H3.
Qed.

(** *** The further properties on the concrete crawls *)

Lemma forbidden_crawl :
  exists debug w',
    crawl_run (site forbidden no_robots) "job-1" empty_world (0%nat, [], debug) w'.
Proof.
  destruct (crawl_start (site forbidden no_robots) "job-1" empty_world)
    as [n p d w1|st0] eqn:E; [|vm_compute in E; discriminate].
  assert (Hn : (n, p) = (0%nat, [])) by (clear -E; vm_compute in E; inversion E; reflexivity).
  injection Hn as -> ->. exists d, w1. apply scrape_early. exact E.
Qed.

Lemma two_page_step :
  exists st0 st1,
    loop_step two_page_site simple_urlparse simple_urlunparse simple_urljoin
      (fun _ => false) (fun x => x) (fun html => inr (html, EmptyString, EmptyString))
      hrefs_of 5 "job-1" "example.com" true 60 st0 st1 /\
    size (to_visit st0) = 1%nat /\ pages_scraped st0 = 1%nat /\
    size (to_visit st1) = 0%nat /\ pages_scraped st1 = 2%nat.
Proof.
  destruct (scrape_domain_start two_page_site simple_urlparse simple_urlunparse
              simple_urljoin (fun _ => false) (fun x => x)
              (fun html => inr (html, EmptyString, EmptyString))
              hrefs_of (fun _ => inr []) 5 "https://example.com/" "job-1" true empty_world)
    as [n p d w1|st0] eqn:E; [vm_compute in E; discriminate|].
  assert (Hto : to_visit st0 = {[ "https://example.com/about" ]})
    by (clear -E; vm_compute in E; inversion E; reflexivity).
  assert (Hsc : pages_scraped st0 = 1%nat)
    by (clear -E; vm_compute in E; inversion E; reflexivity).
  set (st1 := loop_body two_page_site simple_urlparse simple_urlunparse (fun _ => false)
                (fun x => x) (fun html => inr (html, EmptyString, EmptyString)) 5
                "job-1" "example.com" true 60 "https://example.com/about" ∅ st0).
  exists st0, st1. split.
  { exists "https://example.com/about", ∅.
    split; [rewrite Hto; now apply elem_of_singleton|]. split; [rewrite Hsc; lia|].
    split; [|reflexivity].
    intros f d r Hf.
    assert (Hl : extract_links simple_urlparse simple_urlunparse simple_urljoin hrefs_of
                   (f_html f) "https://example.com/about" = ∅).
    { clear -E Hf. vm_compute in E. inversion E. subst st0. vm_compute in Hf.
      inversion Hf. vm_compute. reflexivity. }
    rewrite Hl. split; [intros x Hx; exact Hx|]. split; [reflexivity|].
    intros a b Ha. now apply not_elem_of_empty in Ha. }
  assert (Hres : (size (to_visit st1), pages_scraped st1) = (0%nat, 2%nat)).
  { unfold st1. clear -E. vm_compute in E. inversion E. vm_compute. reflexivity. }
  injection Hres as H1 H2.
  split; [rewrite Hto; apply size_singleton|]. split; [exact Hsc|]. split; assumption.
Qed.







Lemma fetch_page_accepts_witness :
  is_safe_url simple_urlparse (fun _ => false) "https://example.com/about" = true.
Proof.
  destruct (fetch_page two_page_site simple_urlparse (fun _ => false)
              (fun html => inr (html, EmptyString, EmptyString)) 5
              "https://example.com/about" (new_debug "example.com") false [])
    as [[[f|] d] r] eqn:E; [|vm_compute in E; discriminate].
  exact (proj1 (fetch_page_accepts two_page_site simple_urlparse (fun _ => false)
                  (fun html => inr (html, EmptyString, EmptyString)) 5
                  "https://example.com/about" (new_debug "example.com") false [] f d r E)).
Defined.

Lemma scrape_domain_counts_witness :
  exists debug,
    (2 <= Nat.max 1 60)%nat /\
    (List.length ["https://example.com"; "https://example.com/about"] <= 2)%nat /\
    (2 <= pages_success debug)%nat /\
    (pages_success debug + pages_failed debug <= pages_attempted debug)%nat.
Proof.
  destruct two_page_crawl as [debug [w' [Hrun _]]]. exists debug.
  eapply scrape_domain_counts. exact Hrun.
Defined.

Lemma scrape_domain_blocked_iff_empty_witness :
  exists debug, (0%nat = 0%nat <-> blocked_reason debug <> None).
Proof.
  destruct forbidden_crawl as [debug [w' Hrun]]. exists debug.
  unfold crawl_run in Hrun.
  exact (proj1 (scrape_domain_blocked_iff_empty _ _ _ _ _ _ _ _ _ _ _ _ _ _ _ _ _ _ _ Hrun)).
Defined.


Lemma scrape_domain_appends_own_rows_witness :
  exists w' added, db w' = [] ++ added /\ (List.length added <= 2)%nat.
Proof.
  destruct two_page_crawl as [debug [w' [Hrun _]]]. exists w'.
  destruct (scrape_domain_appends_own_rows _ _ _ _ _ _ _ _ _ _ _ _ _ _ _ _ _ _ _ Hrun)
    as [added [H1 [H2 _]]].
  exists added. split; [exact H1|exact H2].
Defined.

Lemma loop_terminates_witness :
  exists st0 st1, (1 + work_left 60 st1 <= work_left 60 st0)%nat.
Proof.
  destruct two_page_step as [st0 [st1 [Hstep _]]]. exists st0, st1.
  apply nsteps_once in Hstep.
  apply loop_terminates in Hstep; [exact Hstep|exact (fun _ => inr [])].

Defined.

End Crawl.

(** ** The evidence layer ([evidence_extractor.py]) *)

Module Evidence.

Import Crawl.

(** *** Text helpers *)

(** [_WS_RE.sub(" ", s)]: every run of whitespace becomes one space. *)
Fixpoint squeeze_ws (in_ws : bool) (s : string) : string :=
  match s with
  | EmptyString => EmptyString
  | String c r =>
      if is_space c
      then if in_ws then squeeze_ws true r else String " "%char (squeeze_ws true r)
      else String c (squeeze_ws false r)
  end.

Definition _norm_ws (s : string) : string := squeeze_ws false (strip s).

(** The loop of [_dedupe_keep_order]; [seen] holds the lower-cased keys. *)
Fixpoint dedupe_loop (seen : gset string) (items : list string) : list string :=
  match items with
  | [] => []
  | x :: r =>
      let t := _norm_ws x in
      if negb (nonempty t) then dedupe_loop seen r
      else
        let k := lower t in
        if bool_decide (k ∈ seen) then dedupe_loop seen r
        else t :: dedupe_loop (seen ∪ {[ k ]}) r
  end.

Definition _dedupe_keep_order (items : list string) : list string := dedupe_loop ∅ items.

(** The one-character string "…" (U+2026), in UTF-8. *)
Definition ellipsis : string :=
  String (ascii_of_nat 226) (String (ascii_of_nat 128) (String (ascii_of_nat 166) EmptyString)).

Definition _truncate (s : string) (max_len : nat) : string :=
  let t := _norm_ws s in
  if (String.length t <=? max_len)%nat then t
  else rstrip (take (max_len - 1) t) ++ ellipsis.

(** [t[start:end]] *)
Definition slice (start stop : nat) (t : string) : string :=
  take (stop - start) (drop start t).

(** The loop of [_snippets_around] over the needles, with the snippets
    still wanted. *)
Fixpoint snippets_loop (t lt : string) (window wanted : nat) (needles : list string)
  : list string :=
  match wanted, needles with
  | O, _ => []
  | _, [] => []
  | S k, needle :: rest =>
      match Py.find (lower needle) lt with
      | None => snippets_loop t lt window wanted rest
      | Some idx =>
          let start := (idx - window)%nat in
          let stop := Nat.min (String.length t) (idx + String.length needle + window) in
          _truncate (slice start stop t) 260 :: snippets_loop t lt window k rest
      end
  end.

Definition _snippets_around (text : string) (needles : list string) (max_snips : nat)
  : list string :=
  if negb (nonempty text) then []
  else _dedupe_keep_order
         (snippets_loop text (lower text) 140 (Nat.max 1 max_snips) needles).

(** [sorted(l, key=...)] as a stable insertion sort: [before a b] says that
    [a]'s key is strictly smaller than [b]'s. *)
Fixpoint insert_sorted {A} (before : A -> A -> bool) (x : A) (l : list A) : list A :=
  match l with
  | [] => [x]
  | y :: r => if before x y then x :: y :: r else y :: insert_sorted before x r
  end.

Definition sorted_by {A} (before : A -> A -> bool) (l : list A) : list A :=
  fold_left (fun acc x => insert_sorted before x acc) l [].

(** [re.split(r"(?<=[.!?])\s+", t)] on a whitespace-normalised [t]: the
    text is cut at each space that follows a full stop, an exclamation mark
    or a question mark. *)
Definition ends_sentence (c : ascii) : bool :=
  Ascii.eqb c "."%char || Ascii.eqb c "!"%char || Ascii.eqb c "?"%char.

Fixpoint split_sentences (t : string) : list string :=
  match t with
  | EmptyString => [EmptyString]
  | String c r =>
      match r with
      | String sp r' =>
          if ends_sentence c && is_space sp
          then String c EmptyString :: split_sentences r'
          else match split_sentences r with
               | [] => [String c EmptyString]
               | w :: ws => String c w :: ws
               end
      | EmptyString => [String c EmptyString]
      end
  end.

Definition bad_terms : list string :=
  ["cookie"; "privacy"; "terms"; "subscribe"; "newsletter"; "copyright"].
Definition prefer_terms : list string :=
  ["we "; "our "; "provid"; "offer"; "help"; "build"; "deliver"; "service";
   "solution"; "product"].

Definition in_range (lo hi n : nat) : bool := (lo <=? n)%nat && (n <=? hi)%nat.

Definition score_chunk (c : string) : nat :=
  (if existsb (fun p => contains p (lower c)) prefer_terms then 3 else 0)
  + (if in_range 80 180 (String.length c) then 2 else 0).

(** The key [(-score, len(chunk))]. *)
Definition better (a b : nat * string) : bool :=
  (fst b <? fst a)%nat
  || ((fst a =? fst b)%nat && (String.length (snd a) <? String.length (snd b))%nat).

Fixpoint second_sentence (top : string) (scored : list (nat * string)) : list string :=
  match scored with
  | [] => []
  | (_, c) :: r =>
      if negb (String.eqb c top)
         && (String.length (join " " [top; c]) <=? 360)%nat
      then [c] else second_sentence top r
  end.

Definition _best_offer_sentences (text : string) : option string :=
  let t := _norm_ws text in
  if negb (nonempty t) then None
  else
    let chunks := List.filter (fun c => in_range 40 260 (String.length c))
                    (List.map strip (split_sentences t)) in
    let scored :=
      List.map (fun c => (score_chunk c, c))
        (List.filter (fun c => negb (existsb (fun b => contains b (lower c)) bad_terms))
           (firstn 80 chunks)) in
    match sorted_by better scored with
    | [] => None
    | (_, top) :: rest => Some (_truncate (join " " (top :: second_sentence top rest)) 360)
    end.

(** *** What BeautifulSoup finds in a page *)

Record Soup := {
  html_lang : option string;         (* soup.find("html").get("lang") *)
  ld_json : list (option json);      (* json.loads of each ld+json script; None
                                        when the script is empty or loads raises *)
  h1_text : option string;           (* soup.find("h1").get_text(" ", strip=True) *)
  h2_h3_texts : list string;         (* the same for the h2 and h3 tags *)
  action_texts : list string;        (* get_text of the a and button tags *)
  anchors : list (string * bool)     (* a.get("href") of the a[href] tags, and
                                        whether the tag sits in a nav or header *)
}.

(** [BeautifulSoup("", "lxml")] *)
Definition empty_soup : Soup :=
  {| html_lang := None; ld_json := []; h1_text := None; h2_h3_texts := [];
     action_texts := []; anchors := [] |}.

Definition strings_of (l : list json) : list string :=
  flat_map (fun x => match x with JStr t => [t] | _ => [] end) l.

Definition _extract_jsonld (soup : Soup) : list dict :=
  firstn 30
    (flat_map (fun payload =>
                 match payload with
                 | Some (JObj d) => [d]
                 | Some (JArr l) =>
                     flat_map (fun x => match x with JObj d => [d] | _ => [] end) l
                 | _ => []
                 end) (ld_json soup)).

(** [obj.get("@type")] read as a list of strings *)
Definition types_of (obj : dict) : list string :=
  match dget "@type" obj with
  | Some (JStr t) => [t]
  | Some (JArr l) => strings_of l
  | _ => []
  end.

Definition _jsonld_types (jsonlds : list dict) : list string :=
  firstn 20 (_dedupe_keep_order (flat_map types_of jsonlds)).

Definition is_org_type (t : string) : bool :=
  str_in (lower t) ["organization"; "localbusiness"].

Fixpoint _find_org_name (jsonlds : list dict) : option string :=
  match jsonlds with
  | [] => None
  | obj :: rest =>
      if existsb is_org_type (types_of obj)
      then match dget "name" obj with
           | Some (JStr name) =>
               if nonempty (_norm_ws name) then Some (_norm_ws name)
               else _find_org_name rest
           | _ => _find_org_name rest
           end
      else _find_org_name rest
  end.

Definition address_keys : list string :=
  ["streetAddress"; "addressLocality"; "addressRegion"; "postalCode"; "addressCountry"].

Definition _find_locations_from_jsonld (jsonlds : list dict) : list string :=
  firstn 10
    (_dedupe_keep_order
       (flat_map (fun obj =>
                    match dget "address" obj with
                    | Some (JObj addr) =>
                        let parts :=
                          flat_map (fun k => match dget k addr with
                                             | Some (JStr v) =>
                                                 if nonempty (_norm_ws v) then [_norm_ws v] else []
                                             | _ => []
                                             end) address_keys in
                        if nonnil parts then [join ", " parts] else []
                    | _ => []
                    end) jsonlds)).

Definition _extract_headings (soup : Soup) : string * list string :=
  (match h1_text soup with Some t => _norm_ws t | None => EmptyString end,
   firstn 20 (_dedupe_keep_order
                (List.filter nonempty (List.map _norm_ws (h2_h3_texts soup))))).

Definition _extract_language (soup : Soup) : option string :=
  match html_lang soup with
  | Some (String c r) => Some (strip (String c r))
  | _ => None
  end.

Definition cta_words : list string :=
  ["contact"; "book"; "schedule"; "request"; "get a quote"; "get quote"; "quote";
   "demo"; "call"; "buy"; "pricing"; "plans"; "start"; "sign up"; "signup"; "trial"].

Definition _extract_ctas (soup : Soup) : list string :=
  firstn 10
    (_dedupe_keep_order
       (flat_map (fun txt =>
                    if negb (nonempty txt) then []
                    else let t := _norm_ws txt in
                         if in_range 2 64 (String.length t)
                            && existsb (fun w => contains w (lower t)) cta_words
                         then [t] else [])
                 (action_texts soup))).

(** [counts[k] = counts.get(k, 0) + 1] on an insertion-ordered dict *)
Fixpoint count_up (k : string) (counts : list (string * nat)) : list (string * nat) :=
  match counts with
  | [] => [(k, 1%nat)]
  | (k', n) :: r => if String.eqb k k' then (k', S n) :: r else (k', n) :: count_up k r
  end.

(** The key [(-count, url)] of the rankings. *)
Definition more_linked (a b : string * nat) : bool :=
  (snd b <? snd a)%nat || ((snd a =? snd b)%nat && String.ltb (fst a) (fst b)).

Section Extractor.

(** [BeautifulSoup(html, "lxml")] with the queries above, [urllib.parse],
    and [findall] of the e-mail and telephone patterns. *)
Variable soup_of : string -> Soup.
Variable urlparse : string -> option ParseResult.
Variable urlunparse : string -> string -> string -> string -> string -> string -> string.
Variable urljoin : string -> string -> string.
Variable find_emails : string -> list string.
Variable find_phones : string -> list string.

(** [_domain_of]: the [except] branch answers [""]. *)
Definition _domain_of (u : string) : string :=
  match urlparse u with
  | Some p => lower (netloc p)
  | None => EmptyString
  end.

Definition _is_same_domain (u domain : string) : bool :=
  String.eqb (_domain_of u) (lower domain).

(** [urlparse(u)._replace(fragment="").geturl()] *)
Definition without_fragment (u : string) : string :=
  let p := parsed urlparse u in
  urlunparse (scheme p) (netloc p) (path p) (params p) (query p) EmptyString.

(** [urlparse(u).path.rstrip("/") in {"", "/"}] *)
Definition is_home_url (u : string) : bool :=
  str_in (rstrip_char "/"%char (path (parsed urlparse u))) [EmptyString; "/"].

Definition skipped_href (href : string) : bool :=
  negb (nonempty href)
  || existsb (fun p => startswith p href) ["mailto:"; "tel:"; "javascript:"; "#"].

(** The loop of [_extract_internal_links] over the anchors. *)
Fixpoint count_links (base_url domain : string) (l : list (string * bool))
    (counts nav_counts : list (string * nat))
  : list (string * nat) * list (string * nat) :=
  match l with
  | [] => (counts, nav_counts)
  | (href, is_nav) :: rest =>
      if skipped_href href then count_links base_url domain rest counts nav_counts
      else
        let abs_url := urljoin base_url href in
        if negb (_is_same_domain abs_url domain)
        then count_links base_url domain rest counts nav_counts
        else
          let abs2 := without_fragment abs_url in
          count_links base_url domain rest (count_up abs2 counts)
            (if is_nav then count_up abs2 nav_counts else nav_counts)
  end.

Definition _extract_internal_links (soup : Soup) (base_url domain : string)
  : list (string * nat) * list string :=
  let '(counts, nav_counts) := count_links base_url domain (anchors soup) [] [] in
  (counts, List.map fst (firstn 15 (sorted_by more_linked nav_counts))).

(** *** [EvidenceExtractor.extract_page] *)

Record Signals := {
  pricing_detected : bool;
  pricing_snippets : list string;
  contact_detected : bool;
  contact_snippets : list string;
  emails_detected : list string;
  phones_detected : list string;
  sig_locations_detected : list string
}.

(** The dict [extract_page] returns. *)
Record PageBlock := {
  pb_url : string;
  pb_title : string;
  pb_meta_description : string;
  text_excerpt : string;
  language : string;
  h1 : string;
  headings : list string;
  cta_detected : list string;
  structured_data_types : list string;
  jsonld : list dict;
  internal_links_top : list string;
  signals : Signals;
  internal_links_unique : nat
}.

Definition euro : string :=
  String (ascii_of_nat 226) (String (ascii_of_nat 130) (String (ascii_of_nat 172) EmptyString)).
Definition pound : string :=
  String (ascii_of_nat 194) (String (ascii_of_nat 163) EmptyString).

Definition pricing_needles : list string :=
  ["pricing"; "price"; "plans"; "packages"; "starting at"; "$"; euro; pound; "usd"; "eur"].
Definition contact_needles : list string := ["contact"; "call"; "email"; "phone"; "address"].

Definition extract_page (page : ScrapedPage) : PageBlock :=
  let html := html_content page in
  let soup := if nonempty html then soup_of html else empty_soup in
  let lang := _extract_language soup in
  let jsonlds := _extract_jsonld soup in
  let jsonld_types := _jsonld_types jsonlds in
  let '(h1, headings) := _extract_headings soup in
  let ctas := if nonempty html then _extract_ctas soup else [] in
  let '(internal_counts, nav_top) :=
    if nonempty html then _extract_internal_links soup (url page) (domain page)
    else ([], []) in
  let text := text_content page in
  let lower_text := lower text in
  let pricing_snips := _snippets_around text pricing_needles 2 in
  let pricing_detected :=
    nonnil pricing_snips
    || (contains "pricing" lower_text && (200 <? String.length text)%nat) in
  let emails := firstn 3 (_dedupe_keep_order (find_emails text)) in
  let phones := firstn 3 (_dedupe_keep_order (find_phones text)) in
  let contact_snips := _snippets_around text contact_needles 2 in
  let contact_detected :=
    nonnil emails || nonnil phones || nonnil contact_snips
    || contains "contact" (lower (url page)) in
  let locations := _find_locations_from_jsonld jsonlds in
  let locations :=
    if nonnil locations then locations
    else let addr_snips := _snippets_around text ["address"; "located"; "location"] 1 in
         if nonnil addr_snips then addr_snips else locations in
  {| pb_url := url page;
     pb_title := title page;
     pb_meta_description := meta_description page;
     text_excerpt := _truncate (text_content page) 1200;
     language := or_str lang "not detected";
     h1 := or_str (Some h1) "not detected";
     headings := headings;
     cta_detected := ctas;
     structured_data_types := jsonld_types;
     jsonld := firstn 6 jsonlds;
     internal_links_top := firstn 10 nav_top;
     signals := {| pricing_detected := pricing_detected;
                   pricing_snippets := pricing_snips;
                   contact_detected := contact_detected;
                   contact_snippets := contact_snips;
                   emails_detected := emails;
                   phones_detected := phones;
                   sig_locations_detected := firstn 5 locations |};
     internal_links_unique := List.length internal_counts |}.

(** The extractor object: [EvidenceExtractor(max_pages=...)]. *)
Record EvidenceExtractor := { max_pages : nat }.

Definition extract_pages (self : EvidenceExtractor) (pages : list ScrapedPage)
  : list PageBlock :=
  List.map extract_page (firstn (max_pages self) pages).

(** *** [EvidenceExtractor.build_company_profile] *)

Record CompanyProfile := {
  company_name : string;
  primary_offer_summary : string;
  services_detected : list string;
  locations_detected : list string;
  primary_language_detected : string;
  top_pages : list string
}.

(** [for p in pages: lang = (p.get("language") or "").strip(); if lang and
    lang.lower() != "not detected": primary_language = lang; break] *)
Fixpoint first_language (pages : list PageBlock) : option string :=
  match pages with
  | [] => None
  | p :: rest =>
      let lang := strip (language p) in
      if nonempty lang && negb (String.eqb (lower lang) "not detected")
      then Some lang else first_language rest
  end.

Definition generic_headings : list string :=
  ["home"; "welcome"; "about"; "services"; "products"; "solutions"; "contact"].

Definition service_candidates (p : PageBlock) : list string :=
  let u := lower (pb_url p) in
  let t := lower (pb_title p) in
  let is_home := is_home_url u in
  let is_services := contains "service" u || contains "services" u || contains "services" t in
  if negb (is_home || is_services) then []
  else
    let cand := (if negb (String.eqb (lower (h1 p)) "not detected") then [h1 p] else [])
                ++ headings p in
    flat_map (fun c => let t := _norm_ws c in
                       if in_range 3 80 (String.length t)
                          && negb (str_in (lower t) generic_headings)
                       then [t] else []) cand.

(** [iter_pages_prefer_home()] *)
Definition iter_pages_prefer_home (pages : list PageBlock) : list PageBlock :=
  List.filter (fun p => is_home_url (lower (pb_url p))) pages
  ++ List.filter (fun p => negb (is_home_url (lower (pb_url p)))) pages.

Fixpoint first_org_name (pages : list PageBlock) : option string :=
  match pages with
  | [] => None
  | p :: rest =>
      match _find_org_name (jsonld p) with
      | Some name => Some name
      | None => first_org_name rest
      end
  end.

(** The loop that settles [offer_summary] from the home pages: the value
    after the loop is the summary of the first home page that has one, else
    that of the last home page (none). *)
Fixpoint offer_from_homes (pages : list PageBlock) : option string :=
  match pages with
  | [] => None
  | p :: rest =>
      if negb (is_home_url (lower (pb_url p))) then offer_from_homes rest
      else match _best_offer_sentences (text_excerpt p) with
           | Some (String c r) => Some (String c r)
           | _ => offer_from_homes rest
           end
  end.

Fixpoint offer_from_meta (pages : list PageBlock) : option string :=
  match pages with
  | [] => None
  | p :: rest =>
      let md := pb_meta_description p in
      if (60 <=? String.length (_norm_ws md))%nat then Some (_truncate md 260)
      else offer_from_meta rest
  end.

Definition _top_pages (pages : list PageBlock) : list string :=
  let counts :=
    fold_left (fun counts u => if nonempty u then count_up u counts else counts)
      (flat_map internal_links_top pages) [] in
  List.map fst (firstn 10 (sorted_by more_linked counts)).

Definition build_company_profile (pages : list PageBlock) (fallback_domain : string)
  : CompanyProfile :=
  let primary_language := first_language pages in
  let services := firstn 12 (_dedupe_keep_order (flat_map service_candidates pages)) in
  let company_name := first_org_name (iter_pages_prefer_home pages) in
  let locations :=
    firstn 10 (_dedupe_keep_order
                 (flat_map (fun p => sig_locations_detected (signals p)) pages)) in
  let offer_summary := offer_from_homes pages in
  let offer_summary :=
    match offer_summary with
    | Some (String c r) => offer_summary
    | _ => offer_from_meta (iter_pages_prefer_home pages)
    end in
  let company_name :=
    match company_name with
    | Some (String c r) => String c r
    | _ => or_str (Some fallback_domain) "this domain"
    end in
  {| company_name := company_name;
     primary_offer_summary := or_str offer_summary "not detected";
     services_detected := services;
     locations_detected := locations;
     primary_language_detected := or_str primary_language "not detected";
     top_pages := _top_pages pages |}.

(** *** [EvidenceExtractor.build_evidence_items] *)

Record EvidenceItem := {
  claim : string;
  proof_type : string;
  source_urls : list string;
  snippets : list string;
  confidence : Q
}.

(** The local function [add] of [build_evidence_items], as the item it
    appends. *)
Definition add (claim proof_type : string) (source_urls snippets : list string)
    (confidence : Q) : EvidenceItem :=
  {| claim := _truncate claim 240;
     proof_type := proof_type;
     source_urls := firstn 3 (_dedupe_keep_order source_urls);
     snippets := firstn 3 (_dedupe_keep_order snippets);
     confidence := confidence |}.

Definition url_mentions (keys : list string) (u : string) : bool :=
  existsb (fun k => contains k (lower u)) keys.

Definition pricing_item (pages : list PageBlock) (profile : CompanyProfile) : EvidenceItem :=
  let urls := List.map pb_url pages in
  let pricing_urls := List.filter (url_mentions ["pricing"; "prices"; "price"; "plans"]) urls in
  let pricing_snips := flat_map (fun p => pricing_snippets (signals p)) pages in
  if nonnil pricing_urls || nonnil pricing_snips
  then add "Pricing information is detectable, but may not be structured for AI quoting."
         "pricing_present"
         (if nonnil pricing_urls then firstn 3 pricing_urls else firstn 1 urls)
         (firstn 2 pricing_snips)
         (if nonnil pricing_urls then 75 # 100 else 55 # 100)
  else add "No pricing page or pricing section was detected in the sampled pages."
         "no_pricing" (firstn 3 (top_pages profile)) ["not detected"] (65 # 100).

Definition contact_item (pages : list PageBlock) (profile : CompanyProfile) : EvidenceItem :=
  let urls := List.map pb_url pages in
  let contact_urls := List.filter (url_mentions ["contact"]) urls in
  let contact_snips := flat_map (fun p => contact_snippets (signals p)) pages in
  let emails := flat_map (fun p => emails_detected (signals p)) pages in
  let phones := flat_map (fun p => phones_detected (signals p)) pages in
  if nonnil contact_urls || nonnil emails || nonnil phones || nonnil contact_snips
  then add "Contact details exist, but must be presented in a consistent, AI-quotable block."
         "contact_present"
         (if nonnil (firstn 2 contact_urls) then firstn 2 contact_urls else firstn 2 urls)
         (firstn 2 (_dedupe_keep_order (emails ++ phones ++ contact_snips)))
         (if nonnil contact_urls then 8 # 10 else 6 # 10)
  else add "No clear contact page, email, or phone was detected in the sampled pages."
         "no_contact" (firstn 3 (top_pages profile)) ["not detected"] (65 # 100).

Definition entity_item (pages : list PageBlock) : EvidenceItem :=
  let urls := List.map pb_url pages in
  let sd_types := _dedupe_keep_order (flat_map structured_data_types pages) in
  if existsb is_org_type sd_types
  then add "Entity signals are present in structured data (Organization/LocalBusiness)."
         "entity_signals_present" (firstn 2 urls)
         ["structured_data_types: " ++ join ", " (firstn 6 sd_types)]%string (8 # 10)
  else add "No Organization/LocalBusiness structured data was detected in sampled pages."
         "weak_entity_signals" (firstn 2 urls)
         ["structured_data_types: "
          ++ (if nonnil sd_types then join ", " (firstn 6 sd_types) else "not detected")]%string
         (6 # 10).

(** [s.split("-")[0]] *)
Definition base_code (s : string) : string :=
  match split_char "-"%char s with
  | x :: _ => x
  | [] => EmptyString
  end.

(** The condition under which the language rule adds its item. *)
Definition language_differs (profile : CompanyProfile) (locale : option string) : bool :=
  match locale with
  | Some l =>
      if nonempty l && nonempty (strip l) then
        let detected := lower (primary_language_detected profile) in
        let loc2 := base_code (lower l) in
        let det2 := if nonempty detected && negb (String.eqb detected "not detected")
                    then base_code detected else EmptyString in
        nonempty det2 && nonempty loc2 && negb (String.eqb det2 loc2)
      else false
  | None => false
  end.

Definition language_item (pages : list PageBlock) (profile : CompanyProfile)
    (locale : string) : EvidenceItem :=
  add ("Primary language on the site appears to differ from the requested locale ("
       ++ locale ++ ").")
    "language_mismatch" (firstn 2 (List.map pb_url pages))
    ["html_lang_detected: " ++ primary_language_detected profile]%string (7 # 10).

(** The condition under which the fragmented-services rule adds its item. *)
Definition services_fragmented (pages : list PageBlock) (profile : CompanyProfile) : bool :=
  nonnil (services_detected profile)
  && negb (existsb (fun u => contains "service" (lower u)) (List.map pb_url pages)).

Definition fragmented_item (pages : list PageBlock) (profile : CompanyProfile) : EvidenceItem :=
  add "Service information appears present, but not organized into dedicated service explanation pages."
    "fragmented_content" (firstn 3 (List.map pb_url pages))
    ["services_detected: " ++ join ", " (firstn 5 (services_detected profile))]%string
    (6 # 10).

Definition build_evidence_items (pages : list PageBlock) (profile : CompanyProfile)
    (locale : option string) : list EvidenceItem :=
  let ev := [pricing_item pages profile; contact_item pages profile; entity_item pages] in
  let ev := if language_differs profile locale
            then ev ++ [language_item pages profile
                          (match locale with Some l => l | None => EmptyString end)]
            else ev in
  let ev := if services_fragmented pages profile
            then ev ++ [fragmented_item pages profile] else ev in
  firstn 12 ev.

(** [EvidenceItem.to_dict] *)
Record EvidenceDict := {
  d_claim : string;
  d_proof_type : string;
  d_source_urls : list string;
  d_snippets : list string;
  d_confidence : Q
}.

Definition to_dict (e : EvidenceItem) : EvidenceDict :=
  {| d_claim := claim e;
     d_proof_type := proof_type e;
     d_source_urls := firstn 3 (source_urls e);
     d_snippets := firstn 3 (List.map (fun s => _truncate s 260) (snippets e));
     d_confidence := Qmax 0 (Qmin 1 (confidence e)) |}.

(** *** [EvidenceExtractor.build_evidence_layer] *)

Record EvidenceLayer := {
  company_profile : CompanyProfile;
  page_blocks : list PageBlock;
  evidence : list EvidenceDict
}.

Definition build_evidence_layer (self : EvidenceExtractor) (pages : list ScrapedPage)
    (fallback_domain : string) (locale : option string) : EvidenceLayer :=
  let page_blocks := extract_pages self pages in
  let company_profile := build_company_profile page_blocks fallback_domain in
  let evidence_items := build_evidence_items page_blocks company_profile locale in
  {| company_profile := company_profile;
     page_blocks := page_blocks;
     evidence := List.map to_dict evidence_items |}.

(** *** Zero pages *)

(** C7.  For the empty page list the company profile has every field set:
    the name is the fallback domain (["this domain"] when that is empty), the
    offer summary and the language are the literal ["not detected"], and the
    services, locations and top pages are empty lists. *)
Theorem empty_pages_profile (self : EvidenceExtractor) (fallback_domain : string)
    (locale : option string) :
  company_profile (build_evidence_layer self [] fallback_domain locale)
  = {| company_name := (if nonempty fallback_domain then fallback_domain
                        else "this domain");
       primary_offer_summary := "not detected";
       services_detected := [];
       locations_detected := [];
       primary_language_detected := "not detected";
       top_pages := [] |}
  /\ page_blocks (build_evidence_layer self [] fallback_domain locale) = []
  /\ nonempty (company_name
                 (company_profile (build_evidence_layer self [] fallback_domain locale)))
     = true.
Proof.
  unfold build_evidence_layer, extract_pages. rewrite List.firstn_nil. simpl.
  unfold build_company_profile. simpl.
  destruct fallback_domain; repeat split; reflexivity.
Qed.

(** *** Determinism *)

(** The columns of a page the extractor reads. *)
Definition page_content (p : ScrapedPage) : string * string * string * string * string * string :=
  (url p, domain p, title p, meta_description p, html_content p, text_content p).

Lemma extract_page_reads_content (p q : ScrapedPage) :
  page_content p = page_content q -> extract_page p = extract_page q.
Proof.
  unfold page_content. intros H. inversion H as [[Hu Hd Ht Hm Hh Hx]].
  unfold extract_page. now rewrite Hu, Hd, Ht, Hm, Hh, Hx.
Qed.

Lemma map_extract_page (l1 l2 : list ScrapedPage) :
  List.map page_content l1 = List.map page_content l2 ->
  List.map extract_page l1 = List.map extract_page l2.
Proof.
  revert l2. induction l1 as [|p l1 IH]; intros [|q l2] H; try discriminate.
  - reflexivity.
  - simpl in H.
    assert (Hpq : page_content p = page_content q) by congruence.
    assert (Hl : List.map page_content l1 = List.map page_content l2) by congruence.
    simpl. rewrite (extract_page_reads_content p q Hpq). f_equal. now apply IH.
Qed.

(** C9.  The evidence layer is a function of the extractor's page budget,
    the fallback domain, the locale and the content of the first [max_pages]
    pages: two calls whose page lists agree there (two calls on identical
    input above all) return the same company profile, the same page blocks
    and the same evidence items in the same order. *)
Theorem build_evidence_layer_deterministic (self : EvidenceExtractor)
    (pages1 pages2 : list ScrapedPage) (fallback_domain : string)
    (locale : option string) :
  List.map page_content (firstn (max_pages self) pages1)
  = List.map page_content (firstn (max_pages self) pages2) ->
  build_evidence_layer self pages1 fallback_domain locale
  = build_evidence_layer self pages2 fallback_domain locale.
Proof.
  intros H. unfold build_evidence_layer, extract_pages.
  now rewrite (map_extract_page _ _ H).
Qed.

(** *** The rules of the evidence synthesis *)

(** What a rule reports: the proof type and the confidence of its item. *)
Definition outcome (e : EvidenceDict) : string * Q := (d_proof_type e, d_confidence e).

Lemma pricing_outcome pages profile :
  let e := to_dict (pricing_item pages profile) in
  List.In (outcome e)
    [("pricing_present", 75 # 100); ("pricing_present", 55 # 100); ("no_pricing", 65 # 100)]
  /\ (d_proof_type e = "no_pricing" -> d_snippets e = ["not detected"]).
Proof.
  unfold pricing_item.
  destruct (nonnil _ || nonnil _).
  - destruct (nonnil (List.filter _ _)); (split; [simpl; auto|discriminate]).
  - split; [simpl; auto|]. intros _. vm_compute. reflexivity.
Qed.

Lemma contact_outcome pages profile :
  let e := to_dict (contact_item pages profile) in
  List.In (outcome e)
    [("contact_present", 8 # 10); ("contact_present", 6 # 10); ("no_contact", 65 # 100)]
  /\ (d_proof_type e = "no_contact" -> d_snippets e = ["not detected"]).
Proof.
  unfold contact_item.
  destruct (nonnil _ || nonnil _ || nonnil _ || nonnil _).
  - destruct (nonnil (List.filter _ (List.map pb_url pages)));
      (split; [simpl; auto|discriminate]).
  - split; [simpl; auto|]. intros _. vm_compute. reflexivity.
Qed.

Lemma entity_outcome pages :
  List.In (outcome (to_dict (entity_item pages)))
    [("entity_signals_present", 8 # 10); ("weak_entity_signals", 6 # 10)].
Proof.
  unfold entity_item. destruct (existsb is_org_type _); simpl; auto.
Qed.

(** The signals the three rules look for in the page blocks. *)
Definition pricing_url_found (pages : list PageBlock) : bool :=
  nonnil (List.filter (url_mentions ["pricing"; "prices"; "price"; "plans"])
            (List.map pb_url pages)).

Definition pricing_snippet_found (pages : list PageBlock) : bool :=
  nonnil (flat_map (fun p => pricing_snippets (signals p)) pages).

Definition contact_url_found (pages : list PageBlock) : bool :=
  nonnil (List.filter (url_mentions ["contact"]) (List.map pb_url pages)).

Definition contact_detail_found (pages : list PageBlock) : bool :=
  nonnil (flat_map (fun p => emails_detected (signals p)) pages)
  || nonnil (flat_map (fun p => phones_detected (signals p)) pages)
  || nonnil (flat_map (fun p => contact_snippets (signals p)) pages).

Definition sd_types_of (pages : list PageBlock) : list string :=
  _dedupe_keep_order (flat_map structured_data_types pages).

Definition org_type_found (pages : list PageBlock) : bool :=
  existsb is_org_type (sd_types_of pages).

(** The outcome of each rule as a function of its signals. *)
Lemma pricing_outcome_signal pages profile :
  outcome (to_dict (pricing_item pages profile))
  = (if pricing_url_found pages then ("pricing_present", 75 # 100)
     else if pricing_snippet_found pages then ("pricing_present", 55 # 100)
     else ("no_pricing", 65 # 100)).
Proof.
  unfold pricing_item, pricing_url_found, pricing_snippet_found.
  destruct (nonnil (List.filter _ _)); [reflexivity|].
  destruct (nonnil (flat_map _ _)); reflexivity.
Qed.

Lemma contact_outcome_signal pages profile :
  outcome (to_dict (contact_item pages profile))
  = (if contact_url_found pages then ("contact_present", 8 # 10)
     else if contact_detail_found pages then ("contact_present", 6 # 10)
     else ("no_contact", 65 # 100)).
Proof.
  unfold contact_item, contact_url_found, contact_detail_found.
  destruct (nonnil (List.filter _ _)); [reflexivity|].
  destruct (nonnil (flat_map (fun p => emails_detected (signals p)) pages));
    [reflexivity|].
  destruct (nonnil (flat_map (fun p => phones_detected (signals p)) pages));
    [reflexivity|].
  destruct (nonnil (flat_map (fun p => contact_snippets (signals p)) pages)); reflexivity.
Qed.

Lemma entity_outcome_signal pages :
  outcome (to_dict (entity_item pages))
  = (if org_type_found pages then ("entity_signals_present", 8 # 10)
     else ("weak_entity_signals", 6 # 10))
  /\ (sd_types_of pages = [] ->
      d_snippets (to_dict (entity_item pages)) = ["structured_data_types: not detected"]).
Proof.
  unfold entity_item, org_type_found, sd_types_of. split.
  - destruct (existsb is_org_type _); reflexivity.
  - intros ->. vm_compute. reflexivity.
Qed.

(** C6, amended.  The pricing, contact and entity rules each emit exactly
    one item, and its outcome is fixed by the signals: pricing_present with
    confidence 0.75 when a page URL mentions pricing, else 0.55 when a pricing
    snippet was found, else no_pricing with confidence 0.65; contact_present
    with confidence 0.8 when a page URL mentions contact, else 0.6 when an
    e-mail address, a telephone number or a contact snippet was found, else
    no_contact with confidence 0.65; entity_signals_present with confidence
    0.8 when a structured-data type is Organization or LocalBusiness, else
    weak_entity_signals with confidence 0.6.  The outcomes without a signal
    carry the "not detected" snippet.  The language-mismatch item (confidence
    0.7) is emitted only when the detected base language differs from the
    locale's, and the fragmented-content item (confidence 0.6) only when
    services were detected and no URL mentions "service"; otherwise these two
    rules add nothing. *)
Theorem evidence_rules_outcomes (self : EvidenceExtractor) (pages : list ScrapedPage)
    (fallback_domain : string) (locale : option string) :
  let layer := build_evidence_layer self pages fallback_domain locale in
  let blocks := page_blocks layer in
  let profile := company_profile layer in
  exists pricing contact entity rest,
    evidence layer = pricing :: contact :: entity :: rest /\
    (List.In (outcome pricing)
       [("pricing_present", 75 # 100); ("pricing_present", 55 # 100);
        ("no_pricing", 65 # 100)]
     /\ (d_proof_type pricing = "no_pricing" -> d_snippets pricing = ["not detected"])) /\
    (List.In (outcome contact)
       [("contact_present", 8 # 10); ("contact_present", 6 # 10);
        ("no_contact", 65 # 100)]
     /\ (d_proof_type contact = "no_contact" -> d_snippets contact = ["not detected"])) /\
    List.In (outcome entity)
      [("entity_signals_present", 8 # 10); ("weak_entity_signals", 6 # 10)] /\
    List.map outcome rest
    = (if language_differs profile locale then [("language_mismatch", 7 # 10)] else [])
      ++ (if services_fragmented blocks profile then [("fragmented_content", 6 # 10)]
          else []) /\
    outcome pricing
    = (if pricing_url_found blocks then ("pricing_present", 75 # 100)
       else if pricing_snippet_found blocks then ("pricing_present", 55 # 100)
       else ("no_pricing", 65 # 100)) /\
    outcome contact
    = (if contact_url_found blocks then ("contact_present", 8 # 10)
       else if contact_detail_found blocks then ("contact_present", 6 # 10)
       else ("no_contact", 65 # 100)) /\
    outcome entity
    = (if org_type_found blocks then ("entity_signals_present", 8 # 10)
       else ("weak_entity_signals", 6 # 10)) /\
    (sd_types_of blocks = [] ->
     d_snippets entity = ["structured_data_types: not detected"]).
Proof.
  intros layer blocks profile. subst profile blocks layer.
  unfold build_evidence_layer. cbn [evidence page_blocks company_profile].
  set (blocks := extract_pages self pages).
  set (profile := build_company_profile blocks fallback_domain).
  exists (to_dict (pricing_item blocks profile)), (to_dict (contact_item blocks profile)),
    (to_dict (entity_item blocks)).
  exists (List.map to_dict
            ((if language_differs profile locale
              then [language_item blocks profile
                      (match locale with Some l => l | None => EmptyString end)]
              else [])
             ++ (if services_fragmented blocks profile
                 then [fragmented_item blocks profile] else []))).
  split; [|split; [apply pricing_outcome|split; [apply contact_outcome|
           split; [apply entity_outcome|split]]]].
  - unfold build_evidence_items.
    destruct (language_differs profile locale);
      destruct (services_fragmented blocks profile); reflexivity.
  - destruct (language_differs profile locale);
      destruct (services_fragmented blocks profile); reflexivity.
  - split; [apply pricing_outcome_signal|]. split; [apply contact_outcome_signal|].
    apply entity_outcome_signal.
Qed.

(** *** Sources, sizes and confidence of the items *)

Lemma in_firstn {A} (n : nat) (l : list A) (x : A) : List.In x (firstn n l) -> List.In x l.
Proof.
  revert l. induction n as [|n IH]; intros [|y l]; simpl; try tauto.
  intros [->|H]; [now left|right; now apply IH].
Qed.

Lemma dedupe_loop_in seen items u :
  List.In u (dedupe_loop seen items) -> exists x, List.In x items /\ u = _norm_ws x.
Proof.
  revert seen. induction items as [|x r IH]; intros seen; simpl; [tauto|].
  destruct (negb (nonempty (_norm_ws x))).
  - intros H. destruct (IH _ H) as [y [Hy ->]]. exists y. tauto.
  - destruct (bool_decide _).
    + intros H. destruct (IH _ H) as [y [Hy ->]]. exists y. tauto.
    + intros [<-|H]; [exists x; tauto|].
      destruct (IH _ H) as [y [Hy ->]]. exists y. tauto.
Qed.

(** Where the source URLs of an item of type [ty] come from: the URLs of the
    page blocks, or, for the two "not detected" items, the top pages. *)
Definition cited_from (urls tops : list string) (ty u : string) : Prop :=
  (exists x, List.In x urls /\ u = _norm_ws x)
  \/ (List.In ty ["no_pricing"; "no_contact"] /\ exists v, List.In v tops /\ u = _norm_ws v).

Lemma add_sources claim0 ty srcs snips conf u :
  List.In u (source_urls (add claim0 ty srcs snips conf)) ->
  exists x, List.In x srcs /\ u = _norm_ws x.
Proof. simpl. intros H. apply in_firstn in H. now apply dedupe_loop_in in H. Qed.

Ltac from_urls H :=
  let x := fresh "x" in
  let Hx := fresh "Hx" in
  let Hu := fresh "Hu" in
  apply add_sources in H; destruct H as [x [Hx Hu]]; left; exists x;
  split; [|exact Hu];
  repeat match goal with
         | Hy : List.In _ (firstn _ _) |- _ => apply in_firstn in Hy
         | Hy : List.In _ (List.filter _ _) |- _ =>
             apply List.filter_In in Hy; destruct Hy as [Hy _]
         end; assumption.

Ltac from_tops H :=
  let x := fresh "x" in
  let Hx := fresh "Hx" in
  let Hu := fresh "Hu" in
  apply add_sources in H; destruct H as [x [Hx Hu]]; right;
  split; [simpl; tauto|]; exists x; split; [|exact Hu];
  now apply in_firstn in Hx.

Lemma pricing_item_sources pages profile u :
  List.In u (source_urls (pricing_item pages profile)) ->
  cited_from (List.map pb_url pages) (top_pages profile)
    (proof_type (pricing_item pages profile)) u.
Proof.
  unfold pricing_item, cited_from.
  destruct (nonnil _ || nonnil _).
  - destruct (nonnil (List.filter _ _)); intros H; from_urls H.
  - intros H. from_tops H.
Qed.

Lemma contact_item_sources pages profile u :
  List.In u (source_urls (contact_item pages profile)) ->
  cited_from (List.map pb_url pages) (top_pages profile)
    (proof_type (contact_item pages profile)) u.
Proof.
  unfold contact_item, cited_from.
  destruct (nonnil _ || nonnil _ || nonnil _ || nonnil _).
  - destruct (nonnil (firstn 2 _)); intros H; from_urls H.
  - intros H. from_tops H.
Qed.

Lemma entity_item_sources pages u :
  List.In u (source_urls (entity_item pages)) ->
  exists x, List.In x (List.map pb_url pages) /\ u = _norm_ws x.
Proof.
  unfold entity_item. destruct (existsb is_org_type _); intros H;
    apply add_sources in H; destruct H as [x [Hx ->]]; exists x;
    (split; [now apply in_firstn in Hx|reflexivity]).
Qed.

Lemma build_evidence_items_in pages profile locale e :
  List.In e (build_evidence_items pages profile locale) ->
  e = pricing_item pages profile \/ e = contact_item pages profile
  \/ e = entity_item pages
  \/ e = language_item pages profile (match locale with Some l => l | None => EmptyString end)
  \/ e = fragmented_item pages profile.
Proof.
  unfold build_evidence_items. intros H. apply in_firstn in H.
  destruct (language_differs profile locale);
    destruct (services_fragmented pages profile); simpl in H;
    intuition (subst; auto).
Qed.

Lemma evidence_item_sources pages profile locale e u :
  List.In e (build_evidence_items pages profile locale) ->
  List.In u (source_urls e) ->
  cited_from (List.map pb_url pages) (top_pages profile) (proof_type e) u.
Proof.
  intros He Hu. apply build_evidence_items_in in He.
  destruct He as [-> | [-> | [-> | [-> | ->]]]].
  - now apply pricing_item_sources.
  - now apply contact_item_sources.
  - left. now apply entity_item_sources.
  - left. apply add_sources in Hu. destruct Hu as [x [Hx ->]]. exists x.
    split; [now apply in_firstn in Hx|reflexivity].
  - left. apply add_sources in Hu. destruct Hu as [x [Hx ->]]. exists x.
    split; [now apply in_firstn in Hx|reflexivity].
Qed.

Lemma extract_page_url (p : ScrapedPage) : pb_url (extract_page p) = url p.
Proof.
  unfold extract_page.
  destruct (_extract_headings _) as [a b].
  destruct (if nonempty (html_content p) then _ else _) as [c d].
  reflexivity.
Qed.

(** A URL without whitespace is its own normal form. *)
Fixpoint no_space (s : string) : bool :=
  match s with
  | EmptyString => true
  | String c r => negb (is_space c) && no_space r
  end.

Lemma rstrip_no_space s : no_space s = true -> rstrip_by is_space s = s.
Proof.
  induction s as [|c r IH]; simpl; [reflexivity|].
  intros H. apply andb_true_iff in H. destruct H as [Hc Hr].
  rewrite (IH Hr). apply negb_true_iff in Hc. rewrite Hc. now destruct r.
Qed.

Lemma squeeze_no_space s : no_space s = true -> squeeze_ws false s = s.
Proof.
  induction s as [|c r IH]; simpl; [reflexivity|].
  intros H. apply andb_true_iff in H. destruct H as [Hc Hr].
  apply negb_true_iff in Hc. rewrite Hc. now rewrite (IH Hr).
Qed.

Lemma norm_ws_no_space s : no_space s = true -> _norm_ws s = s.
Proof.
  intros H. unfold _norm_ws, strip, strip_by. rewrite (rstrip_no_space s H).
  assert (Hl : lstrip_by is_space s = s).
  { destruct s as [|c r]; [reflexivity|]. simpl in *.
    apply andb_true_iff in H. destruct H as [Hc _].
    apply negb_true_iff in Hc. now rewrite Hc. }
  rewrite Hl. now apply squeeze_no_space.
Qed.

Lemma clamp_bounds (c : Q) : (0 <= Qmax 0 (Qmin 1 c))%Q /\ (Qmax 0 (Qmin 1 c) <= 1)%Q.
Proof.
  split.
  - apply Q.le_max_l.
  - apply Q.max_lub; [discriminate|apply Q.le_min_l].
Qed.

(** C3, amended.  Every source URL of an evidence item is the
    whitespace-normalised URL of one of the job's fetched pages, except in the
    no_pricing and no_contact items, whose source URLs are (normalised)
    entries of the profile's top pages, that is link targets found in the
    pages' navigation, fetched or not.  Every item carries at most 3 source
    URLs and at most 3 snippets, and its confidence lies in [0,1]. *)
Theorem evidence_items_cite_and_bound (self : EvidenceExtractor)
    (pages : list ScrapedPage) (fallback_domain : string) (locale : option string)
    (e : EvidenceDict) :
  let layer := build_evidence_layer self pages fallback_domain locale in
  List.In e (evidence layer) ->
  (forall u, List.In u (d_source_urls e) ->
     (exists p, List.In p pages /\ u = _norm_ws (url p))
     \/ (List.In (d_proof_type e) ["no_pricing"; "no_contact"]
         /\ exists v, List.In v (top_pages (company_profile layer)) /\ u = _norm_ws v))
  /\ (List.length (d_source_urls e) <= 3)%nat
  /\ (List.length (d_snippets e) <= 3)%nat
  /\ (0 <= d_confidence e)%Q /\ (d_confidence e <= 1)%Q.
Proof.
  intros layer He. unfold layer, build_evidence_layer in He. cbn [evidence] in He.
  apply List.in_map_iff in He. destruct He as [item [<- Hitem]].
  split; [|split; [|split; [|apply clamp_bounds]]].
  - intros u Hu. cbn [to_dict d_source_urls d_proof_type] in *.
    apply in_firstn in Hu.
    destruct (evidence_item_sources _ _ _ _ _ Hitem Hu) as [[x [Hx ->]]|Htop].
    + left. apply List.in_map_iff in Hx. destruct Hx as [b [<- Hb]].
      unfold extract_pages in Hb. apply List.in_map_iff in Hb.
      destruct Hb as [p [<- Hp]]. exists p. rewrite extract_page_url.
      split; [now apply in_firstn in Hp|reflexivity].
    + right. exact Htop.
  - cbn [to_dict d_source_urls]. apply List.firstn_le_length.
  - cbn [to_dict d_snippets]. apply List.firstn_le_length.
Qed.

(** *** The text helpers *)

Lemma dedupe_loop_spec (seen : gset string) (items : list string) :
  List.NoDup (List.map lower (dedupe_loop seen items)) /\
  (forall t, List.In t (dedupe_loop seen items) -> nonempty t = true /\ lower t ∉ seen) /\
  (forall x, List.In x items -> nonempty (_norm_ws x) = true ->
     lower (_norm_ws x) ∈ seen
     \/ List.In (lower (_norm_ws x)) (List.map lower (dedupe_loop seen items))) /\
  sublist (dedupe_loop seen items) (List.map _norm_ws items).
Proof.
  revert seen. induction items as [|x r IH]; intros seen; simpl.
  - split; [constructor|]. split; [intros ? []|]. split; [intros ? []|constructor].
  - destruct (nonempty (_norm_ws x)) eqn:Hx; simpl.
    + destruct (bool_decide (lower (_norm_ws x) ∈ seen)) eqn:Hs.
      * apply bool_decide_eq_true in Hs.
        destruct (IH seen) as [A [B [C D]]].
        split; [exact A|]. split; [exact B|]. split; [|now apply sublist_cons].
        intros y [<-|Hy] Hn; [now left|now apply C].
      * apply bool_decide_eq_false in Hs.
        destruct (IH (seen ∪ {[lower (_norm_ws x)]})) as [A [B [C D]]].
        split; [|split; [|split; [|now apply sublist_skip]]].
        -- simpl. constructor; [|exact A].
           intros Hin. apply List.in_map_iff in Hin. destruct Hin as [t [Ht Hin]].
           destruct (B t Hin) as [_ Hns]. apply Hns. rewrite Ht.
           apply elem_of_union_r, elem_of_singleton. reflexivity.
        -- intros t [<-|Ht]; [now split|].
           destruct (B t Ht) as [Hn Hns]. split; [exact Hn|].
           intros Hin. apply Hns. now apply elem_of_union_l.
        -- intros y [<-|Hy] Hn; [right; now left|].
           destruct (C y Hy Hn) as [Hin|Hin]; [|right; now right].
           apply elem_of_union in Hin. destruct Hin as [Hin|Hin]; [now left|].
           apply elem_of_singleton in Hin. right. left. now symmetry.
    + destruct (IH seen) as [A [B [C D]]].
      split; [exact A|]. split; [exact B|]. split; [|now apply sublist_cons].
      intros y [<-|Hy] Hn; [congruence|now apply C].
Qed.

Lemma dedupe_loop_first (seen : gset string) (before : list string) (x : string)
    (after : list string) :
  nonempty (_norm_ws x) = true -> lower (_norm_ws x) ∉ seen ->
  (forall y, List.In y before -> lower (_norm_ws y) <> lower (_norm_ws x)) ->
  List.In (_norm_ws x) (dedupe_loop seen (before ++ x :: after)).
Proof.
  intros Hx. revert seen. induction before as [|y r IH]; intros seen Hs Hb; simpl.
  - rewrite Hx. simpl. rewrite bool_decide_eq_false_2 by exact Hs. now left.
  - assert (Hr : forall z, List.In z r -> lower (_norm_ws z) <> lower (_norm_ws x))
      by (intros z Hz; apply Hb; now right).
    destruct (nonempty (_norm_ws y)); simpl; [|now apply IH].
    destruct (bool_decide (lower (_norm_ws y) ∈ seen)); [now apply IH|].
    right. apply IH; [|exact Hr].
    intros Hin. apply elem_of_union in Hin. destruct Hin as [Hin|Hin]; [now apply Hs|].
    apply elem_of_singleton in Hin. apply (Hb y); [now left|now symmetry].
Qed.

(** X12.  [_dedupe_keep_order] returns the whitespace-normalised items in
    their order, without the blank ones and without a second entry that
    differs from an earlier one only in case: no two results agree in lower
    case, every non-blank item is represented, and the first item of each
    case-class is the one that is kept. *)
Theorem dedupe_keep_order_spec (items : list string) :
  sublist (_dedupe_keep_order items) (List.map _norm_ws items) /\
  List.NoDup (List.map lower (_dedupe_keep_order items)) /\
  (forall t, List.In t (_dedupe_keep_order items) -> nonempty t = true) /\
  (forall x, List.In x items -> nonempty (_norm_ws x) = true ->
     List.In (lower (_norm_ws x)) (List.map lower (_dedupe_keep_order items))) /\
  (forall before x after, items = before ++ x :: after ->
     nonempty (_norm_ws x) = true ->
     (forall y, List.In y before -> lower (_norm_ws y) <> lower (_norm_ws x)) ->
     List.In (_norm_ws x) (_dedupe_keep_order items)).
Proof.
  unfold _dedupe_keep_order.
  destruct (dedupe_loop_spec ∅ items) as [A [B [C D]]].
  split; [exact D|]. split; [exact A|]. split; [intros t Ht; now apply B|].
  split.
  - intros x Hx Hn. destruct (C x Hx Hn) as [Hin|Hin]; [|exact Hin].
    now apply not_elem_of_empty in Hin.
  - intros before x after -> Hn Hb. apply dedupe_loop_first; [exact Hn| |exact Hb].
    apply not_elem_of_empty.
Qed.

(** A string that neither starts nor ends with whitespace. *)
Definition starts_clean (s : string) : bool :=
  match s with
  | EmptyString => true
  | String c _ => negb (is_space c)
  end.

Fixpoint ends_clean (s : string) : bool :=
  match s with
  | EmptyString => true
  | String c EmptyString => negb (is_space c)
  | String _ r => ends_clean r
  end.

Lemma lstrip_clean s : starts_clean s = true -> lstrip_by is_space s = s.
Proof.
  destruct s as [|c r]; simpl; [reflexivity|].
  intros H. apply negb_true_iff in H. now rewrite H.
Qed.

Lemma rstrip_clean s : ends_clean s = true -> rstrip_by is_space s = s.
Proof.
  induction s as [|c r IH]; [reflexivity|].
  destruct r as [|c2 r2].
  - simpl. intros H. apply negb_true_iff in H. now rewrite H.
  - intros H. change (ends_clean (String c (String c2 r2))) with (ends_clean (String c2 r2)) in H.
    change (rstrip_by is_space (String c (String c2 r2)))
      with (match rstrip_by is_space (String c2 r2) with
            | EmptyString => if is_space c then EmptyString else String c EmptyString
            | r' => String c r'
            end).
    now rewrite (IH H).
Qed.

Lemma rstrip_ends_clean s : ends_clean (rstrip_by is_space s) = true.
Proof.
  induction s as [|c r IH]; [reflexivity|]. simpl.
  destruct (rstrip_by is_space r) as [|c2 r2] eqn:E.
  - destruct (is_space c) eqn:Hc; simpl; [reflexivity|now rewrite Hc].
  - exact IH.
Qed.

Lemma lstrip_ends_clean s : ends_clean s = true -> ends_clean (lstrip_by is_space s) = true.
Proof.
  induction s as [|c r IH]; [reflexivity|]. intros H. simpl.
  destruct (is_space c) eqn:Hc; [|exact H].
  apply IH. destruct r; [simpl in H; now rewrite Hc in H|exact H].
Qed.

Lemma lstrip_starts_clean s : starts_clean (lstrip_by is_space s) = true.
Proof.
  induction s as [|c r IH]; [reflexivity|]. simpl.
  destruct (is_space c) eqn:Hc; [exact IH|simpl; now rewrite Hc].
Qed.

Lemma squeeze_nonempty b s :
  ends_clean s = true -> nonempty s = true -> nonempty (squeeze_ws b s) = true.
Proof.
  revert b. induction s as [|c r IH]; intros b He Hn; [discriminate|].
  simpl. destruct (is_space c) eqn:Hc; [|reflexivity].
  destruct b; [|reflexivity].
  destruct r as [|c2 r2]; [simpl in He; now rewrite Hc in He|].
  apply IH; [exact He|reflexivity].
Qed.

Lemma squeeze_ends_clean b s : ends_clean s = true -> ends_clean (squeeze_ws b s) = true.
Proof.
  revert b. induction s as [|c r IH]; intros b He; [reflexivity|].
  destruct r as [|c2 r2].
  - simpl in *. destruct (is_space c) eqn:Hc; [discriminate|simpl; now rewrite Hc].
  - assert (Hr : ends_clean (String c2 r2) = true) by exact He.
    pose proof (squeeze_nonempty true _ Hr eq_refl) as Ht.
    pose proof (squeeze_nonempty false _ Hr eq_refl) as Hf.
    pose proof (IH true Hr) as It. pose proof (IH false Hr) as If.
    change (squeeze_ws b (String c (String c2 r2)))
      with (if is_space c
            then if b then squeeze_ws true (String c2 r2)
                 else String " "%char (squeeze_ws true (String c2 r2))
            else String c (squeeze_ws false (String c2 r2))).
    destruct (is_space c); [destruct b; [exact It|]|].
    + destruct (squeeze_ws true (String c2 r2)); [discriminate|exact It].
    + destruct (squeeze_ws false (String c2 r2)); [discriminate|exact If].
Qed.

Lemma squeeze_starts_clean s :
  starts_clean s = true -> starts_clean (squeeze_ws false s) = true.
Proof.
  destruct s as [|c r]; [reflexivity|]. simpl. intros H.
  destruct (is_space c) eqn:Hc; [discriminate|simpl; now rewrite Hc].
Qed.

Lemma squeeze_twice s :
  squeeze_ws false (squeeze_ws false s) = squeeze_ws false s /\
  squeeze_ws true (squeeze_ws true s) = squeeze_ws true s /\
  squeeze_ws false (squeeze_ws true s) = squeeze_ws true s.
Proof.
  induction s as [|c r [A [B C]]]; [repeat split; reflexivity|].
  simpl. destruct (is_space c) eqn:Hc.
  - split; [|split; assumption].
    change (squeeze_ws false (String " " (squeeze_ws true r)))
      with (String " "%char (squeeze_ws true (squeeze_ws true r))).
    now rewrite B.
  - simpl. rewrite Hc. rewrite A. repeat split; reflexivity.
Qed.

(** X13.  [_norm_ws] yields a normal form: the result neither starts nor
    ends with whitespace, and normalising it again changes nothing. *)
Theorem norm_ws_idempotent (s : string) :
  _norm_ws (_norm_ws s) = _norm_ws s /\
  strip (_norm_ws s) = _norm_ws s /\
  starts_clean (_norm_ws s) = true /\ ends_clean (_norm_ws s) = true.
Proof.
  assert (Hs : starts_clean (_norm_ws s) = true).
  { unfold _norm_ws, strip, strip_by. apply squeeze_starts_clean, lstrip_starts_clean. }
  assert (He : ends_clean (_norm_ws s) = true).
  { unfold _norm_ws, strip, strip_by.
    apply squeeze_ends_clean, lstrip_ends_clean, rstrip_ends_clean. }
  assert (Hstrip : strip (_norm_ws s) = _norm_ws s).
  { unfold strip, strip_by. rewrite (rstrip_clean _ He). now apply lstrip_clean. }
  split; [|auto].
  unfold _norm_ws at 1. rewrite Hstrip. unfold _norm_ws.
  apply (squeeze_twice (strip s)).
Qed.

(** *** Sizes and origins of what a page block holds *)

Lemma sublist_In {A} (l1 l2 : list A) (x : A) : sublist l1 l2 -> List.In x l1 -> List.In x l2.
Proof using Type.
  clear. induction 1 as [|y l1 l2 _ IH|y l1 l2 _ IH]; simpl; [tauto| |]; intuition.
Qed.

Lemma dedupe_length (items : list string) :
  (List.length (_dedupe_keep_order items) <= List.length items)%nat.
Proof.
  destruct (dedupe_keep_order_spec items) as [H _].
  apply sublist_length in H. now rewrite List.length_map in H.
Qed.

Lemma snippets_loop_length t lt window wanted needles :
  (List.length (snippets_loop t lt window wanted needles) <= wanted)%nat.
Proof.
  revert wanted. induction needles as [|n r IH]; intros [|k]; simpl; try lia.
  destruct (Py.find (lower n) lt); simpl.
  - specialize (IH k). lia.
  - apply IH.
Qed.

Lemma snippets_around_length text needles m :
  (List.length (_snippets_around text needles m) <= Nat.max 1 m)%nat.
Proof.
  unfold _snippets_around. destruct (negb (nonempty text)); simpl; [lia|].
  etransitivity; [apply dedupe_length|apply snippets_loop_length].
Qed.

Lemma insert_sorted_perm {A} (before : A -> A -> bool) (x : A) (l : list A) :
  Permutation (insert_sorted before x l) (x :: l).
Proof.
  induction l as [|y r IH]; simpl; [reflexivity|].
  destruct (before x y); [reflexivity|].
  rewrite IH. apply perm_swap.
Qed.

(** [sorted] rearranges and loses nothing. *)
Lemma sorted_by_perm {A} (before : A -> A -> bool) (l : list A) :
  Permutation (sorted_by before l) l.
Proof.
  unfold sorted_by.
  assert (H : forall acc, Permutation (fold_left (fun acc x => insert_sorted before x acc) l acc)
                            (l ++ acc)).
  { induction l as [|x r IH]; intros acc; simpl; [reflexivity|].
    rewrite IH. rewrite insert_sorted_perm. symmetry. apply Permutation_middle. }
  rewrite H. now rewrite List.app_nil_r.
Qed.

Lemma NoDup_firstn {A} (n : nat) (l : list A) : List.NoDup l -> List.NoDup (firstn n l).
Proof.
  revert l. induction n as [|n IH]; intros [|x l] H; simpl; try constructor.
  - inversion H; subst. intros Hin. apply in_firstn in Hin. contradiction.
  - inversion H; subst. now apply IH.
Qed.

Lemma count_up_keys (k : string) (counts : list (string * nat)) :
  (forall u, List.In u (List.map fst (count_up k counts)) <->
             u = k \/ List.In u (List.map fst counts)) /\
  (List.NoDup (List.map fst counts) -> List.NoDup (List.map fst (count_up k counts))).
Proof using Type.
  clear soup_of urlparse urlunparse urljoin find_emails find_phones.
  induction counts as [|[k' n] r [IH1 IH2]]; simpl.
  - split; [intros u; intuition congruence|]. intros _. repeat constructor. intros [].
  - destruct (String.eqb k k') eqn:E; simpl.
    + apply String.eqb_eq in E. subst k'. split; [intros u; intuition congruence|auto].
    + apply String.eqb_neq in E. split.
      * intros u. rewrite IH1. intuition congruence.
      * intros H. inversion H as [|? ? Hn Hr]; subst. constructor; [|now apply IH2].
        rewrite IH1. intros [->|Hin]; [now apply E|now apply Hn].
Qed.

(** A link the page counts as navigation: an anchor inside a [nav] or
    [header] whose target, made absolute, lies on the page's domain. *)
Definition nav_link (soup : Soup) (base_url domain u : string) : Prop :=
  exists href, List.In (href, true) (anchors soup) /\ skipped_href href = false /\
               _is_same_domain (urljoin base_url href) domain = true /\
               u = without_fragment (urljoin base_url href).

Lemma count_links_nav (base_url domain : string) (P : string -> Prop)
    (l : list (string * bool)) (counts nav_counts : list (string * nat)) :
  (forall href, List.In (href, true) l -> skipped_href href = false ->
     _is_same_domain (urljoin base_url href) domain = true ->
     P (without_fragment (urljoin base_url href))) ->
  List.NoDup (List.map fst nav_counts) ->
  (forall u, List.In u (List.map fst nav_counts) -> P u) ->
  let nav := snd (count_links base_url domain l counts nav_counts) in
  List.NoDup (List.map fst nav) /\ forall u, List.In u (List.map fst nav) -> P u.
Proof using Type.
  revert counts nav_counts. induction l as [|[href is_nav] r IH];
    intros counts nav_counts Hl Hnd Hp; simpl; [auto|].
  assert (Hr : forall h, List.In (h, true) r -> skipped_href h = false ->
                 _is_same_domain (urljoin base_url h) domain = true ->
                 P (without_fragment (urljoin base_url h)))
    by (intros h Hh; apply Hl; now right).
  destruct (skipped_href href) eqn:Hs; [now apply IH|].
  destruct (_is_same_domain (urljoin base_url href) domain) eqn:Hd; simpl; [|now apply IH].
  destruct is_nav; [|now apply IH].
  apply IH; [exact Hr| |].
  - now apply count_up_keys.
  - intros u Hu. apply count_up_keys in Hu. destruct Hu as [->|Hu]; [|now apply Hp].
    apply Hl; [now left|exact Hs|exact Hd].
Qed.

Lemma extract_internal_links_nav (soup : Soup) (base_url domain : string) :
  let nav_top := snd (_extract_internal_links soup base_url domain) in
  (List.length nav_top <= 15)%nat /\ List.NoDup nav_top /\
  forall u, List.In u nav_top -> nav_link soup base_url domain u.
Proof.
  unfold _extract_internal_links.
  pose proof (count_links_nav base_url domain (nav_link soup base_url domain)
                (anchors soup) [] []) as H.
  destruct (count_links base_url domain (anchors soup) [] []) as [counts nav] eqn:E.
  cbn [snd] in *.
  destruct H as [Hnd Hp].
  { intros href Hin Hs Hd. exists href. auto. }
  { constructor. }
  { intros u []. }
  assert (Hperm : Permutation (List.map fst (sorted_by more_linked nav)) (List.map fst nav))
    by (apply Permutation_map, sorted_by_perm).
  split; [|split].
  - rewrite List.length_map. etransitivity; [apply List.firstn_le_length|lia].
  - rewrite <- List.firstn_map. apply NoDup_firstn.
    apply (Permutation_NoDup (l := List.map fst nav)); [now symmetry|exact Hnd].
  - intros u Hu. apply Hp. rewrite <- List.firstn_map in Hu. apply in_firstn in Hu.
    apply (Permutation_in _ Hperm). exact Hu.
Qed.

Lemma or_str_nonempty (x : option string) (d : string) :
  nonempty d = true -> nonempty (or_str x d) = true.
Proof. intros H. destruct x as [[|c r]|]; simpl; auto. Qed.

(** X14.  Every list of a page block is capped (20 headings, 10 calls to
    action, 20 structured-data types, 6 JSON-LD objects, 10 navigation links,
    2 pricing and 2 contact snippets, 3 e-mail addresses, 3 telephone numbers,
    5 locations), and language and h1 are never empty.  The navigation links
    are pairwise distinct, and each is the target, without its fragment, of
    an anchor inside [nav] or [header] that stays on the page's domain.  A
    page without HTML has no call to action and no internal link. *)
Theorem extract_page_bounds (page : ScrapedPage) :
  let b := extract_page page in
  ((List.length (headings b) <= 20)%nat /\ (List.length (cta_detected b) <= 10)%nat /\
   (List.length (structured_data_types b) <= 20)%nat /\ (List.length (jsonld b) <= 6)%nat /\
   (List.length (internal_links_top b) <= 10)%nat) /\
  ((List.length (pricing_snippets (signals b)) <= 2)%nat /\
   (List.length (contact_snippets (signals b)) <= 2)%nat /\
   (List.length (emails_detected (signals b)) <= 3)%nat /\
   (List.length (phones_detected (signals b)) <= 3)%nat /\
   (List.length (sig_locations_detected (signals b)) <= 5)%nat) /\
  (nonempty (language b) = true /\ nonempty (h1 b) = true) /\
  (List.NoDup (internal_links_top b) /\
   forall u, List.In u (internal_links_top b) ->
     nav_link (soup_of (html_content page)) (url page) (domain page) u) /\
  (html_content page = EmptyString ->
   cta_detected b = [] /\ internal_links_top b = [] /\ internal_links_unique b = 0%nat).
Proof.
  intros b. subst b. unfold extract_page, _extract_headings.
  destruct (nonempty (html_content page)) eqn:Hh.
  - pose proof (extract_internal_links_nav (soup_of (html_content page)) (url page)
                  (domain page)) as Hnav.
    destruct (_extract_internal_links (soup_of (html_content page)) (url page) (domain page))
      as [ic nav]. cbn [snd] in Hnav. destruct Hnav as [_ [Hnd Hp]].
    cbn [headings cta_detected structured_data_types jsonld internal_links_top signals
         pricing_snippets contact_snippets emails_detected phones_detected
         sig_locations_detected language h1 internal_links_unique].
    split; [|split; [|split; [|split]]].
    + repeat split; try apply List.firstn_le_length.
    + repeat split; try apply List.firstn_le_length;
        apply (snippets_around_length _ _ 2).
    + split; apply or_str_nonempty; reflexivity.
    + split; [now apply NoDup_firstn|]. intros u Hu. apply Hp. now apply in_firstn in Hu.
    + intros He. rewrite He in Hh. discriminate.
  - cbn [headings cta_detected structured_data_types jsonld internal_links_top signals
         pricing_snippets contact_snippets emails_detected phones_detected
         sig_locations_detected language h1 internal_links_unique].
    split; [|split; [|split; [|split]]].
    + repeat split; try apply List.firstn_le_length; simpl; lia.
    + repeat split; try apply List.firstn_le_length;
        apply (snippets_around_length _ _ 2).
    + split; apply or_str_nonempty; reflexivity.
    + split; [constructor|intros u []].
    + intros _. repeat split; reflexivity.
Qed.

(** *** The company profile of any page list *)

Lemma count_nonempty_keys (l : list string) (acc : list (string * nat)) :
  List.NoDup (List.map fst acc) ->
  let counts := fold_left (fun counts u => if nonempty u then count_up u counts else counts)
                  l acc in
  List.NoDup (List.map fst counts) /\
  forall u, List.In u (List.map fst counts) ->
            List.In u (List.map fst acc) \/ (List.In u l /\ nonempty u = true).
Proof using Type.
  revert acc. induction l as [|x r IH]; intros acc Hnd; simpl; [auto|].
  destruct (nonempty x) eqn:Hx.
  - destruct (IH (count_up x acc)) as [A B]; [now apply count_up_keys|].
    split; [exact A|]. intros u Hu. destruct (B u Hu) as [Hin|[Hin Hn]].
    + apply count_up_keys in Hin. destruct Hin as [->|Hin]; [right|left]; auto.
    + right. auto.
  - destruct (IH acc Hnd) as [A B]. split; [exact A|].
    intros u Hu. destruct (B u Hu) as [Hin|[Hin Hn]]; [left|right]; auto.
Qed.

Lemma top_pages_spec (pages : list PageBlock) :
  (List.length (_top_pages pages) <= 10)%nat /\ List.NoDup (_top_pages pages) /\
  forall u, List.In u (_top_pages pages) ->
            nonempty u = true /\ exists b, List.In b pages /\ List.In u (internal_links_top b).
Proof using Type.
  unfold _top_pages.
  destruct (count_nonempty_keys (flat_map internal_links_top pages) []) as [A B];
    [constructor|].
  set (counts := fold_left _ _ _) in *.
  assert (Hperm : Permutation (List.map fst (sorted_by more_linked counts))
                    (List.map fst counts))
    by (apply Permutation_map, sorted_by_perm).
  split; [|split].
  - rewrite List.length_map. apply List.firstn_le_length.
  - rewrite <- List.firstn_map. apply NoDup_firstn.
    apply (Permutation_NoDup (l := List.map fst counts)); [now symmetry|exact A].
  - intros u Hu. rewrite <- List.firstn_map in Hu. apply in_firstn in Hu.
    apply (Permutation_in _ Hperm) in Hu.
    destruct (B u Hu) as [[]|[Hin Hn]]. split; [exact Hn|].
    apply List.in_flat_map in Hin. exact Hin.
Qed.

Lemma service_candidates_in (p : PageBlock) (x : string) :
  List.In x (service_candidates p) ->
  _norm_ws x = x /\ in_range 3 80 (String.length x) = true
  /\ str_in (lower x) generic_headings = false.
Proof using Type.
  unfold service_candidates. destruct (negb _); [intros []|].
  intros H. apply List.in_flat_map in H. destruct H as [c [_ Hc]].
  destruct (in_range 3 80 (String.length (_norm_ws c))
            && negb (str_in (lower (_norm_ws c)) generic_headings)) eqn:E; [|destruct Hc].
  destruct Hc as [<-|[]]. apply andb_true_iff in E. destruct E as [E1 E2].
  apply negb_true_iff in E2. split; [apply norm_ws_idempotent|auto].
Qed.

(** X15.  For every page list the company profile is populated and bounded:
    name, offer summary and language are non-empty strings; there are at most
    12 services, 10 locations and 10 top pages.  The services are pairwise
    distinct up to case, each 3 to 80 characters long and none a generic
    heading; the top pages are pairwise distinct, non-empty navigation links
    of the given pages. *)
Theorem build_company_profile_populated (pages : list PageBlock) (fallback_domain : string) :
  let p := build_company_profile pages fallback_domain in
  (nonempty (company_name p) = true /\ nonempty (primary_offer_summary p) = true /\
   nonempty (primary_language_detected p) = true) /\
  ((List.length (services_detected p) <= 12)%nat /\
   (List.length (locations_detected p) <= 10)%nat /\
   (List.length (top_pages p) <= 10)%nat) /\
  (List.NoDup (List.map lower (services_detected p)) /\
   forall s, List.In s (services_detected p) ->
     in_range 3 80 (String.length s) = true /\ str_in (lower s) generic_headings = false) /\
  (List.NoDup (top_pages p) /\
   forall u, List.In u (top_pages p) ->
     nonempty u = true /\ exists b, List.In b pages /\ List.In u (internal_links_top b)).
Proof using Type.
  intros p. subst p. unfold build_company_profile.
  cbn [company_name primary_offer_summary primary_language_detected services_detected
       locations_detected top_pages].
  destruct (top_pages_spec pages) as [T1 [T2 T3]].
  split; [|split; [|split; [|split; assumption]]].
  - split; [|split; apply or_str_nonempty; reflexivity].
    destruct (first_org_name _) as [[|c r]|]; try reflexivity;
      apply or_str_nonempty; reflexivity.
  - repeat split; try apply List.firstn_le_length. exact T1.
  - destruct (dedupe_keep_order_spec (flat_map service_candidates pages)) as [S [A _]].
    split.
    + rewrite <- List.firstn_map. now apply NoDup_firstn.
    + intros s Hs. apply in_firstn in Hs. apply (sublist_In _ _ _ S) in Hs.
      apply List.in_map_iff in Hs.
      destruct Hs as [x [<- Hx]]. apply List.in_flat_map in Hx.
      destruct Hx as [b [_ Hx]]. apply service_candidates_in in Hx.
      destruct Hx as [-> Hx]. exact Hx.
Qed.

End Extractor.

(** *** A one-page site *)

Definition home_html : string :=
  "<html lang=en><nav><a href=/team>Team</a></nav><h1>Example</h1></html>".

(** What BeautifulSoup finds in [home_html]. *)
Definition home_soup : Soup :=
  {| html_lang := Some "en"; ld_json := []; h1_text := Some "Example";
     h2_h3_texts := []; action_texts := ["Team"]; anchors := [("/team", true)] |}.

Definition site_soup (html : string) : Soup :=
  if String.eqb html home_html then home_soup else empty_soup.

Definition home_page (job : string) : ScrapedPage :=
  {| audit_job_id := job; url := "https://example.com"; domain := "example.com";
     is_target := true; html_content := home_html;
     text_content := "Welcome to Example."; title := "Example";
     meta_description := EmptyString; status_code := 200;
     content_type := "text/html"; word_count := 3;
     url_hash := job ++ ":https://example.com/" |}.

(** The layer of the extractor of [run_audit] ([max_pages=15]) with the
    stand-ins of the crawl for [urllib.parse] and no e-mail or telephone
    match. *)
Definition layer_of (pages : list ScrapedPage) (locale : option string) : EvidenceLayer :=
  build_evidence_layer site_soup simple_urlparse simple_urlunparse simple_urljoin
    (fun _ => []) (fun _ => []) {| max_pages := 15 |} pages "example.com" locale.

(** C3, as stated, fails: the only fetched page is the homepage, and the
    no_pricing item cites [/team], a navigation link that was never fetched. *)
Lemma no_pricing_cites_unfetched_page :
  exists e,
    List.In e (evidence (layer_of [home_page "job-1"] (Some "en-US"))) /\
    d_proof_type e = "no_pricing" /\
    d_source_urls e = ["https://example.com/team"] /\
    ~ List.In "https://example.com/team" (List.map url [home_page "job-1"]).
Proof.
  eexists. split; [vm_compute; left; reflexivity|].
  split; [reflexivity|]. split; [reflexivity|].
  simpl. intros [H|[]]. discriminate.
Qed.

Definition first_item (layer : EvidenceLayer) : EvidenceDict :=
  match evidence layer with
  | e :: _ => e
  | [] => {| d_claim := EmptyString; d_proof_type := EmptyString; d_source_urls := [];
             d_snippets := []; d_confidence := 0 |}
  end.

Lemma evidence_items_cite_and_bound_witness :
  let e := first_item (layer_of [home_page "job-1"] (Some "en-US")) in
  List.In e (evidence (layer_of [home_page "job-1"] (Some "en-US"))) /\
  (List.length (d_source_urls e) <= 3)%nat /\
  (List.length (d_snippets e) <= 3)%nat /\
  (0 <= d_confidence e)%Q /\ (d_confidence e <= 1)%Q.
Proof.
  assert (H : List.In (first_item (layer_of [home_page "job-1"] (Some "en-US")))
                (evidence (layer_of [home_page "job-1"] (Some "en-US"))))
    by (vm_compute; left; reflexivity).
  split; [exact H|].
  exact (proj2 (evidence_items_cite_and_bound site_soup simple_urlparse simple_urlunparse
                  simple_urljoin (fun _ => []) (fun _ => []) {| max_pages := 15 |}
                  [home_page "job-1"] "example.com" (Some "en-US") _ H)).
Defined.

(** C6, as stated, fails: with no page and no language detected, the
    language-mismatch and fragmented-content rules emit nothing; the catalog
    holds the three "not detected" items only. *)
Lemma silent_rules_on_empty_site :
  List.map outcome (evidence (layer_of [] (Some "en-US")))
  = [("no_pricing", 65 # 100); ("no_contact", 65 # 100); ("weak_entity_signals", 6 # 10)]
  /\ ~ List.In "language_mismatch"
         (List.map d_proof_type (evidence (layer_of [] (Some "en-US"))))
  /\ ~ List.In "fragmented_content"
         (List.map d_proof_type (evidence (layer_of [] (Some "en-US")))).
Proof.
  split; [vm_compute; reflexivity|].
  split; vm_compute; intros H; repeat (destruct H as [H|H]; [discriminate|]); exact H.
Qed.

(** Two loads of the same page row (as two jobs would store it) give the
    same layer. *)
Lemma build_evidence_layer_deterministic_witness :
  layer_of [home_page "job-1"] (Some "en-US") = layer_of [home_page "job-2"] (Some "en-US").
Proof.
  apply (build_evidence_layer_deterministic site_soup simple_urlparse simple_urlunparse
           simple_urljoin (fun _ => []) (fun _ => []) {| max_pages := 15 |}
           [home_page "job-1"] [home_page "job-2"] "example.com" (Some "en-US")).
  reflexivity.
Defined.

End Evidence.


Example norm_ws_example : Evidence._norm_ws "  a   b " = "a b".
Proof. reflexivity. Qed.

Example split_sentences_example :
  Evidence.split_sentences "One. Two! Three" = ["One."; "Two!"; "Three"].
Proof. reflexivity. Qed.

Example sorted_by_example :
  Evidence.sorted_by Evidence.better [(0, "bb"); (3, "ccc"); (3, "a"); (0, "dd")]%nat
  = [(3, "a"); (3, "ccc"); (0, "bb"); (0, "dd")]%nat.
Proof. reflexivity. Qed.

(** ** Page selection and the scraping summary ([llm_auditor.py]) *)

Module Auditor.

Import Crawl Evidence.

(** [s.endswith(suffix)] *)
Definition endswith (suffix s : string) : bool :=
  (String.length suffix <=? String.length s)%nat
  && String.eqb (drop (String.length s - String.length suffix) s) suffix.

Definition home_suffixes : list string := [".com"; ".cz"; ".io"; ".net"; ".org"].

Definition detect_page_type (page : ScrapedPage) : string :=
  let url_lower := lower (url page) in
  let title_lower := lower (title page) in
  if existsb (fun suffix => endswith suffix (rstrip_char "/"%char url_lower)) home_suffixes
  then "home"
  else if contains "about" url_lower || contains "about" title_lower then "about"
  else if contains "pricing" url_lower || contains "price" url_lower
          || contains "pricing" title_lower then "pricing"
  else if contains "service" url_lower || contains "services" title_lower then "service"
  else if contains "product" url_lower || contains "products" title_lower then "product"
  else if contains "case-stud" url_lower || contains "portfolio" url_lower then "case_study"
  else if contains "faq" url_lower || contains "faq" title_lower then "faq"
  else if contains "contact" url_lower || contains "contact" title_lower then "contact"
  else if contains "blog" url_lower || contains "article" url_lower then "blog"
  else "other".

Definition priority_types : list string :=
  ["home"; "about"; "pricing"; "service"; "case_study"].

Definition is_priority (page : ScrapedPage) : bool :=
  str_in (detect_page_type page) priority_types.

(** *** [select_representative_pages] *)

(** The two [where] clauses of the query. *)
Definition matches (job : string) (flag : bool) (p : ScrapedPage) : bool :=
  String.eqb (audit_job_id p) job && Bool.eqb (is_target p) flag.

Definition heavier (a b : ScrapedPage) : Prop := (word_count b <= word_count a)%nat.

(** What the database may answer to
    [select(ScrapedPage).where(...).where(...).order_by(word_count.desc()).limit(n)]:
    the first [n] of the matching rows in some order of descending word
    count; the order among rows of equal word count is the database's. *)
Definition query_result (db : table) (job : string) (flag : bool) (limit : nat)
    (rows : list ScrapedPage) : Prop :=
  exists ordered,
    Permutation ordered (List.filter (matches job flag) db) /\
    StronglySorted heavier ordered /\
    rows = firstn limit ordered.

(** The loop over [all_pages] and the two slices. *)
Definition pick (all_pages : list ScrapedPage) (max_pages : nat) : list ScrapedPage :=
  let priority_pages := List.filter is_priority all_pages in
  let other_pages := List.filter (fun p => negb (is_priority p)) all_pages in
  let selected := firstn 10 priority_pages ++ firstn 5 other_pages in
  firstn max_pages selected.

Definition select_representative_pages (db : table) (job : string) (flag : bool)
    (max_pages : nat) (selected : list ScrapedPage) : Prop :=
  exists all_pages,
    query_result db job flag (max_pages * 2) all_pages /\ selected = pick all_pages max_pages.

(** *** [build_scraping_summary] *)

Record ScrapingSummary := {
  pages_fetched_target : nat;
  top_page_types_detected : list string;
  has_pricing_page : bool;
  has_about_page : bool;
  has_contact_page : bool;
  has_testimonials_or_reviews : bool;
  has_case_studies : bool;
  service_area_clarity : string;
  trust_signals_found : list string
}.

(** The variables of the first loop. *)
Record Tally := {
  page_types : list (string * nat);
  has_pricing : bool;
  has_about : bool;
  has_contact : bool;
  has_testimonials : bool;
  has_case : bool;
  trust_signals : list string
}.

Definition empty_tally : Tally :=
  {| page_types := []; has_pricing := false; has_about := false; has_contact := false;
     has_testimonials := false; has_case := false; trust_signals := [] |}.

(** [if key not in trust_signals: trust_signals.append(entry)] *)
Definition append_unless (key entry : string) (trust : list string) : list string :=
  if negb (str_in key trust) then trust ++ [entry] else trust.

(** The body of the first loop. *)
Definition tally_page (t : Tally) (page : ScrapedPage) : Tally :=
  let page_type := detect_page_type page in
  let text_lower := lower (text_content page) in
  let seen_reviews := contains "testimonial" text_lower || contains "review" text_lower in
  let trust := trust_signals t in
  let trust := if seen_reviews
               then append_unless "testimonials" "testimonials/reviews found" trust
               else trust in
  let trust := if contains "certified" text_lower || contains "certification" text_lower
               then append_unless "certifications" "certifications mentioned" trust
               else trust in
  let trust := if contains "guarantee" text_lower
               then append_unless "guarantees" "guarantees mentioned" trust
               else trust in
  let trust := if contains "years" text_lower && contains "experience" text_lower
               then append_unless "experience" "years of experience mentioned" trust
               else trust in
  {| page_types := count_up page_type (page_types t);
     has_pricing := has_pricing t || String.eqb page_type "pricing";
     has_about := has_about t
                  || (negb (String.eqb page_type "pricing") && String.eqb page_type "about");
     has_contact := has_contact t
                    || (negb (String.eqb page_type "pricing")
                        && negb (String.eqb page_type "about")
                        && String.eqb page_type "contact");
     has_testimonials := has_testimonials t || seen_reviews;
     has_case := has_case t
                 || (negb (String.eqb page_type "pricing")
                     && negb (String.eqb page_type "about")
                     && negb (String.eqb page_type "contact")
                     && String.eqb page_type "case_study");
     trust_signals := trust |}.

Definition high_keywords : list string :=
  ["we serve"; "service area"; "locations"; "cities we serve"].
Definition medium_keywords : list string := ["local"; "area"; "region"].

Definition mentions (keywords : list string) (page : ScrapedPage) : bool :=
  existsb (fun keyword => contains keyword (lower (text_content page))) keywords.

(** The second loop, from the value [clarity] has so far. *)
Fixpoint clarity_loop (clarity : string) (pages : list ScrapedPage) : string :=
  match pages with
  | [] => clarity
  | page :: rest =>
      if mentions high_keywords page then "high"
      else if mentions medium_keywords page then clarity_loop "medium" rest
      else clarity_loop clarity rest
  end.

(** The key [-count] of the ranking of page types. *)
Definition more_pages (a b : string * nat) : bool := (snd b <? snd a)%nat.

Definition build_scraping_summary (target_pages : list ScrapedPage) : ScrapingSummary :=
  let t := fold_left tally_page target_pages empty_tally in
  {| pages_fetched_target := List.length target_pages;
     top_page_types_detected := List.map fst (firstn 5 (sorted_by more_pages (page_types t)));
     has_pricing_page := has_pricing t;
     has_about_page := has_about t;
     has_contact_page := has_contact t;
     has_testimonials_or_reviews := has_testimonials t;
     has_case_studies := has_case t;
     service_area_clarity := clarity_loop "low" target_pages;
     trust_signals_found := firstn 10 (trust_signals t) |}.

(** *** What a selection holds *)

Lemma filter_sublist {A} (f : A -> bool) (l : list A) : sublist (List.filter f l) l.
Proof.
  induction l as [|x r IH]; simpl; [constructor|].
  destruct (f x); [now apply sublist_skip|now apply sublist_cons].
Qed.

Lemma filter_split_perm {A} (f : A -> bool) (l : list A) :
  Permutation (List.filter f l ++ List.filter (fun x => negb (f x)) l) l.
Proof.
  induction l as [|x r IH]; simpl; [reflexivity|].
  destruct (f x); simpl.
  - now constructor.
  - rewrite <- Permutation_middle. now constructor.
Qed.

Lemma sublist_sorted {A} (R : A -> A -> Prop) (l1 l2 : list A) :
  sublist l1 l2 -> StronglySorted R l2 -> StronglySorted R l1.
Proof.
  induction 1 as [|y l1 l2 Hs IH|y l1 l2 Hs IH]; intros H; [constructor| |].
  - inversion H as [|? ? Hr Hf]; subst. constructor; [now apply IH|].
    apply List.Forall_forall. intros x Hx.
    apply (proj1 (List.Forall_forall _ _) Hf). now apply (sublist_In l1 l2).
  - inversion H; subst. now apply IH.
Qed.

Lemma firstn_sublist {A} (n : nat) (l : list A) : sublist (firstn n l) l.
Proof.
  revert l. induction n as [|n IH]; intros [|x l]; simpl; try constructor.
  - apply sublist_nil_l.
  - apply IH.
Qed.

Lemma filter_all {A} (f : A -> bool) (l : list A) :
  List.Forall (fun x => f x = true) (List.filter f l).
Proof.
  apply List.Forall_forall. intros x Hx. now apply List.filter_In in Hx.
Qed.

Lemma sublist_all {A} (P : A -> Prop) (l1 l2 : list A) :
  sublist l1 l2 -> List.Forall P l2 -> List.Forall P l1.
Proof.
  intros Hs H. apply List.Forall_forall. intros x Hx.
  apply (proj1 (List.Forall_forall _ _) H). now apply (sublist_In l1 l2).
Qed.

Lemma pick_submseteq (all_pages : list ScrapedPage) (max_pages : nat) :
  pick all_pages max_pages ⊆+ all_pages.
Proof.
  unfold pick. rewrite <- (filter_split_perm is_priority all_pages) at 3.
  etransitivity; [apply sublist_submseteq, firstn_sublist|].
  apply submseteq_app; apply sublist_submseteq, firstn_sublist.
Qed.

Lemma pick_length (all_pages : list ScrapedPage) (max_pages : nat) :
  (List.length (pick all_pages max_pages) <= Nat.min max_pages 15)%nat.
Proof.
  unfold pick. rewrite List.length_firstn, List.length_app, !List.length_firstn. lia.
Qed.

(** The selected pages are rows of the job with the requested flag. *)
Lemma selected_rows (db : table) (job : string) (flag : bool) (max_pages : nat)
    (selected : list ScrapedPage) :
  select_representative_pages db job flag max_pages selected ->
  selected ⊆+ List.filter (matches job flag) db /\
  forall p, List.In p selected ->
    List.In p db /\ audit_job_id p = job /\ is_target p = flag.
Proof.
  intros [all_pages [[ordered [Hperm [Hsorted ->]]] ->]].
  assert (Hsub : pick (firstn (max_pages * 2) ordered) max_pages
                 ⊆+ List.filter (matches job flag) db).
  { rewrite <- Hperm. etransitivity; [apply pick_submseteq|].
    apply sublist_submseteq, firstn_sublist. }
  split; [exact Hsub|].
  intros p Hp.
  assert (Hin : List.In p (List.filter (matches job flag) db)).
  { apply list_elem_of_In. eapply elem_of_submseteq; [|exact Hsub].
    now apply list_elem_of_In. }
  apply List.filter_In in Hin. destruct Hin as [Hdb Hm].
  unfold matches in Hm. apply andb_true_iff in Hm. destruct Hm as [Hj Hf].
  apply String.eqb_eq in Hj. apply Bool.eqb_prop in Hf. auto.
Qed.

(** X16.  A selection holds at most [max_pages] and at most 15 pages, all of
    them rows of the job with the requested target flag, and no row more
    often than the table has it.  It is a block of at most 10 priority pages
    (home, about, pricing, service, case study) followed by a block of at
    most 5 other pages, each block in descending order of word count. *)
Theorem select_representative_pages_spec (db : table) (job : string) (flag : bool)
    (max_pages : nat) (selected : list ScrapedPage) :
  select_representative_pages db job flag max_pages selected ->
  (List.length selected <= Nat.min max_pages 15)%nat /\
  selected ⊆+ List.filter (matches job flag) db /\
  (forall p, List.In p selected ->
     List.In p db /\ audit_job_id p = job /\ is_target p = flag) /\
  exists priority other,
    selected = priority ++ other /\
    (List.length priority <= 10)%nat /\ (List.length other <= 5)%nat /\
    List.Forall (fun p => is_priority p = true) priority /\
    List.Forall (fun p => is_priority p = false) other /\
    StronglySorted heavier priority /\ StronglySorted heavier other.
Proof.
  intros Hsel. destruct (selected_rows _ _ _ _ _ Hsel) as [Hsub Hrows].
  destruct Hsel as [all_pages [[ordered [Hperm [Hsorted ->]]] ->]].
  set (all_pages := firstn (max_pages * 2) ordered) in *.
  split; [apply pick_length|]. split; [exact Hsub|]. split; [exact Hrows|].
  clear Hsub Hrows. unfold pick.
  set (P := List.filter is_priority all_pages).
  set (O := List.filter (fun p => negb (is_priority p)) all_pages).
  assert (Hall : sublist all_pages ordered) by apply firstn_sublist.
  assert (HP : sublist (firstn 10 P) all_pages).
  { etransitivity; [apply firstn_sublist|apply filter_sublist]. }
  assert (HO : sublist (firstn 5 O) all_pages).
  { etransitivity; [apply firstn_sublist|apply filter_sublist]. }
  rewrite List.firstn_app.
  exists (firstn max_pages (firstn 10 P)),
    (firstn (max_pages - List.length (firstn 10 P)) (firstn 5 O)).
  split; [reflexivity|].
  split; [rewrite !List.length_firstn; lia|].
  split; [rewrite !List.length_firstn; lia|].
  split; [|split; [|split]].
  - apply (sublist_all _ _ P); [|apply filter_all].
    etransitivity; apply firstn_sublist.
  - apply (sublist_all _ _ O).
    + etransitivity; apply firstn_sublist.
    + apply List.Forall_forall. intros x Hx. apply List.filter_In in Hx.
      destruct Hx as [_ Hx]. now apply negb_true_iff in Hx.
  - apply (sublist_sorted _ _ ordered); [|exact Hsorted].
    etransitivity; [apply firstn_sublist|]. now transitivity all_pages.
  - apply (sublist_sorted _ _ ordered); [|exact Hsorted].
    etransitivity; [apply firstn_sublist|]. now transitivity all_pages.
Qed.

(** *** The pages of an audit and its evidence *)

Section Sampled.

Variable soup_of : string -> Soup.
Variable urlparse : string -> option ParseResult.
Variable urlunparse : string -> string -> string -> string -> string -> string -> string.
Variable urljoin : string -> string -> string.
Variable find_emails : string -> list string.
Variable find_phones : string -> list string.

(** [EvidenceExtractor(max_pages=15).build_evidence_layer(pages=target_pages, ...)] *)
Definition audit_layer (target_pages : list ScrapedPage) (target_domain : string)
    (locale : option string) : EvidenceLayer :=
  build_evidence_layer soup_of urlparse urlunparse urljoin find_emails find_phones
    {| max_pages := 15 |} target_pages target_domain locale.

(** [sampled_urls = [p.url for p in target_pages[:10]]] *)
Definition sampled_urls (target_pages : list ScrapedPage) : list string :=
  List.map url (firstn 10 target_pages).

(** X17.  In [run_audit] the extractor's budget of 15 covers the whole
    selection: every selected target page gets a page block, in the order of
    the selection, and every sampled URL is the URL of a block.  An evidence
    item therefore cites only stored pages of this job that carry the target
    flag (never a competitor page), apart from the top pages cited by the
    no_pricing and no_contact items. *)
Theorem audit_evidence_from_target_pages (db : table) (job : string)
    (target_pages : list ScrapedPage) (target_domain : string) (locale : option string) :
  select_representative_pages db job true 15 target_pages ->
  let layer := audit_layer target_pages target_domain locale in
  List.map pb_url (page_blocks layer) = List.map url target_pages /\
  (forall u, List.In u (sampled_urls target_pages) ->
             List.In u (List.map pb_url (page_blocks layer))) /\
  forall e u, List.In e (evidence layer) -> List.In u (d_source_urls e) ->
    (exists p, List.In p db /\ audit_job_id p = job /\ is_target p = true /\
               u = _norm_ws (url p))
    \/ (List.In (d_proof_type e) ["no_pricing"; "no_contact"] /\
        exists v, List.In v (top_pages (company_profile layer)) /\ u = _norm_ws v).
Proof.
  intros Hsel layer.
  destruct (selected_rows _ _ _ _ _ Hsel) as [_ Hrows].
  assert (Hlen : (List.length target_pages <= 15)%nat).
  { destruct Hsel as [all_pages [_ ->]].
    pose proof (pick_length all_pages 15). lia. }
  assert (Hblocks : page_blocks layer = List.map (extract_page soup_of urlparse urlunparse
                                                    urljoin find_emails find_phones)
                                          target_pages).
  { unfold layer, audit_layer, build_evidence_layer, extract_pages.
    cbn [page_blocks max_pages]. now rewrite List.firstn_all2 by exact Hlen. }
  assert (Hurls : List.map pb_url (page_blocks layer) = List.map url target_pages).
  { rewrite Hblocks, List.map_map. apply List.map_ext. intros p. apply extract_page_url. }
  split; [exact Hurls|]. split.
  - intros u Hu. rewrite Hurls. unfold sampled_urls in Hu.
    apply List.in_map_iff in Hu. destruct Hu as [p [<- Hp]].
    apply List.in_map. now apply in_firstn in Hp.
  - intros e u He Hu.
    unfold layer, audit_layer, build_evidence_layer in He. cbn [evidence] in He.
    apply List.in_map_iff in He. destruct He as [item [<- Hitem]].
    cbn [to_dict d_source_urls d_proof_type] in *. apply in_firstn in Hu.
    destruct (evidence_item_sources soup_of urlparse urlunparse urljoin find_emails
                find_phones _ _ _ _ _ Hitem Hu) as [[x [Hx ->]]|Htop].
    + left. apply List.in_map_iff in Hx. destruct Hx as [b [<- Hb]].
      unfold extract_pages in Hb. apply List.in_map_iff in Hb.
      destruct Hb as [p [<- Hp]]. apply in_firstn in Hp.
      exists p. rewrite extract_page_url.
      destruct (Hrows p Hp) as [A [B C]]. auto.
    + right. exact Htop.
Qed.

End Sampled.

(** *** The scraping summary *)

(** The entries one page contributes to the trust signals. *)
Definition page_signals (page : ScrapedPage) : list string :=
  let text_lower := lower (text_content page) in
  (if contains "testimonial" text_lower || contains "review" text_lower
   then ["testimonials/reviews found"] else [])
  ++ (if contains "certified" text_lower || contains "certification" text_lower
      then ["certifications mentioned"] else [])
  ++ (if contains "guarantee" text_lower then ["guarantees mentioned"] else [])
  ++ (if contains "years" text_lower && contains "experience" text_lower
      then ["years of experience mentioned"] else []).

Definition trust_entries : list string :=
  ["testimonials/reviews found"; "certifications mentioned"; "guarantees mentioned";
   "years of experience mentioned"].

Definition trust_keys : list string :=
  ["testimonials"; "certifications"; "guarantees"; "experience"].

(** No guard of the first loop ever finds its key: the list holds the
    entries, never the keys. *)
Lemma append_unless_appends (key entry : string) (trust : list string) :
  List.In key trust_keys -> List.Forall (fun x => List.In x trust_entries) trust ->
  append_unless key entry trust = trust ++ [entry].
Proof.
  intros Hk Ht. unfold append_unless.
  assert (H : str_in key trust = false).
  { unfold str_in. induction Ht as [|x r Hx _ IH]; [reflexivity|]. simpl. rewrite IH.
    rewrite orb_false_r. simpl in Hk, Hx.
    destruct Hk as [<-|[<-|[<-|[<-|[]]]]]; destruct Hx as [<-|[<-|[<-|[<-|[]]]]];
      reflexivity. }
  now rewrite H.
Qed.

Lemma guarded_append (cond : bool) (key entry : string) (trust : list string) :
  List.In key trust_keys -> List.In entry trust_entries ->
  List.Forall (fun x => List.In x trust_entries) trust ->
  (if cond then append_unless key entry trust else trust)
  = trust ++ (if cond then [entry] else []) /\
  List.Forall (fun x => List.In x trust_entries) (trust ++ (if cond then [entry] else [])).
Proof.
  intros Hk He Ht. destruct cond.
  - split; [now apply append_unless_appends|].
    apply List.Forall_app. split; [exact Ht|]. constructor; [exact He|constructor].
  - rewrite List.app_nil_r. now split.
Qed.

Lemma tally_page_trust (t : Tally) (page : ScrapedPage) :
  List.Forall (fun x => List.In x trust_entries) (trust_signals t) ->
  trust_signals (tally_page t page) = trust_signals t ++ page_signals page /\
  List.Forall (fun x => List.In x trust_entries) (trust_signals (tally_page t page)).
Proof.
  intros Ht. unfold tally_page, page_signals. cbn [trust_signals].
  set (text_lower := lower (text_content page)).
  set (c1 := contains "testimonial" text_lower || contains "review" text_lower).
  set (c2 := contains "certified" text_lower || contains "certification" text_lower).
  set (c3 := contains "guarantee" text_lower).
  set (c4 := contains "years" text_lower && contains "experience" text_lower).
  set (T := trust_signals t) in *.
  destruct (guarded_append c1 "testimonials" "testimonials/reviews found" T
              (or_introl eq_refl) (or_introl eq_refl) Ht) as [E1 F1].
  rewrite E1.
  destruct (guarded_append c2 "certifications" "certifications mentioned" _
              (or_intror (or_introl eq_refl)) (or_intror (or_introl eq_refl)) F1)
    as [E2 F2].
  rewrite E2.
  destruct (guarded_append c3 "guarantees" "guarantees mentioned" _
              (or_intror (or_intror (or_introl eq_refl)))
              (or_intror (or_intror (or_introl eq_refl))) F2) as [E3 F3].
  rewrite E3.
  destruct (guarded_append c4 "experience" "years of experience mentioned" _
              (or_intror (or_intror (or_intror (or_introl eq_refl))))
              (or_intror (or_intror (or_intror (or_introl eq_refl)))) F3) as [E4 F4].
  rewrite E4.
  split; [now rewrite <- !List.app_assoc|exact F4].
Qed.

Lemma tally_trust (pages : list ScrapedPage) (t : Tally) :
  List.Forall (fun x => List.In x trust_entries) (trust_signals t) ->
  trust_signals (fold_left tally_page pages t)
  = trust_signals t ++ flat_map page_signals pages.
Proof.
  revert t. induction pages as [|page rest IH]; intros t Ht; simpl.
  - now rewrite List.app_nil_r.
  - destruct (tally_page_trust t page Ht) as [He Hf].
    rewrite IH by exact Hf. rewrite He. now rewrite <- List.app_assoc.
Qed.

(** X18.  The trust signals of the summary are the entries of the pages in
    page order, one per page and kind of signal, cut at 10: the guards of the
    loop look for keys the list never holds, so an entry is repeated for
    every page that shows the signal. *)
Theorem trust_signals_repeat (target_pages : list ScrapedPage) :
  trust_signals_found (build_scraping_summary target_pages)
  = firstn 10 (flat_map page_signals target_pages).
Proof.
  unfold build_scraping_summary. cbn [trust_signals_found].
  rewrite tally_trust by constructor. reflexivity.
Qed.

Lemma clarity_loop_spec (clarity : string) (pages : list ScrapedPage) :
  clarity_loop clarity pages
  = if existsb (mentions high_keywords) pages then "high"
    else if existsb (mentions medium_keywords) pages then "medium"
    else clarity.
Proof.
  revert clarity. induction pages as [|page rest IH]; intros clarity;
    cbn [clarity_loop existsb]; [reflexivity|].
  destruct (mentions high_keywords page); cbn [orb]; [reflexivity|].
  destruct (mentions medium_keywords page); cbn [orb]; rewrite IH; [|reflexivity].
  destruct (existsb (mentions high_keywords) rest); [reflexivity|].
  now destruct (existsb (mentions medium_keywords) rest).
Qed.

Definition of_type (ty : string) (page : ScrapedPage) : bool :=
  String.eqb (detect_page_type page) ty.

Definition shows_reviews (page : ScrapedPage) : bool :=
  contains "testimonial" (lower (text_content page))
  || contains "review" (lower (text_content page)).

Lemma tally_flags (pages : list ScrapedPage) (t : Tally) :
  let t' := fold_left tally_page pages t in
  has_pricing t' = (has_pricing t || existsb (of_type "pricing") pages) /\
  has_about t' = (has_about t || existsb (of_type "about") pages) /\
  has_contact t' = (has_contact t || existsb (of_type "contact") pages) /\
  has_case t' = (has_case t || existsb (of_type "case_study") pages) /\
  has_testimonials t' = (has_testimonials t || existsb shows_reviews pages).
Proof.
  revert t. induction pages as [|page rest IH]; intros t; simpl.
  - now rewrite !orb_false_r.
  - destruct (IH (tally_page t page)) as [A [B [C [D E]]]].
    rewrite A, B, C, D, E. unfold tally_page, of_type, shows_reviews.
    cbn [has_pricing has_about has_contact has_case has_testimonials].
    rewrite <- !orb_assoc.
    repeat split; try reflexivity;
      destruct (String.eqb (detect_page_type page) "pricing") eqn:E1;
      destruct (String.eqb (detect_page_type page) "about") eqn:E2;
      destruct (String.eqb (detect_page_type page) "contact") eqn:E3;
      try reflexivity;
      apply String.eqb_eq in E1 || apply String.eqb_eq in E2 || apply String.eqb_eq in E3;
      try (rewrite E1 in *; discriminate); try (rewrite E2 in *; discriminate);
      try (rewrite E3 in *; discriminate);
      try (rewrite E1; reflexivity); try (rewrite E2; reflexivity);
      try (rewrite E3; reflexivity).
Qed.

Lemma tally_types (pages : list ScrapedPage) (t : Tally) :
  List.NoDup (List.map fst (page_types t)) ->
  let t' := fold_left tally_page pages t in
  List.NoDup (List.map fst (page_types t')) /\
  forall ty, List.In ty (List.map fst (page_types t')) <->
             List.In ty (List.map fst (page_types t))
             \/ exists page, List.In page pages /\ detect_page_type page = ty.
Proof.
  revert t. induction pages as [|page rest IH]; intros t Hnd; cbn [fold_left].
  - split; [exact Hnd|]. intros ty. split; [auto|]. intros [H|[p [[] _]]]. exact H.
  - destruct (IH (tally_page t page)) as [A B].
    { unfold tally_page. cbn [page_types]. now apply (proj2 (count_up_keys _ _)). }
    split; [exact A|]. intros ty. rewrite B. unfold tally_page. cbn [page_types].
    rewrite (proj1 (count_up_keys _ _)). split.
    + intros [[-> | H] | [p [Hp Ht]]]; [right; exists page; split; [now left|reflexivity]|now left|].
      right. exists p. split; [now right|exact Ht].
    + intros [H | [p [[<- | Hp] Ht]]]; [left; now right|left; left; now symmetry|].
      right. exists p. auto.
Qed.

(** X19.  What the summary says about the pages: the page count is the
    number of pages; each page flag holds exactly when some page has that
    type, and the review flag exactly when some text mentions a testimonial
    or a review; the clarity is "high" when some page names a service area,
    else "medium" when some page has one of the weaker keywords, else "low",
    whatever the order of the pages; and the page types listed are at most 5,
    pairwise distinct, each the type of some page. *)
Theorem build_scraping_summary_spec (target_pages : list ScrapedPage) :
  let s := build_scraping_summary target_pages in
  pages_fetched_target s = List.length target_pages /\
  (has_pricing_page s = existsb (of_type "pricing") target_pages /\
   has_about_page s = existsb (of_type "about") target_pages /\
   has_contact_page s = existsb (of_type "contact") target_pages /\
   has_case_studies s = existsb (of_type "case_study") target_pages /\
   has_testimonials_or_reviews s = existsb shows_reviews target_pages) /\
  service_area_clarity s
  = (if existsb (mentions high_keywords) target_pages then "high"
     else if existsb (mentions medium_keywords) target_pages then "medium"
     else "low") /\
  ((List.length (top_page_types_detected s) <= 5)%nat /\
   List.NoDup (top_page_types_detected s) /\
   forall ty, List.In ty (top_page_types_detected s) ->
              exists page, List.In page target_pages /\ detect_page_type page = ty).
Proof.
  intros s. subst s. unfold build_scraping_summary.
  cbn [pages_fetched_target has_pricing_page has_about_page has_contact_page
       has_case_studies has_testimonials_or_reviews service_area_clarity
       top_page_types_detected].
  split; [reflexivity|]. split; [|split; [apply clarity_loop_spec|]].
  - destruct (tally_flags target_pages empty_tally) as [A [B [C [D E]]]].
    rewrite A, B, C, D, E. repeat split; reflexivity.
  - destruct (tally_types target_pages empty_tally) as [A B]; [constructor|].
    set (types := page_types (fold_left tally_page target_pages empty_tally)) in *.
    assert (Hperm : Permutation (List.map fst (sorted_by more_pages types))
                      (List.map fst types))
      by (apply Permutation_map, sorted_by_perm).
    split; [|split].
    + rewrite List.length_map. apply List.firstn_le_length.
    + rewrite <- List.firstn_map. apply NoDup_firstn.
      apply (Permutation_NoDup (l := List.map fst types)); [now symmetry|exact A].
    + intros ty Hty. rewrite <- List.firstn_map in Hty. apply in_firstn in Hty.
      apply (Permutation_in _ Hperm) in Hty. apply B in Hty.
      destruct Hty as [[]|H]. exact H.
Qed.

(** *** A table of two jobs *)

Definition page_row (job u : string) (target : bool) (words : nat) : ScrapedPage :=
  {| audit_job_id := job; url := u; domain := "example.com"; is_target := target;
     html_content := EmptyString; text_content := EmptyString; title := EmptyString;
     meta_description := EmptyString; status_code := 200; content_type := "text/html";
     word_count := words; url_hash := (job ++ ":" ++ u)%string |}.

Definition blog_row : ScrapedPage := page_row "job-1" "https://example.com/blog" true 5.
Definition rival_row : ScrapedPage := page_row "job-1" "https://rival.com" false 50.
Definition home_row : ScrapedPage := page_row "job-1" "https://example.com" true 3.
Definition other_job_row : ScrapedPage := page_row "job-2" "https://example.com" true 30.
Definition pricing_row : ScrapedPage :=
  page_row "job-1" "https://example.com/pricing" true 9.

(** Three target pages of job 1, a competitor page of job 1 and a page of
    job 2. *)
Definition sample_table : table :=
  [blog_row; rival_row; home_row; other_job_row; pricing_row].

(** The selection for job 1: the pricing page and the homepage (priority
    pages, by word count), then the blog page. *)
Lemma sample_selection :
  select_representative_pages sample_table "job-1" true 15
    [pricing_row; home_row; blog_row].
Proof.
  exists [pricing_row; blog_row; home_row]. split; [|vm_compute; reflexivity].
  exists [pricing_row; blog_row; home_row]. split; [|split; [|reflexivity]].
  - change (List.filter (matches "job-1" true) sample_table)
      with ([blog_row; home_row] ++ [pricing_row]).
    apply (Permutation_cons_append [blog_row; home_row] pricing_row).
  - repeat constructor; unfold heavier; simpl; lia.
Qed.

Lemma select_representative_pages_spec_witness :
  (List.length [pricing_row; home_row; blog_row] <= Nat.min 15 15)%nat /\
  [pricing_row; home_row; blog_row]
  ⊆+ List.filter (matches "job-1" true) sample_table.
Proof.
  destruct (select_representative_pages_spec _ _ _ _ _ sample_selection)
    as [Hlen [Hsub _]].
  split; [exact Hlen|exact Hsub].
Defined.

Lemma audit_evidence_from_target_pages_witness :
  List.map pb_url
    (page_blocks (audit_layer site_soup simple_urlparse simple_urlunparse simple_urljoin
                    (fun _ => []) (fun _ => []) [pricing_row; home_row; blog_row]
                    "example.com" (Some "en-US")))
  = List.map url [pricing_row; home_row; blog_row].
Proof.
  exact (proj1 (audit_evidence_from_target_pages site_soup simple_urlparse
                  simple_urlunparse simple_urljoin (fun _ => []) (fun _ => [])
                  sample_table "job-1" _ "example.com" (Some "en-US")
                  sample_selection)).
Defined.

(** Two pages that mention reviews give the same entry twice. *)
Example trust_signals_twice :
  let page text := {| audit_job_id := "job-1"; url := "https://example.com/a";
                      domain := "example.com"; is_target := true;
                      html_content := EmptyString; text_content := text;
                      title := EmptyString; meta_description := EmptyString;
                      status_code := 200; content_type := "text/html";
                      word_count := 2; url_hash := EmptyString |} in
  trust_signals_found (build_scraping_summary [page "Customer reviews"; page "More reviews"])
  = ["testimonials/reviews found"; "testimonials/reviews found"].
Proof. vm_compute. reflexivity. Qed.

End Auditor.
